(** * Team Brain: the availability client, the calendar view and the
      availability resolver

    The development follows the repository's TypeScript front end:

    - [Api]: the REST client ([authHeaders], [findAvailability],
      [bookMeeting] and the other team calls of [lib/api]);
    - [JsDate]: the part of ECMAScript's [Date] that [getWeekRange] uses;
    - [CalendarView]: the state, the effects and the render function of
      the calendar component;
    - [Resolver]: the availability resolver of the specification, which the
      front end only calls over HTTP.

    Browser globals ([window], [localStorage], the clock, the time zone and
    the network) are explicit arguments. *)

From Stdlib Require Import ZArith List String Ascii Bool Lia.
From stdpp Require Import gmap strings list sorting pretty.

#[local] Set Warnings "-register-all".
#[local] Open Scope Z_scope.

(* ===================================================================== *)
(** ** JavaScript values shared by the client modules *)
(* ===================================================================== *)

(** The JSON tree handed to [JSON.stringify].  An object literal keeps its
    keys in the order they are written.  Numbers are the integers the
    client passes for durations and limits. *)
Inductive json : Type :=
| JNull
| JBool (b : bool)
| JNum (n : Z)
| JStr (s : string)
| JArr (items : list json)
| JObj (fields : list (string * json)).

(** The keys of an object literal, in order. *)
Definition json_keys (j : json) : list string :=
  match j with
  | JObj fields => map fst fields
  | _ => []
  end.

(** Property read on a JSON object: the first binding of the key. *)
Fixpoint assoc_get (k : string) (fields : list (string * json)) : option json :=
  match fields with
  | [] => None
  | (k', v) :: rest => if String.eqb k k' then Some v else assoc_get k rest
  end.

Definition json_get (k : string) (j : json) : option json :=
  match j with
  | JObj fields => assoc_get k fields
  | _ => None
  end.

(** What a [throw] carries: an [Error] with its message, or any other value. *)
Inductive thrown : Type :=
| ErrorObj (message : string)
| ThrownValue (v : json).

(** A settled promise. *)
Inductive promise (A : Type) : Type :=
| Fulfilled (a : A)
| Rejected (e : thrown).
Arguments Fulfilled {A} a.
Arguments Rejected {A} e.

Definition promise_bind {A B} (p : promise A) (k : A -> promise B) : promise B :=
  match p with
  | Fulfilled a => k a
  | Rejected e => Rejected e
  end.

Notation "'await' x <- p ; k" := (promise_bind p (fun x => k))
  (at level 10, x name, p at level 100, k at level 200).

(** HTTP as [fetch] sees it. *)
Inductive http_method : Type := GET | POST | PUT.

Record Request : Type := mkRequest {
  req_url : string;
  req_method : http_method;
  req_headers : gmap string string;
  req_body : option json          (* the argument of [JSON.stringify] *)
}.

(** A response whose body, read by [res.json()], has the type the caller
    declares for it; reading a body that is not JSON rejects. *)
Record Response (A : Type) : Type := mkResponse {
  res_ok : bool;
  res_json : promise A
}.
Arguments mkResponse {A} _ _.
Arguments res_ok {A} _.
Arguments res_json {A} _.

(** [fetch]: the network answers a request with a response, or the promise
    rejects (no connection). *)
Definition fetch_fn (A : Type) : Type := Request -> promise (Response A).

(** The browser context the client reads. *)
Record BrowserEnv : Type := mkEnv {
  NEXT_PUBLIC_API_URL : option string;   (* process.env.NEXT_PUBLIC_API_URL *)
  window_defined : bool;                 (* typeof window !== "undefined" *)
  localStorage : gmap string string
}.

(** JavaScript truthiness of a string that may be null or undefined. *)
Definition truthy_string (s : option string) : bool :=
  match s with
  | Some EmptyString => false
  | Some _ => true
  | None => false
  end.

(** [a || b] on strings. *)
Definition or_string (a : option string) (b : string) : string :=
  match a with
  | Some s => if truthy_string a then s else b
  | None => b
  end.

(* ===================================================================== *)
(** ** The REST client *)
(* ===================================================================== *)

Module Api.

Definition API_BASE (env : BrowserEnv) : string :=
  or_string (NEXT_PUBLIC_API_URL env) "http://localhost:8000".

Definition content_type_json : gmap string string :=
  {[ "Content-Type" := "application/json" ]}.

(** [localStorage.getItem]: the stored string, or null. *)
Definition getItem (env : BrowserEnv) (k : string) : option string :=
  localStorage env !! k.

Definition authHeaders (env : BrowserEnv) : gmap string string :=
  if negb (window_defined env) then ∅
  else
    let key := getItem env "cortex_api_key" in
    if negb (truthy_string key) then ∅
    else match key with
         | Some k => {[ "Authorization" := "Bearer " +:+ k ]}
         | None => ∅
         end.

(** [{ "Content-Type": "application/json", ...authHeaders() }]: the spread
    is written last, so its keys win. *)
Definition json_headers (env : BrowserEnv) : gmap string string :=
  authHeaders env ∪ content_type_json.

Record Team : Type := mkTeam {
  team_id_ : string;
  team_name : string;
  invite_code : string;
  team_role : option string
}.

(** *** The requests each call sends *)

Definition registerUser_request (env : BrowserEnv) (name : string)
    (email : option string) : Request :=
  {| req_url := API_BASE env +:+ "/teams/users";
     req_method := POST;
     req_headers := content_type_json;
     req_body := Some (JObj [("name", JStr name);
                             ("email", JStr (or_string email ""))]) |}.

Definition createTeam_request (env : BrowserEnv) (name : string) : Request :=
  {| req_url := API_BASE env +:+ "/teams";
     req_method := POST;
     req_headers := json_headers env;
     req_body := Some (JObj [("name", JStr name)]) |}.

Definition joinTeam_request (env : BrowserEnv) (inviteCode : string) : Request :=
  {| req_url := API_BASE env +:+ "/teams/join-with-auth";
     req_method := POST;
     req_headers := json_headers env;
     req_body := Some (JObj [("invite_code", JStr inviteCode)]) |}.

Definition getMyTeams_request (env : BrowserEnv) : Request :=
  {| req_url := API_BASE env +:+ "/teams/me";
     req_method := GET;
     req_headers := authHeaders env;
     req_body := None |}.

Definition getTeamMembers_request (env : BrowserEnv) (teamId : string) : Request :=
  {| req_url := API_BASE env +:+ "/teams/" +:+ teamId +:+ "/members";
     req_method := GET;
     req_headers := authHeaders env;
     req_body := None |}.

Definition updatePokeKey_request (env : BrowserEnv) (teamId pokeApiKey : string)
    : Request :=
  {| req_url := API_BASE env +:+ "/teams/" +:+ teamId +:+ "/members/me/poke-key";
     req_method := PUT;
     req_headers := json_headers env;
     req_body := Some (JObj [("poke_api_key", JStr pokeApiKey)]) |}.

(** A parameter with a default: an omitted argument is [None]. *)
Definition default_duration (durationMinutes : option Z) : Z :=
  match durationMinutes with
  | Some d => d
  | None => 30
  end.

Definition findAvailability_request (env : BrowserEnv)
    (teamId startDate endDate : string) (durationMinutes : option Z) : Request :=
  {| req_url := API_BASE env +:+ "/teams/" +:+ teamId +:+ "/availability/find";
     req_method := POST;
     req_headers := json_headers env;
     req_body := Some (JObj [("start_date", JStr startDate);
                             ("end_date", JStr endDate);
                             ("duration_minutes",
                              JNum (default_duration durationMinutes))]) |}.

Definition bookMeeting_request (env : BrowserEnv)
    (teamId title startTime : string) (durationMinutes : option Z) : Request :=
  {| req_url := API_BASE env +:+ "/teams/" +:+ teamId +:+ "/book";
     req_method := POST;
     req_headers := json_headers env;
     req_body := Some (JObj [("title", JStr title);
                             ("start_time", JStr startTime);
                             ("duration_minutes",
                              JNum (default_duration durationMinutes))]) |}.

(** *** Availability and booking *)

(** One slot as the backend serialises it. *)
Record Slot : Type := mkSlot {
  start : string;
  end_ : string;
  display : string
}.

(** The declared result type [{ slots; message }].  A field the body lacks
    reads as undefined, which the caller guards with [||]. *)
Record AvailabilityResult : Type := mkAvailabilityResult {
  slots : option (list Slot);
  message : option string
}.

Record BookingResult : Type := mkBookingResult {
  booking_message : option string
}.

Definition findAvailability (env : BrowserEnv)
    (fetch : fetch_fn AvailabilityResult)
    (teamId startDate endDate : string) (durationMinutes : option Z)
    : promise AvailabilityResult :=
  await res <- fetch (findAvailability_request env teamId startDate endDate
                        durationMinutes);
  if negb (res_ok res) then Rejected (ErrorObj "Failed to find availability")
  else res_json res.

Definition bookMeeting (env : BrowserEnv)
    (fetch : fetch_fn BookingResult)
    (teamId title startTime : string) (durationMinutes : option Z)
    : promise BookingResult :=
  await res <- fetch (bookMeeting_request env teamId title startTime
                        durationMinutes);
  if negb (res_ok res) then Rejected (ErrorObj "Failed to book meeting")
  else res_json res.

End Api.

(* ===================================================================== *)
(** ** ECMAScript dates, as far as [getWeekRange] uses them *)
(* ===================================================================== *)

Module JsDate.

(** A [Date] is its time value: milliseconds since 1970-01-01T00:00Z. *)
Definition msPerDay : Z := 86400000.
Definition msPerHour : Z := 3600000.
Definition msPerMinute : Z := 60000.
Definition msPerSecond : Z := 1000.

Definition Day (t : Z) : Z := t / msPerDay.
Definition TimeWithinDay (t : Z) : Z := t mod msPerDay.

(** 0 is Sunday; day 0 of the epoch was a Thursday. *)
Definition WeekDay (t : Z) : Z := (Day t + 4) mod 7.

(** The proleptic Gregorian calendar on day numbers: year, month (1 to 12)
    and day of the month of a day number, and back. *)
Definition civil_from_days (z : Z) : Z * Z * Z :=
  let z := z + 719468 in
  let era := z / 146097 in
  let doe := z - era * 146097 in
  let yoe := (doe - doe / 1460 + doe / 36524 - doe / 146096) / 365 in
  let y := yoe + era * 400 in
  let doy := doe - (365 * yoe + yoe / 4 - yoe / 100) in
  let mp := (5 * doy + 2) / 153 in
  let d := doy - (153 * mp + 2) / 5 + 1 in
  let m := if mp <? 10 then mp + 3 else mp - 9 in
  (if m <=? 2 then y + 1 else y, m, d).

Definition days_from_civil (y m d : Z) : Z :=
  let y := if m <=? 2 then y - 1 else y in
  let era := y / 400 in
  let yoe := y - era * 400 in
  let doy := (153 * (if 2 <? m then m - 3 else m + 9) + 2) / 5 + d - 1 in
  let doe := yoe * 365 + yoe / 4 - yoe / 100 + doy in
  era * 146097 + doe - 719468.

Definition YearFromTime (t : Z) : Z := fst (fst (civil_from_days (Day t))).
(** Months count from 0 in JavaScript. *)
Definition MonthFromTime (t : Z) : Z := snd (fst (civil_from_days (Day t))) - 1.
Definition DateFromTime (t : Z) : Z := snd (civil_from_days (Day t)).

(** [MakeDay]: a month or a day of the month out of range carries over. *)
Definition MakeDay (year month date : Z) : Z :=
  let ym := year + month / 12 in
  let mn := month mod 12 in
  days_from_civil ym (mn + 1) 1 + date - 1.

Definition MakeTime (hour min sec ms : Z) : Z :=
  hour * msPerHour + min * msPerMinute + sec * msPerSecond + ms.

Definition MakeDate (day time : Z) : Z := day * msPerDay + time.

Section LocalTime.

(** The zone's offset from UTC in milliseconds (positive east of
    Greenwich), taken constant over the week at hand. *)
Variable LocalTZA : Z.

Definition LocalTime (t : Z) : Z := t + LocalTZA.
Definition UTC (t : Z) : Z := t - LocalTZA.

Definition getDay (tv : Z) : Z := WeekDay (LocalTime tv).
Definition getDate (tv : Z) : Z := DateFromTime (LocalTime tv).
Definition getMonth (tv : Z) : Z := MonthFromTime (LocalTime tv).
Definition getFullYear (tv : Z) : Z := YearFromTime (LocalTime tv).

(** [new Date(year, month, date)]: local midnight; a year from 0 to 99
    means 1900 + year. *)
Definition newDate (year month date : Z) : Z :=
  let yr := if (0 <=? year) && (year <=? 99) then 1900 + year else year in
  UTC (MakeDate (MakeDay yr month date) (MakeTime 0 0 0 0)).

Definition setHours (tv hour min sec ms : Z) : Z :=
  let t := LocalTime tv in
  UTC (MakeDate (Day t) (MakeTime hour min sec ms)).

Definition setDate (tv dt : Z) : Z :=
  let t := LocalTime tv in
  UTC (MakeDate (MakeDay (YearFromTime t) (MonthFromTime t) dt) (TimeWithinDay t)).

End LocalTime.

(** *** A zone whose offset moves

    The offset a [Date] applies is the one in force at the time at hand:
    [LocalTZA(t, true)] for a time value [t], and [LocalTZA(t, false)] for
    a local time [t] (where a local time is skipped or repeated by a
    change of offset, the offset before the change). *)
Record Zone : Type := mkZone {
  LocalTZA_utc : Z -> Z;       (* LocalTZA(t, true) *)
  LocalTZA_local : Z -> Z      (* LocalTZA(t, false) *)
}.

(** A zone that keeps one offset. *)
Definition fixed_zone (LocalTZA : Z) : Zone :=
  {| LocalTZA_utc := fun _ => LocalTZA; LocalTZA_local := fun _ => LocalTZA |}.

(** The methods of [Date] in such a zone; those of the section above are
    these in a [fixed_zone]. *)
Module Zoned.

Section InZone.

Variable zone : Zone.

Definition LocalTime (t : Z) : Z := t + LocalTZA_utc zone t.
Definition UTC (t : Z) : Z := t - LocalTZA_local zone t.

Definition getDay (tv : Z) : Z := WeekDay (LocalTime tv).
Definition getDate (tv : Z) : Z := DateFromTime (LocalTime tv).
Definition getMonth (tv : Z) : Z := MonthFromTime (LocalTime tv).
Definition getFullYear (tv : Z) : Z := YearFromTime (LocalTime tv).

Definition newDate (year month date : Z) : Z :=
  let yr := if (0 <=? year) && (year <=? 99) then 1900 + year else year in
  UTC (MakeDate (MakeDay yr month date) (MakeTime 0 0 0 0)).

Definition setHours (tv hour min sec ms : Z) : Z :=
  let t := LocalTime tv in
  UTC (MakeDate (Day t) (MakeTime hour min sec ms)).

Definition setDate (tv dt : Z) : Z :=
  let t := LocalTime tv in
  UTC (MakeDate (MakeDay (YearFromTime t) (MonthFromTime t) dt) (TimeWithinDay t)).

End InZone.

End Zoned.

(** Decimal digits, zero padded to a width. *)
Definition digit (d : Z) : ascii := ascii_of_nat (48 + Z.to_nat d).

Fixpoint pad_dec (width : nat) (n : Z) : string :=
  match width with
  | O => EmptyString
  | S w => pad_dec w (n / 10) +:+ String (digit (n mod 10)) EmptyString
  end.

(** The year of [toISOString]: four digits from 0 to 9999, otherwise a sign
    and six digits. *)
Definition iso_year (y : Z) : string :=
  if (0 <=? y) && (y <=? 9999) then pad_dec 4 y
  else (if y <? 0 then "-" else "+") +:+ pad_dec 6 (Z.abs y).

(** [toISOString] reads the time value in UTC, whatever the local zone. *)
Definition toISOString (tv : Z) : string :=
  let w := TimeWithinDay tv in
  iso_year (YearFromTime tv) +:+ "-" +:+ pad_dec 2 (MonthFromTime tv + 1)
    +:+ "-" +:+ pad_dec 2 (DateFromTime tv)
    +:+ "T" +:+ pad_dec 2 (w / msPerHour)
    +:+ ":" +:+ pad_dec 2 (w mod msPerHour / msPerMinute)
    +:+ ":" +:+ pad_dec 2 (w mod msPerMinute / msPerSecond)
    +:+ "." +:+ pad_dec 3 (w mod msPerSecond) +:+ "Z".

(** [s.slice(0, n)]. *)
Definition slice0 (n : nat) (s : string) : string := String.substring 0 n s.

End JsDate.

(* ===================================================================== *)
(** ** The calendar component *)
(* ===================================================================== *)

Module CalendarView.

Record WeekRange : Type := mkRange {
  range_start : string;     (* start *)
  range_end : string        (* end *)
}.

(** [getWeekRange()], with the clock reading [now] and the zone offset. *)
Definition getWeekRange (LocalTZA now : Z) : WeekRange :=
  let day := JsDate.getDay LocalTZA now in
  let diff := JsDate.getDate LocalTZA now - day + (if day =? 0 then -6 else 1) in
  let monday :=
    JsDate.newDate LocalTZA (JsDate.getFullYear LocalTZA now)
      (JsDate.getMonth LocalTZA now) diff in
  let monday := JsDate.setHours LocalTZA monday 0 0 0 0 in
  let friday := monday in
  let friday := JsDate.setDate LocalTZA friday (JsDate.getDate LocalTZA monday + 4) in
  {| range_start := JsDate.slice0 10 (JsDate.toISOString monday);
     range_end := JsDate.slice0 10 (JsDate.toISOString friday) |}.

(** [getWeekRange()] in a zone whose offset may move during the week; the
    definition above is this one in a [fixed_zone]. *)
Module Zoned.

Definition getWeekRange (zone : JsDate.Zone) (now : Z) : WeekRange :=
  let day := JsDate.Zoned.getDay zone now in
  let diff := JsDate.Zoned.getDate zone now - day + (if day =? 0 then -6 else 1) in
  let monday :=
    JsDate.Zoned.newDate zone (JsDate.Zoned.getFullYear zone now)
      (JsDate.Zoned.getMonth zone now) diff in
  let monday := JsDate.Zoned.setHours zone monday 0 0 0 0 in
  let friday := monday in
  let friday :=
    JsDate.Zoned.setDate zone friday (JsDate.Zoned.getDate zone monday + 4) in
  {| range_start := JsDate.slice0 10 (JsDate.toISOString monday);
     range_end := JsDate.slice0 10 (JsDate.toISOString friday) |}.

End Zoned.

Definition HOURS : list Z := map (fun i => Z.of_nat i + 9) (seq 0 10).
Definition DAYS : list string := ["Mon"; "Tue"; "Wed"; "Thu"; "Fri"].

Record Booking : Type := mkBooking {
  title : string;
  slot : Api.Slot;
  duration : Z
}.

(** The component's state: one field per [useState]. *)
Record State : Type := mkState {
  loading : bool;
  slots : list Api.Slot;
  message : string;
  booking : option Booking;
  range : WeekRange
}.

Definition initial_state (LocalTZA now : Z) : State :=
  {| loading := false; slots := []; message := ""; booking := None;
     range := getWeekRange LocalTZA now |}.

Definition setLoading (b : bool) (st : State) : State :=
  {| loading := b; slots := slots st; message := message st;
     booking := booking st; range := range st |}.
Definition setSlots (l : list Api.Slot) (st : State) : State :=
  {| loading := loading st; slots := l; message := message st;
     booking := booking st; range := range st |}.
Definition setMessage (m : string) (st : State) : State :=
  {| loading := loading st; slots := slots st; message := m;
     booking := booking st; range := range st |}.
Definition setBooking (b : option Booking) (st : State) : State :=
  {| loading := loading st; slots := slots st; message := message st;
     booking := b; range := range st |}.

(** [result.slots || []]: an array is truthy even when empty. *)
Definition or_slots (l : option (list Api.Slot)) : list Api.Slot :=
  match l with
  | Some l => l
  | None => []
  end.

(** [e instanceof Error ? e.message : fallback]. *)
Definition error_message (e : thrown) (fallback : string) : string :=
  match e with
  | ErrorObj m => m
  | ThrownValue _ => fallback
  end.

(** Which branch of the [try] ran. *)
Inductive path : Type := NormalPath | ErrorPath.

Definition fetchSlots_path (env : BrowserEnv)
    (fetch : fetch_fn Api.AvailabilityResult) (team : Api.Team) (st : State)
    : path :=
  match Api.findAvailability env fetch (Api.team_id_ team)
          (range_start (range st)) (range_end (range st)) (Some 30) with
  | Fulfilled _ => NormalPath
  | Rejected _ => ErrorPath
  end.

(** [fetchSlots]: the state once the promise has settled and the [finally]
    block has run. *)
Definition fetchSlots (env : BrowserEnv)
    (fetch : fetch_fn Api.AvailabilityResult) (team : Api.Team) (st : State)
    : State :=
  let st := setLoading true st in
  let st := setMessage "" st in
  let st :=
    match Api.findAvailability env fetch (Api.team_id_ team)
            (range_start (range st)) (range_end (range st)) (Some 30) with
    | Fulfilled result =>
        let st := setSlots (or_slots (Api.slots result)) st in
        setMessage (or_string (Api.message result) "") st
    | Rejected e =>
        let st := setMessage (error_message e "Failed to load availability") st in
        setSlots [] st
    end in
  setLoading false st.

(** [handleBook]: the next state and the text of the alert, if one is shown. *)
Definition handleBook (env : BrowserEnv)
    (fetchA : fetch_fn Api.AvailabilityResult)
    (fetchB : fetch_fn Api.BookingResult) (team : Api.Team) (st : State)
    : State * option string :=
  match booking st with
  | None => (st, None)
  | Some b =>
      match Api.bookMeeting env fetchB (Api.team_id_ team) (title b)
              (Api.start (slot b)) (Some (duration b)) with
      | Fulfilled _ => (fetchSlots env fetchA team (setBooking None st), None)
      | Rejected e => (st, Some (error_message e "Booking failed"))
      end
  end.

(** What the component draws. *)
Record SlotButton : Type := mkSlotButton {
  key : nat;
  label : string;          (* slot.display *)
  onClick : Booking        (* the booking the click opens *)
}.

Record View : Type := mkView {
  header_range : string * string;
  spinner : bool;
  message_box : option string;
  slot_buttons : list SlotButton;
  booking_modal : option Booking
}.

Definition slot_button (i : nat) (s : Api.Slot) : SlotButton :=
  {| key := i;
     label := Api.display s;
     onClick := {| title := "Team standup"; slot := s; duration := 30 |} |}.

Definition render (st : State) : View :=
  {| header_range := (range_start (range st), range_end (range st));
     spinner := loading st;
     message_box :=
       if loading st then None
       else if truthy_string (Some (message st)) then Some (message st)
       else None;
     slot_buttons :=
       if loading st then []
       else if (0 <? length (slots st))%nat
            then imap slot_button (take 8 (slots st))
            else [];
     booking_modal := booking st |}.

End CalendarView.

(* ===================================================================== *)
(** ** The availability resolver *)
(* ===================================================================== *)

Module Resolver.

(** Modelled from the spec: the resolver runs in the backend behind
    [POST /teams/{id}/availability/find], whose code is not among the
    front-end sources; the definitions of this module follow sections 3,
    4.1, 4.2 and 7 of the specification.  Timestamps are minutes of local
    wall-clock time since day 0 and dates are day numbers, so that day [d]
    spans the minutes from [d * 1440] up to [(d + 1) * 1440]. *)
Definition minutesPerDay : Z := 1440.

Definition date_of (t : Z) : Z := t / minutesPerDay.

Inductive Weekday : Type :=
| Sunday | Monday | Tuesday | Wednesday | Thursday | Friday | Saturday.

#[global] Instance Weekday_eq_dec : EqDecision Weekday.
Proof. solve_decision. Defined.

Definition weekday_of_date (d : Z) : Weekday :=
  match (d + 4) mod 7 with
  | 0 => Sunday
  | 1 => Monday
  | 2 => Tuesday
  | 3 => Wednesday
  | 4 => Thursday
  | 5 => Friday
  | _ => Saturday
  end.

(** Modelled from the spec: section 3, a half-open interval [start, end). *)
Record TimeInterval : Type := mkInterval {
  iv_start : Z;
  iv_end : Z
}.

(** Modelled from the spec: section 3, hours of the day, from 0 to 24. *)
Record WorkingHours : Type := mkHours {
  start_hour : Z;
  end_hour : Z
}.

(** Modelled from the spec: section 3; an omitted field takes its default. *)
Record AvailabilityRequest : Type := mkAvailabilityRequest {
  team_id : string;
  start_date : Z;
  end_date : Z;
  duration_minutes : Z;
  working_hours : option WorkingHours;      (* default 9 to 17 *)
  days_included : option (list Weekday)     (* default Monday to Friday *)
}.

(** Modelled from the spec: section 3, the output unit. *)
Record Slot : Type := mkSlot {
  start : Z;
  end_ : Z;
  display : string
}.

(** Modelled from the spec: section 7; [NoCommonSlot] is not an error but
    a response with no slot and a message. *)
Inductive ResolverError : Type := InvalidRequest.

Record AvailabilityResponse : Type := mkAvailabilityResponse {
  slots : list Slot;
  message : string
}.

Definition default_working_hours : WorkingHours :=
  {| start_hour := 9; end_hour := 17 |}.
Definition default_days : list Weekday :=
  [Monday; Tuesday; Wednesday; Thursday; Friday].

Definition hours_of (req : AvailabilityRequest) : WorkingHours :=
  default default_working_hours (working_hours req).
Definition days_of (req : AvailabilityRequest) : list Weekday :=
  default default_days (days_included req).

(** Modelled from the spec: the resolver's code is not among the front-end
    sources; step 1 of section 4.1, every date of the range whose weekday
    is included. *)
Definition candidate_days (req : AvailabilityRequest) : list Z :=
  filter (fun d => weekday_of_date d ∈ days_of req)
         (seqZ (start_date req) (end_date req - start_date req + 1)).

(** Modelled from the spec: step 2, the working window of a day. *)
Definition day_window (wh : WorkingHours) (d : Z) : TimeInterval :=
  {| iv_start := d * minutesPerDay + 60 * start_hour wh;
     iv_end := d * minutesPerDay + 60 * end_hour wh |}.

(** Modelled from the spec: step 3, a busy interval intersected with the
    day window; nothing is left of one that misses the window. *)
Definition clip (w b : TimeInterval) : option TimeInterval :=
  let s := Z.max (iv_start b) (iv_start w) in
  let e := Z.min (iv_end b) (iv_end w) in
  if s <? e then Some {| iv_start := s; iv_end := e |} else None.

Definition starts_before (a b : TimeInterval) : Prop := iv_start a <= iv_start b.

#[global] Instance starts_before_dec : RelDecision starts_before.
Proof. intros a b. unfold starts_before. apply _. Defined.

(** Modelled from the spec: step 3, the walk over the sorted busy intervals
    with the cursor of remaining free time. *)
Fixpoint free_walk (cursor wend : Z) (busy : list TimeInterval)
    : list TimeInterval :=
  match busy with
  | [] =>
      if cursor <? wend then [ {| iv_start := cursor; iv_end := wend |} ] else []
  | b :: rest =>
      (if cursor <? iv_start b
       then [ {| iv_start := cursor; iv_end := iv_start b |} ] else [])
      ++ free_walk (Z.max cursor (iv_end b)) wend rest
  end.

(** Modelled from the spec: step 3, one member's free intervals of a day. *)
Definition member_free (w : TimeInterval) (busy : list TimeInterval)
    : list TimeInterval :=
  free_walk (iv_start w) (iv_end w)
    (merge_sort starts_before (omap (clip w) busy)).

(** Modelled from the spec: step 4, a boundary of a member's free
    interval: [+1] where it starts, [-1] where it ends. *)
Record Event : Type := mkEvent {
  ev_time : Z;
  ev_delta : Z
}.

Definition interval_events (iv : TimeInterval) : list Event :=
  [ {| ev_time := iv_start iv; ev_delta := 1 |};
    {| ev_time := iv_end iv; ev_delta := -1 |} ].

(** Modelled from the spec: step 4, the order of the merged events: by
    time, and at one instant the ends before the starts. *)
Definition event_le (a b : Event) : Prop :=
  ev_time a < ev_time b \/ (ev_time a = ev_time b /\ ev_delta a <= ev_delta b).

#[global] Instance event_le_dec : RelDecision event_le.
Proof. intros a b. unfold event_le. apply _. Defined.

(** Modelled from the spec: step 4, the sweep.  [count] members are free
    at the cursor; [run] is where the current all-free run began, if the
    count equals the team size [n]. *)
Fixpoint sweep (n count : Z) (run : option Z) (wend : Z) (evs : list Event)
    : list TimeInterval :=
  match evs with
  | [] =>
      match run with
      | Some s => if s <? wend then [ {| iv_start := s; iv_end := wend |} ] else []
      | None => []
      end
  | e :: rest =>
      let count' := count + ev_delta e in
      match run with
      | Some s =>
          if count' =? n then sweep n count' run wend rest
          else (if s <? ev_time e
                then [ {| iv_start := s; iv_end := ev_time e |} ] else [])
               ++ sweep n count' None wend rest
      | None =>
          if count' =? n then sweep n count' (Some (ev_time e)) wend rest
          else sweep n count' None wend rest
      end
  end.

(** Modelled from the spec: steps 3 and 4 for one day.  The members are the
    keys of the busy map, each counted once; a member without an entry does
    not constrain the team (the recommended policy), and with no member at
    all the whole window is free. *)
Definition all_free_windows (team_busy : gmap string (list TimeInterval))
    (wh : WorkingHours) (d : Z) : list TimeInterval :=
  let w := day_window wh d in
  let frees := (fun kv => member_free w (snd kv)) <$> map_to_list team_busy in
  let n := Z.of_nat (size team_busy) in
  sweep n 0 (if n =? 0 then Some (iv_start w) else None) (iv_end w)
    (merge_sort event_le (frees ≫= fun f => f ≫= interval_events)).

(** Modelled from the spec: step 5, the loop [while slot_end <= window_end].
    Each turn moves the cursor by the duration, so a window of [k] minutes
    needs at most [k] turns when the duration is positive. *)
Fixpoint tile (fuel : nat) (cursor dur wend : Z) : list (Z * Z) :=
  match fuel with
  | O => []
  | S fuel =>
      if cursor + dur <=? wend
      then (cursor, cursor + dur) :: tile fuel (cursor + dur) dur wend
      else []
  end.

Definition tile_window (dur : Z) (w : TimeInterval) : list (Z * Z) :=
  tile (Z.to_nat (iv_end w - iv_start w)) (iv_start w) dur (iv_end w).

Definition weekday_name (d : Z) : string :=
  match weekday_of_date d with
  | Sunday => "Sun" | Monday => "Mon" | Tuesday => "Tue" | Wednesday => "Wed"
  | Thursday => "Thu" | Friday => "Fri" | Saturday => "Sat"
  end.

Definition month_name (m : Z) : string :=
  match m with
  | 1 => "Jan" | 2 => "Feb" | 3 => "Mar" | 4 => "Apr" | 5 => "May" | 6 => "Jun"
  | 7 => "Jul" | 8 => "Aug" | 9 => "Sep" | 10 => "Oct" | 11 => "Nov"
  | _ => "Dec"
  end.

(** A time of day on the twelve-hour clock, without its AM or PM. *)
Definition clock12 (t : Z) : string :=
  let m := t mod minutesPerDay in
  let h := m / 60 mod 12 in
  pretty (if h =? 0 then 12 else h) +:+ ":" +:+ JsDate.pad_dec 2 (m mod 60).

Definition am_pm (t : Z) : string :=
  if t mod minutesPerDay <? 720 then "AM" else "PM".

(** Modelled from the spec: section 4.2, weekday, date and time range in
    the shape of ["Mon, Mar 3 · 2:00–2:30 PM"]. *)
Definition format_slot (s e : Z) : string :=
  let '(_, m, d) := JsDate.civil_from_days (date_of s) in
  weekday_name (date_of s) +:+ ", " +:+ month_name m +:+ " " +:+ pretty d
    +:+ " · " +:+ clock12 s +:+ "–" +:+ clock12 e +:+ " " +:+ am_pm e.

Definition make_slot (p : Z * Z) : Slot :=
  {| start := fst p; end_ := snd p; display := format_slot (fst p) (snd p) |}.

(** Modelled from the spec: steps 1 to 6 without the validation, the slots
    of every candidate day in chronological order. *)
Definition common_slots (team_busy : gmap string (list TimeInterval))
    (req : AvailabilityRequest) : list Slot :=
  candidate_days req ≫= fun d =>
    all_free_windows team_busy (hours_of req) d ≫= fun w =>
      make_slot <$> tile_window (duration_minutes req) w.

Definition no_common_slot_message : string :=
  "No common free slot was found for the team in the requested range.".

(** Modelled from the spec: the contract of section 4.1 with the failure
    semantics of section 7.  The text of the message is the model's; the
    spec asks for it only when no slot is found. *)
Definition find_common_slots (team_busy : gmap string (list TimeInterval))
    (req : AvailabilityRequest) : ResolverError + AvailabilityResponse :=
  if duration_minutes req <=? 0 then inl InvalidRequest
  else if end_date req <? start_date req then inl InvalidRequest
  else
    let found := common_slots team_busy req in
    inr {| slots := found;
           message := match found with
                      | [] => no_common_slot_message
                      | _ => ""
                      end |}.

End Resolver.

(* ===================================================================== *)
(** ** JavaScript conversions used by the other client calls *)
(* ===================================================================== *)

Module Js.

(** A value that may be [undefined] is an optional JSON value. *)
Definition truthy (v : option json) : bool :=
  match v with
  | None => false
  | Some JNull => false
  | Some (JBool b) => b
  | Some (JNum n) => negb (n =? 0)
  | Some (JStr s) => negb (String.eqb s "")
  | Some (JArr _) => true
  | Some (JObj _) => true
  end.

(** [Number.isSafeInteger]: the integers a number holds exactly, all of
    which print in plain decimal. *)
Definition safe_integer (n : Z) : bool :=
  (-9007199254740992 <? n) && (n <? 9007199254740992).

(** [String(v)] on a parsed JSON value: an array joins its elements with
    commas, a null element printing as nothing; an object prints as
    ["[object Object]"].  Numbers are taken to be safe integers, which
    print in plain decimal; a larger or fractional number prints otherwise
    and has no counterpart here. *)
Fixpoint to_string (j : json) : string :=
  match j with
  | JNull => "null"
  | JBool true => "true"
  | JBool false => "false"
  | JNum n => pretty n
  | JStr s => s
  | JArr items =>
      String.concat ","
        (map (fun x => match x with JNull => "" | _ => to_string x end) items)
  | JObj _ => "[object Object]"
  end.

Definition ToString (v : option json) : string :=
  match v with
  | None => "undefined"
  | Some j => to_string j
  end.

(** [JSON.parse] keeps the last of several bindings of one key. *)
Definition own_property (k : string) (fields : list (string * json)) : option json :=
  assoc_get k (rev fields).

(** [v.k] on a parsed JSON value, for a name [k] that no prototype
    defines (such as [detail]): reading a property of [null] throws a
    [TypeError] (the text is V8's), a primitive or an array has no such
    property. *)
Definition get (v : json) (k : string) : promise (option json) :=
  match v with
  | JNull =>
      Rejected (ErrorObj ("Cannot read properties of null (reading '"
                          +:+ k +:+ "')"))
  | JObj fields => Fulfilled (own_property k fields)
  | _ => Fulfilled None
  end.

(** *** [URLSearchParams] *)

Definition is_digit (c : ascii) : bool :=
  (48 <=? nat_of_ascii c)%nat && (nat_of_ascii c <=? 57)%nat.
Definition is_upper (c : ascii) : bool :=
  (65 <=? nat_of_ascii c)%nat && (nat_of_ascii c <=? 90)%nat.
Definition is_lower (c : ascii) : bool :=
  (97 <=? nat_of_ascii c)%nat && (nat_of_ascii c <=? 122)%nat.
Definition is_alnum (c : ascii) : bool := is_digit c || is_upper c || is_lower c.

Definition hex_digit (n : nat) : ascii :=
  ascii_of_nat (if (n <? 10)%nat then 48 + n else 55 + n).

Definition percent_encode_byte (c : ascii) : string :=
  String "%" (String (hex_digit (nat_of_ascii c / 16))
               (String (hex_digit (nat_of_ascii c mod 16)) EmptyString)).

(** The application/x-www-form-urlencoded byte serializer, on the UTF-8
    bytes of the text: letters, digits and [*-._] stay, a space becomes
    [+], every other byte is percent-encoded. *)
Definition form_encode_byte (c : ascii) : string :=
  if Ascii.eqb c " " then "+"
  else if is_alnum c || Ascii.eqb c "*" || Ascii.eqb c "-"
          || Ascii.eqb c "." || Ascii.eqb c "_"
       then String c EmptyString
       else percent_encode_byte c.

Fixpoint form_urlencode (s : string) : string :=
  match s with
  | EmptyString => EmptyString
  | String c rest => form_encode_byte c +:+ form_urlencode rest
  end.

(** [params.toString()] for the pairs set so far, in order. *)
Definition search_params_toString (params : list (string * string)) : string :=
  String.concat "&"
    (map (fun kv => form_urlencode (fst kv) +:+ "=" +:+ form_urlencode (snd kv))
         params).

End Js.

(* ===================================================================== *)
(** ** The other calls of the REST client *)
(* ===================================================================== *)

Module Client.

(** A response as these calls read it: [res.json()] yields the shape the
    call's signature declares when the response is ok, and an untyped
    error object when the call reads the body of a response that is not
    ok. *)
Record Reply (A : Type) : Type := mkReply {
  ok : bool;
  json_ok : promise A;
  json_err : promise json
}.
Arguments mkReply {A} _ _ _.
Arguments ok {A} _.
Arguments json_ok {A} _.
Arguments json_err {A} _.

Definition fetch_of (A : Type) : Type := Request -> promise (Reply A).

(** [const err = await res.json(); throw new Error(err.detail || fallback)]. *)
Definition throw_detail {A B} (res : Reply A) (fallback : string) : promise B :=
  await err <- json_err res;
  await detail <- Js.get err "detail";
  Rejected (ErrorObj (if Js.truthy detail then Js.ToString detail else fallback)).

Record DumpResponse : Type := mkDumpResponse {
  success : bool;
  entry : json;                (* Record<string, unknown> *)
  storage : option json        (* Record<string, unknown> | null *)
}.

Definition dump_request (env : BrowserEnv) (text : string) : Request :=
  {| req_url := Api.API_BASE env +:+ "/dump";
     req_method := POST;
     req_headers := Api.content_type_json;
     req_body := Some (JObj [("text", JStr text)]) |}.

Definition dump (env : BrowserEnv) (fetch : fetch_of DumpResponse)
    (text : string) : promise DumpResponse :=
  await res <- fetch (dump_request env text);
  if negb (ok res) then throw_detail res "Failed to process input"
  else json_ok res.

Inductive Role : Type := user | assistant.

Record ChatMessage : Type := mkChatMessage {
  role : Role;
  content : string
}.

Definition role_json (r : Role) : json :=
  match r with
  | user => JStr "user"
  | assistant => JStr "assistant"
  end.

Definition message_json (m : ChatMessage) : json :=
  JObj [("role", role_json (role m)); ("content", JStr (content m))].

Record ChatBody : Type := mkChatBody { response : string }.

Definition chat_request (env : BrowserEnv) (messages : list ChatMessage) : Request :=
  {| req_url := Api.API_BASE env +:+ "/chat";
     req_method := POST;
     req_headers := Api.content_type_json;
     req_body := Some (JObj [("messages", JArr (map message_json messages))]) |}.

Definition chat (env : BrowserEnv) (fetch : fetch_of ChatBody)
    (messages : list ChatMessage) : promise string :=
  await res <- fetch (chat_request env messages);
  if negb (ok res) then throw_detail res "Chat failed"
  else await data <- json_ok res; Fulfilled (response data).

(** [EntryItem]: the declared fields, and the others of the open record. *)
Record EntryItem : Type := mkEntryItem {
  id : option string;
  category : string;
  summary : option string;
  title : option string;
  content_ : option string;          (* content *)
  description : option string;
  raw_input : option string;
  tags : option (list string);
  priority : option string;
  urgency : option string;
  mood : option string;
  product : option string;
  created_at : option string;
  other_fields : list (string * json)
}.

Record EntriesBody : Type := mkEntriesBody { entries : list EntryItem }.

(** [getEntries(category?, limit = 50)]: the parameters set, in order.
    The limit is taken to be a safe integer ([Js.safe_integer]), which
    [limit.toString()] prints in plain decimal; a larger limit prints
    rounded or in exponent notation and a fractional one with its
    fraction, which this definition does not follow. *)
Definition getEntries_params (category : option string) (limit : option Z)
    : list (string * string) :=
  (if truthy_string category then [("category", default "" category)] else [])
  ++ [("limit", pretty (default 50 limit))].

Definition getEntries_request (env : BrowserEnv) (category : option string)
    (limit : option Z) : Request :=
  {| req_url := Api.API_BASE env +:+ "/entries?"
                +:+ Js.search_params_toString (getEntries_params category limit);
     req_method := GET;
     req_headers := ∅;
     req_body := None |}.

Definition getEntries (env : BrowserEnv) (fetch : fetch_of EntriesBody)
    (category : option string) (limit : option Z) : promise (list EntryItem) :=
  await res <- fetch (getEntries_request env category limit);
  if negb (ok res) then Rejected (ErrorObj "Failed to fetch entries")
  else await data <- json_ok res; Fulfilled (entries data).

Record SearchBody : Type := mkSearchBody { results : list EntryItem }.

(** [JSON.stringify({ query, categories })] leaves out [categories] when it
    is undefined. *)
Definition search_request (env : BrowserEnv) (query : string)
    (categories : option (list string)) : Request :=
  {| req_url := Api.API_BASE env +:+ "/query";
     req_method := POST;
     req_headers := Api.content_type_json;
     req_body :=
       Some (JObj ([("query", JStr query)]
                   ++ match categories with
                      | Some cs => [("categories", JArr (map JStr cs))]
                      | None => []
                      end)) |}.

Definition search (env : BrowserEnv) (fetch : fetch_of SearchBody)
    (query : string) (categories : option (list string))
    : promise (list EntryItem) :=
  await res <- fetch (search_request env query categories);
  if negb (ok res) then Rejected (ErrorObj "Search failed")
  else await data <- json_ok res; Fulfilled (results data).

(** *** Team calls *)

Record TeamMember : Type := mkTeamMember {
  member_id : string;          (* id *)
  member_name : string;        (* name *)
  member_email : option string;
  member_role : string;
  poke_connected : bool
}.

Record RegisterBody : Type := mkRegisterBody {
  api_key : string;
  user_id : string
}.

Definition registerUser (env : BrowserEnv) (fetch : fetch_of RegisterBody)
    (name : string) (email : option string) : promise RegisterBody :=
  await res <- fetch (Api.registerUser_request env name email);
  if negb (ok res) then Rejected (ErrorObj "Registration failed")
  else await data <- json_ok res;
       Fulfilled {| api_key := api_key data; user_id := user_id data |}.

Definition createTeam (env : BrowserEnv) (fetch : fetch_of Api.Team)
    (name : string) : promise Api.Team :=
  await res <- fetch (Api.createTeam_request env name);
  if negb (ok res) then throw_detail res "Failed to create team"
  else json_ok res.

Record JoinBody : Type := mkJoinBody {
  team_id : string;
  team_name : string;
  invite_code : string
}.

Definition joinTeam (env : BrowserEnv) (fetch : fetch_of JoinBody)
    (inviteCode : string) : promise Api.Team :=
  await res <- fetch (Api.joinTeam_request env inviteCode);
  if negb (ok res) then throw_detail res "Failed to join team"
  else await data <- json_ok res;
       Fulfilled {| Api.team_id_ := team_id data;
                    Api.team_name := team_name data;
                    Api.invite_code := invite_code data;
                    Api.team_role := None |}.

Record TeamsBody : Type := mkTeamsBody { teams : option (list Api.Team) }.

Definition getMyTeams (env : BrowserEnv) (fetch : fetch_of TeamsBody)
    : promise (list Api.Team) :=
  await res <- fetch (Api.getMyTeams_request env);
  if negb (ok res) then Rejected (ErrorObj "Failed to fetch teams")
  else await data <- json_ok res; Fulfilled (default [] (teams data)).

Record MembersBody : Type := mkMembersBody { members : option (list TeamMember) }.

Definition getTeamMembers (env : BrowserEnv) (fetch : fetch_of MembersBody)
    (teamId : string) : promise (list TeamMember) :=
  await res <- fetch (Api.getTeamMembers_request env teamId);
  if negb (ok res) then Rejected (ErrorObj "Failed to fetch members")
  else await data <- json_ok res; Fulfilled (default [] (members data)).

(** [updatePokeKey] returns nothing and never reads the body. *)
Definition updatePokeKey (env : BrowserEnv) (fetch : fetch_of unit)
    (teamId pokeApiKey : string) : promise unit :=
  await res <- fetch (Api.updatePokeKey_request env teamId pokeApiKey);
  if negb (ok res) then Rejected (ErrorObj "Failed to update Poke key")
  else Fulfilled tt.

End Client.

(* ===================================================================== *)
(** ** The team set-up wizard *)
(* ===================================================================== *)

(** [localStorage.setItem]. *)
Definition setItem (env : BrowserEnv) (k v : string) : BrowserEnv :=
  {| NEXT_PUBLIC_API_URL := NEXT_PUBLIC_API_URL env;
     window_defined := window_defined env;
     localStorage := <[k := v]> (localStorage env) |}.

Module TeamSetup.

Inductive Step : Type := register | create_or_join | create | join | done.

#[global] Instance Step_eq_dec : EqDecision Step.
Proof. solve_decision. Defined.

(** One field per [useState]. *)
Record State : Type := mkState {
  step : Step;
  name : string;
  email : string;
  teamName : string;
  inviteCode : string;
  apiKey : string;
  error : string;
  copied : bool
}.

(** What the component touches outside its state: the browser's storage,
    the texts written to the clipboard and the teams handed to
    [onComplete], oldest first. *)
Record Outside : Type := mkOutside {
  browser : BrowserEnv;
  clipboard : list string;
  completed : list Api.Team
}.

Definition initial (initialApiKey : option string) : State :=
  {| step := if truthy_string initialApiKey then create_or_join else register;
     name := ""; email := ""; teamName := ""; inviteCode := "";
     apiKey := or_string initialApiKey "";
     error := ""; copied := false |}.

Definition setStep (s : Step) (st : State) : State :=
  {| step := s; name := name st; email := email st; teamName := teamName st;
     inviteCode := inviteCode st; apiKey := apiKey st; error := error st;
     copied := copied st |}.
Definition setName (v : string) (st : State) : State :=
  {| step := step st; name := v; email := email st; teamName := teamName st;
     inviteCode := inviteCode st; apiKey := apiKey st; error := error st;
     copied := copied st |}.
Definition setEmail (v : string) (st : State) : State :=
  {| step := step st; name := name st; email := v; teamName := teamName st;
     inviteCode := inviteCode st; apiKey := apiKey st; error := error st;
     copied := copied st |}.
Definition setTeamName (v : string) (st : State) : State :=
  {| step := step st; name := name st; email := email st; teamName := v;
     inviteCode := inviteCode st; apiKey := apiKey st; error := error st;
     copied := copied st |}.
Definition setInviteCode (v : string) (st : State) : State :=
  {| step := step st; name := name st; email := email st; teamName := teamName st;
     inviteCode := v; apiKey := apiKey st; error := error st;
     copied := copied st |}.
Definition setApiKey (v : string) (st : State) : State :=
  {| step := step st; name := name st; email := email st; teamName := teamName st;
     inviteCode := inviteCode st; apiKey := v; error := error st;
     copied := copied st |}.
Definition setError (v : string) (st : State) : State :=
  {| step := step st; name := name st; email := email st; teamName := teamName st;
     inviteCode := inviteCode st; apiKey := apiKey st; error := v;
     copied := copied st |}.
Definition setCopied (b : bool) (st : State) : State :=
  {| step := step st; name := name st; email := email st; teamName := teamName st;
     inviteCode := inviteCode st; apiKey := apiKey st; error := error st;
     copied := b |}.

Definition store (env : BrowserEnv) (out : Outside) : Outside :=
  {| browser := env; clipboard := clipboard out; completed := completed out |}.
Definition writeText (text : string) (out : Outside) : Outside :=
  {| browser := browser out; clipboard := clipboard out ++ [text];
     completed := completed out |}.
Definition onComplete (team : Api.Team) (out : Outside) : Outside :=
  {| browser := browser out; clipboard := clipboard out;
     completed := completed out ++ [team] |}.

(** [s.trim()] is empty. *)
Definition blank (trimmed : string) : bool := negb (truthy_string (Some trimmed)).

Section Builtins.

(** [String.prototype.trim] and [String.prototype.toUpperCase]. *)
Variable trim : string -> string.
Variable toUpperCase : string -> string.

Definition handleRegister (fetch : Client.fetch_of Client.RegisterBody)
    (st : State) (out : Outside) : State * Outside :=
  if blank (trim (name st)) then (st, out)
  else
    let st := setError "" st in
    match Client.registerUser (browser out) fetch (trim (name st))
            (Some (trim (email st))) with
    | Fulfilled r =>
        let st := setApiKey (Client.api_key r) st in
        let out := store (setItem (browser out) "cortex_api_key" (Client.api_key r)) out in
        (setStep create_or_join st, out)
    | Rejected e =>
        (setError (CalendarView.error_message e "Registration failed") st, out)
    end.

Definition handleCreateTeam (fetch : Client.fetch_of Api.Team)
    (st : State) (out : Outside) : State * Outside :=
  if blank (trim (teamName st)) then (st, out)
  else
    let st := setError "" st in
    match Client.createTeam (browser out) fetch (trim (teamName st)) with
    | Fulfilled team => (setStep done st, onComplete team out)
    | Rejected e =>
        (setError (CalendarView.error_message e "Failed to create team") st, out)
    end.

Definition handleJoinTeam (fetch : Client.fetch_of Client.JoinBody)
    (st : State) (out : Outside) : State * Outside :=
  if blank (trim (inviteCode st)) then (st, out)
  else
    let st := setError "" st in
    match Client.joinTeam (browser out) fetch
            (toUpperCase (trim (inviteCode st))) with
    | Fulfilled team => (setStep done st, onComplete team out)
    | Rejected e =>
        (setError (CalendarView.error_message e "Failed to join team") st, out)
    end.

(** [copyKey], up to the timer it starts. *)
Definition copyKey (st : State) (out : Outside) : State * Outside :=
  (setCopied true st, writeText (apiKey st) out).

(** What can happen to the component: the user acts on a control of the
    screen shown, or the two-second timer of [copyKey] fires.  A click
    that calls the backend carries the network it meets.  Events are
    taken one at a time: the request of a click has settled when the next
    event arrives (the component itself does not disable its controls
    while a request is under way). *)
Inductive Event : Type :=
| TypeName (v : string)
| TypeEmail (v : string)
| ClickContinue (fetch : Client.fetch_of Client.RegisterBody)
| ClickCopy
| CopyTimeout
| ChooseCreate
| ChooseJoin
| TypeTeamName (v : string)
| TypeInviteCode (v : string)
| ClickBack
| ClickCreate (fetch : Client.fetch_of Api.Team)
| ClickJoin (fetch : Client.fetch_of Client.JoinBody).

(** The controls each screen renders; a disabled button does not click. *)
Definition enabled (st : State) (ev : Event) : bool :=
  match ev, step st with
  | CopyTimeout, _ => true
  | TypeName _, register => true
  | TypeEmail _, register => true
  | ClickContinue _, register => negb (blank (trim (name st)))
  | ClickCopy, create_or_join => true
  | ChooseCreate, create_or_join => true
  | ChooseJoin, create_or_join => true
  | TypeTeamName _, create => true
  | ClickBack, create => true
  | ClickCreate _, create => negb (blank (trim (teamName st)))
  | TypeInviteCode _, join => true
  | ClickBack, join => true
  | ClickJoin _, join => negb (blank (trim (inviteCode st)))
  | _, _ => false
  end.

Definition handle (ev : Event) (st : State) (out : Outside) : State * Outside :=
  match ev with
  | TypeName v => (setName v st, out)
  | TypeEmail v => (setEmail v st, out)
  | ClickContinue fetch => handleRegister fetch st out
  | ClickCopy => copyKey st out
  | CopyTimeout => (setCopied false st, out)
  | ChooseCreate => (setStep create st, out)
  | ChooseJoin => (setStep join st, out)
  | TypeTeamName v => (setTeamName v st, out)
  | TypeInviteCode v => (setInviteCode (toUpperCase v) st, out)
  | ClickBack => (setStep create_or_join st, out)
  | ClickCreate fetch => handleCreateTeam fetch st out
  | ClickJoin fetch => handleJoinTeam fetch st out
  end.

Definition dispatch (ev : Event) (s : State * Outside) : State * Outside :=
  if enabled (fst s) ev then handle ev (fst s) (snd s) else s.

Definition run (evs : list Event) (s : State * Outside) : State * Outside :=
  fold_left (fun s ev => dispatch ev s) evs s.

(** What the component draws. *)
Inductive Screen : Type :=
| RegisterScreen (nameValue emailValue : string) (errorShown : option string)
    (continueDisabled : bool)
| CreateOrJoinScreen (keyShown : string) (copyLabel : string)
| CreateScreen (teamNameValue : string) (errorShown : option string)
    (createDisabled : bool)
| JoinScreen (inviteCodeValue : string) (errorShown : option string)
    (joinDisabled : bool)
| NoScreen.

Definition shown_error (st : State) : option string :=
  if truthy_string (Some (error st)) then Some (error st) else None.

Definition render (st : State) : Screen :=
  match step st with
  | register =>
      RegisterScreen (name st) (email st) (shown_error st) (blank (trim (name st)))
  | create_or_join =>
      CreateOrJoinScreen (apiKey st) (if copied st then "Copied" else "Copy")
  | create =>
      CreateScreen (teamName st) (shown_error st) (blank (trim (teamName st)))
  | join =>
      JoinScreen (inviteCode st) (shown_error st) (blank (trim (inviteCode st)))
  | done => NoScreen
  end.

End Builtins.

End TeamSetup.

(* ===================================================================== *)
(** ** The team dashboard *)
(* ===================================================================== *)

Module TeamDashboard.

Record State : Type := mkState {
  teams : list Api.Team;
  selectedTeam : option Api.Team;
  members : list Client.TeamMember;
  loading : bool;
  pokeKeyInput : string;
  copied : bool
}.

Definition initial : State :=
  {| teams := []; selectedTeam := None; members := []; loading := true;
     pokeKeyInput := ""; copied := false |}.

Definition setTeams (v : list Api.Team) (st : State) : State :=
  {| teams := v; selectedTeam := selectedTeam st; members := members st;
     loading := loading st; pokeKeyInput := pokeKeyInput st; copied := copied st |}.
Definition setSelectedTeam (v : option Api.Team) (st : State) : State :=
  {| teams := teams st; selectedTeam := v; members := members st;
     loading := loading st; pokeKeyInput := pokeKeyInput st; copied := copied st |}.
Definition setMembers (v : list Client.TeamMember) (st : State) : State :=
  {| teams := teams st; selectedTeam := selectedTeam st; members := v;
     loading := loading st; pokeKeyInput := pokeKeyInput st; copied := copied st |}.
Definition setLoading (v : bool) (st : State) : State :=
  {| teams := teams st; selectedTeam := selectedTeam st; members := members st;
     loading := v; pokeKeyInput := pokeKeyInput st; copied := copied st |}.
Definition setPokeKeyInput (v : string) (st : State) : State :=
  {| teams := teams st; selectedTeam := selectedTeam st; members := members st;
     loading := loading st; pokeKeyInput := v; copied := copied st |}.
Definition setCopied (v : bool) (st : State) : State :=
  {| teams := teams st; selectedTeam := selectedTeam st; members := members st;
     loading := loading st; pokeKeyInput := pokeKeyInput st; copied := v |}.

(** The network the dashboard meets, one [fetch] per body type. *)
Record Network : Type := mkNetwork {
  fetchTeamsBody : Client.fetch_of Client.TeamsBody;
  fetchMembersBody : Client.fetch_of Client.MembersBody;
  fetchUpdate : Client.fetch_of unit
}.

(** [fetchMembers], with the [selectedTeam] its closure holds. *)
Definition fetchMembers (env : BrowserEnv) (net : Network)
    (selected : option Api.Team) (st : State) : State :=
  match selected with
  | None => st
  | Some team =>
      match Client.getTeamMembers env (fetchMembersBody net) (Api.team_id_ team) with
      | Fulfilled m => setMembers m st
      | Rejected _ => setMembers [] st
      end
  end.

(** [fetchTeams], with the [selectedTeam] its closure holds. *)
Definition fetchTeams (env : BrowserEnv) (net : Network)
    (selected : option Api.Team) (st : State) : State :=
  let key := Api.getItem env "cortex_api_key" in
  if negb (truthy_string key) then setLoading false st
  else
    let st :=
      match Client.getMyTeams env (fetchTeamsBody net) with
      | Fulfilled t =>
          let st := setTeams t st in
          match t, selected with
          | t0 :: _, None => setSelectedTeam (Some t0) st
          | _, _ => st
          end
      | Rejected _ => setTeams [] st
      end in
    setLoading false st.

(** The effect on [selectedTeam]: it runs after a render in which the
    selection is a new object, and fetches the members of a selected team. *)
Definition selection_effect (env : BrowserEnv) (net : Network) (st : State) : State :=
  fetchMembers env net (selectedTeam st) st.

(** The two effects of the first render: [fetchTeams], then the members of
    the team it selected, if any. *)
Definition mount (env : BrowserEnv) (net : Network) : State :=
  let st := fetchTeams env net (selectedTeam initial) initial in
  match selectedTeam st with
  | Some _ => selection_effect env net st
  | None => st
  end.

(** [handleSetupComplete], followed by the effect on the new selection. *)
Definition handleSetupComplete (env : BrowserEnv) (net : Network)
    (team : Api.Team) (st : State) : State :=
  let st := setTeams [team] st in
  let st := setSelectedTeam (Some team) st in
  let st := setLoading false st in
  selection_effect env net st.

(** What leaves the component: the texts written to the clipboard and the
    alerts shown. *)
Record Outside : Type := mkOutside {
  clipboard : list string;
  alerts : list string
}.

Definition writeText (text : string) (out : Outside) : Outside :=
  {| clipboard := clipboard out ++ [text]; alerts := alerts out |}.
Definition alert (text : string) (out : Outside) : Outside :=
  {| clipboard := clipboard out; alerts := alerts out ++ [text] |}.

(** [copyInviteLink], up to its timer; [origin] is [window.location.origin]. *)
Definition copyInviteLink (env : BrowserEnv) (origin : string)
    (st : State) (out : Outside) : State * Outside :=
  match selectedTeam st with
  | None => (st, out)
  | Some team =>
      let url := (if window_defined env then origin else "")
                 +:+ "/team?join=" +:+ Api.invite_code team in
      (setCopied true st, writeText url out)
  end.

(** [copyInviteCode], up to its timer. *)
Definition copyInviteCode (st : State) (out : Outside) : State * Outside :=
  match selectedTeam st with
  | None => (st, out)
  | Some team => (setCopied true st, writeText (Api.invite_code team) out)
  end.

Section Builtins.

Variable trim : string -> string.

Definition handleSavePokeKey (env : BrowserEnv) (net : Network)
    (st : State) (out : Outside) : State * Outside :=
  match selectedTeam st with
  | None => (st, out)
  | Some team =>
      if TeamSetup.blank (trim (pokeKeyInput st)) then (st, out)
      else
        match Client.updatePokeKey env (fetchUpdate net) (Api.team_id_ team)
                (trim (pokeKeyInput st)) with
        | Fulfilled _ =>
            let st := setPokeKeyInput "" st in
            (fetchMembers env net (Some team) st, out)
        | Rejected e =>
            (st, alert (CalendarView.error_message e "Failed to save") out)
        end
  end.

(** What can happen once the component is mounted; an event that calls
    the backend carries the network it meets.  Events are taken one at a
    time: the requests of an event have settled when the next arrives. *)
Inductive Event : Type :=
| SetupCompleted (net : Network) (team : Api.Team)
| TypePokeKey (v : string)
| ClickSave (net : Network)
| ClickRefresh (net : Network)
| ClickCopyCode
| CopyTimeout.

Definition handle (env : BrowserEnv) (ev : Event) (s : State * Outside)
    : State * Outside :=
  let (st, out) := s in
  match ev with
  | SetupCompleted net team => (handleSetupComplete env net team st, out)
  | TypePokeKey v => (setPokeKeyInput v st, out)
  | ClickSave net => handleSavePokeKey env net st out
  | ClickRefresh net => (fetchMembers env net (selectedTeam st) st, out)
  | ClickCopyCode => copyInviteCode st out
  | CopyTimeout => (setCopied false st, out)
  end.

Definition run (env : BrowserEnv) (evs : list Event) (s : State * Outside)
    : State * Outside :=
  fold_left (fun s ev => handle env ev s) evs s.

(** What the component draws. *)
Inductive MembersView : Type :=
| NoMembers                                    (* "No members yet. ..." *)
| MemberRows (rows : list (string * string)).  (* name, Poke label *)

Inductive Screen : Type :=
| SetupScreen (initialApiKey : option string)
| LoadingScreen
| DashboardScreen (title inviteCodeShown : option string) (copiedIcon : bool)
    (keyInput : string) (saveDisabled : bool) (membersView : MembersView)
    (calendar : option Api.Team).

Definition member_row (m : Client.TeamMember) : string * string :=
  (Client.member_name m,
   if Client.poke_connected m then "Poke connected" else "No Poke").

Definition render (env : BrowserEnv) (st : State) : Screen :=
  let apiKey :=
    if window_defined env then Api.getItem env "cortex_api_key" else None in
  if negb (truthy_string apiKey) then SetupScreen None
  else if loading st then LoadingScreen
  else if (length (teams st) =? 0)%nat then SetupScreen apiKey
  else
    DashboardScreen
      (Api.team_name <$> selectedTeam st)
      (Api.invite_code <$> selectedTeam st)
      (copied st)
      (pokeKeyInput st)
      (TeamSetup.blank (trim (pokeKeyInput st)))
      (if (length (members st) =? 0)%nat then NoMembers
       else MemberRows (map member_row (members st)))
      (selectedTeam st).

End Builtins.

End TeamDashboard.

(* ===================================================================== *)
(** ** The chat *)
(* ===================================================================== *)

Module ChatInterface.

Record State : Type := mkState {
  messages : list Client.ChatMessage;
  input : string;
  isLoading : bool
}.

Definition initial : State := {| messages := []; input := ""; isLoading := false |}.

Definition apology : string :=
  "Sorry, I had trouble processing that. Please try again.".

Section Builtins.

Variable trim : string -> string.

(** [handleSend] up to its [await]: nothing when the trimmed input is
    empty or a request is under way; otherwise the state shown while
    waiting and the messages sent. *)
Definition handleSend_start (st : State)
    : option (State * list Client.ChatMessage) :=
  let text := trim (input st) in
  if TeamSetup.blank text || isLoading st then None
  else
    let userMessage := {| Client.role := Client.user; Client.content := text |} in
    let newMessages := messages st ++ [userMessage] in
    Some ({| messages := newMessages; input := ""; isLoading := true |},
          newMessages).

(** [handleSend] from its [await] on, with the outcome of [chat]. *)
Definition handleSend_settle (outcome : promise string)
    (newMessages : list Client.ChatMessage) (st : State) : State :=
  let reply :=
    match outcome with
    | Fulfilled response => response
    | Rejected _ => apology
    end in
  {| messages := newMessages
                 ++ [ {| Client.role := Client.assistant;
                         Client.content := reply |} ];
     input := input st;
     isLoading := false |}.

Definition handleSend (env : BrowserEnv) (fetch : Client.fetch_of Client.ChatBody)
    (st : State) : State :=
  match handleSend_start st with
  | None => st
  | Some (waiting, newMessages) =>
      handleSend_settle (Client.chat env fetch newMessages) newMessages waiting
  end.

Definition suggestions : list string :=
  [ "What tasks do I have?"; "Show me my ideas"; "What's on my shopping list?";
    "Find me the best deal on headphones"; "Give me insights about my entries" ].

(** The user types, picks a suggestion (shown while there is no message)
    or sends; while a request is under way the input and the button are
    disabled, so a send runs to its end before the next event. *)
Inductive Event : Type :=
| Type_ (v : string)
| ClickSuggestion (i : nat)
| Send (fetch : Client.fetch_of Client.ChatBody).

Definition handle (env : BrowserEnv) (ev : Event) (st : State) : State :=
  match ev with
  | Type_ v => {| messages := messages st; input := v; isLoading := isLoading st |}
  | ClickSuggestion i =>
      match messages st, suggestions !! i with
      | [], Some s => {| messages := messages st; input := s; isLoading := isLoading st |}
      | _, _ => st
      end
  | Send fetch => handleSend env fetch st
  end.

Definition run (env : BrowserEnv) (evs : list Event) (st : State) : State :=
  fold_left (fun st ev => handle env ev st) evs st.

End Builtins.

End ChatInterface.

(* ===================================================================== *)
(** ** The dump box *)
(* ===================================================================== *)

Module DumpBox.

Record ClassifiedEntry : Type := mkClassifiedEntry {
  entry : json;
  timestamp : Z          (* new Date(), as a time value *)
}.

Record State : Type := mkState {
  input : string;
  isProcessing : bool;
  lastResult : option ClassifiedEntry;
  error : option string;
  placeholderIdx : nat
}.

Definition initial : State :=
  {| input := ""; isProcessing := false; lastResult := None; error := None;
     placeholderIdx := 0 |}.

Definition placeholders : list string :=
  [ "Buy milk, eggs, and bread this weekend...";
    "Idea: an app that organizes your fridge with AI...";
    "Meeting with Sarah at 2pm about Q4 numbers...";
    "Need to finish the pitch deck by Friday...";
    "Feeling grateful for the team today...";
    "John Smith, met at TreeHacks, works at Stripe..." ].

(** The interval callback: [setPlaceholderIdx((i) => (i + 1) % placeholders.length)]. *)
Definition tick (st : State) : State :=
  {| input := input st; isProcessing := isProcessing st;
     lastResult := lastResult st; error := error st;
     placeholderIdx := (placeholderIdx st + 1) mod length placeholders |}.

Definition setInput (v : string) (st : State) : State :=
  {| input := v; isProcessing := isProcessing st;
     lastResult := lastResult st; error := error st;
     placeholderIdx := placeholderIdx st |}.

Section Builtins.

Variable trim : string -> string.

(** [handleSubmit]: the next state and the entries handed to [onNewEntry],
    when the parent passed that callback.  [now] is the clock read by
    [new Date()]. *)
Definition handleSubmit (env : BrowserEnv)
    (fetch : Client.fetch_of Client.DumpResponse) (hasOnNewEntry : bool)
    (now : Z) (st : State) : State * list json :=
  let text := trim (input st) in
  if TeamSetup.blank text || isProcessing st then (st, [])
  else
    match Client.dump env fetch text with
    | Fulfilled result =>
        ({| input := ""; isProcessing := false;
            lastResult := Some {| entry := Client.entry result; timestamp := now |};
            error := None; placeholderIdx := placeholderIdx st |},
         if hasOnNewEntry then [Client.entry result] else [])
    | Rejected e =>
        ({| input := input st; isProcessing := false;
            lastResult := lastResult st;
            error := Some (CalendarView.error_message e "Something went wrong");
            placeholderIdx := placeholderIdx st |},
         [])
    end.

Inductive Event : Type :=
| Type_ (v : string)
| Submit (fetch : Client.fetch_of Client.DumpResponse) (now : Z)
| Tick.

Definition handle (env : BrowserEnv) (hasOnNewEntry : bool) (ev : Event)
    (s : State * list json) : State * list json :=
  let (st, handed) := s in
  match ev with
  | Type_ v => (setInput v st, handed)
  | Submit fetch now =>
      let (st', new) := handleSubmit env fetch hasOnNewEntry now st in
      (st', handed ++ new)
  | Tick => (tick st, handed)
  end.

Definition run (env : BrowserEnv) (hasOnNewEntry : bool) (evs : list Event)
    (s : State * list json) : State * list json :=
  fold_left (fun s ev => handle env hasOnNewEntry ev s) evs s.

End Builtins.

End DumpBox.

(* ===================================================================== *)
(** ** The category table and the entries feed *)
(* ===================================================================== *)

Module Categories.

Record Config : Type := mkConfig {
  label : string;
  color : string;
  bgColor : string;
  icon : string
}.

(** The own properties of [CATEGORY_CONFIG], in the order written. *)
Definition CATEGORY_CONFIG : list (string * Config) :=
  [ ("task", {| label := "Task"; color := "text-blue-400";
                bgColor := "bg-blue-500/10 border-blue-500/20";
                icon := "CheckSquare" |});
    ("idea", {| label := "Idea"; color := "text-amber-400";
                bgColor := "bg-amber-500/10 border-amber-500/20";
                icon := "Lightbulb" |});
    ("shopping", {| label := "Shopping"; color := "text-green-400";
                    bgColor := "bg-green-500/10 border-green-500/20";
                    icon := "ShoppingCart" |});
    ("note", {| label := "Note"; color := "text-purple-400";
                bgColor := "bg-purple-500/10 border-purple-500/20";
                icon := "FileText" |});
    ("meeting", {| label := "Meeting"; color := "text-cyan-400";
                   bgColor := "bg-cyan-500/10 border-cyan-500/20";
                   icon := "Users" |});
    ("reflection", {| label := "Reflection"; color := "text-pink-400";
                      bgColor := "bg-pink-500/10 border-pink-500/20";
                      icon := "Heart" |});
    ("contact", {| label := "Contact"; color := "text-orange-400";
                   bgColor := "bg-orange-500/10 border-orange-500/20";
                   icon := "UserPlus" |});
    ("event", {| label := "Event"; color := "text-teal-400";
                 bgColor := "bg-teal-500/10 border-teal-500/20";
                 icon := "Calendar" |}) ].

(** The names an object literal inherits from [Object.prototype]. *)
Definition object_prototype_names : list string :=
  [ "constructor"; "__defineGetter__"; "__defineSetter__"; "hasOwnProperty";
    "__lookupGetter__"; "__lookupSetter__"; "isPrototypeOf";
    "propertyIsEnumerable"; "toString"; "valueOf"; "__proto__";
    "toLocaleString" ].

(** [table[k]] on an object literal: an own property, an inherited one (a
    function or the prototype itself, truthy and without the fields of
    the table's values), or undefined. *)
Inductive Lookup (A : Type) : Type :=
| Own (a : A)
| Inherited
| Undefined.
Arguments Own {A} a.
Arguments Inherited {A}.
Arguments Undefined {A}.

Fixpoint own {A} (k : string) (table : list (string * A)) : option A :=
  match table with
  | [] => None
  | (k', a) :: rest => if String.eqb k k' then Some a else own k rest
  end.

Definition lookup {A} (table : list (string * A)) (k : string) : Lookup A :=
  match own k table with
  | Some a => Own a
  | None => if bool_decide (k ∈ object_prototype_names) then Inherited else Undefined
  end.

End Categories.

Module EntriesFeed.

(** [ICON_MAP]: the icon components, named as imported. *)
Definition ICON_MAP : list (string * string) :=
  map (fun n => (n, n))
    [ "CheckSquare"; "Lightbulb"; "ShoppingCart"; "FileText"; "Users"; "Heart";
      "UserPlus"; "Calendar" ].

Definition ALL_CATEGORIES : list string :=
  [ "task"; "idea"; "shopping"; "note"; "meeting"; "reflection"; "contact";
    "event" ].

Record State : Type := mkState {
  entries : list Client.EntryItem;
  filter : option string;
  loading : bool
}.

Definition initial : State := {| entries := []; filter := None; loading := false |}.

Definition setFilter (f : option string) (st : State) : State :=
  {| entries := entries st; filter := f; loading := loading st |}.

(** [filter || undefined]. *)
Definition filter_argument (f : option string) : option string :=
  if truthy_string f then f else None.

(** [fetchEntries], with the [filter] its closure holds: a failure is
    swallowed. *)
Definition fetchEntries (env : BrowserEnv)
    (fetch : Client.fetch_of Client.EntriesBody) (st : State) : State :=
  match Client.getEntries env fetch (filter_argument (filter st)) None with
  | Fulfilled data => {| entries := data; filter := filter st; loading := false |}
  | Rejected _ => {| entries := entries st; filter := filter st; loading := false |}
  end.

(** [setFilter(f)] and the effect that follows: the entries are fetched
    again when the filter changed; setting the value it has renders
    nothing anew. *)
Definition change_filter (env : BrowserEnv)
    (fetch : Client.fetch_of Client.EntriesBody) (f : option string)
    (st : State) : State :=
  if decide (filter st = f) then st
  else fetchEntries env fetch (setFilter f st).

(** The pill of a category: [setFilter(filter === cat ? null : cat)]. *)
Definition toggle (cat : string) (st : State) : option string :=
  if decide (filter st = Some cat) then None else Some cat.

(** The first render fetches; afterwards the user clicks "All", the pill
    of the [i]-th category or the refresh button, or the parent changes
    [refreshTrigger].  An event carries the network it meets.  Events are
    taken one at a time: the fetch of an event has settled when the next
    arrives. *)
Inductive Event : Type :=
| ClickAll (fetch : Client.fetch_of Client.EntriesBody)
| ClickPill (i : nat) (fetch : Client.fetch_of Client.EntriesBody)
| ClickRefresh (fetch : Client.fetch_of Client.EntriesBody)
| TriggerChanged (fetch : Client.fetch_of Client.EntriesBody).

Definition mount (env : BrowserEnv) (fetch : Client.fetch_of Client.EntriesBody)
    : State :=
  fetchEntries env fetch initial.

Definition handle (env : BrowserEnv) (ev : Event) (st : State) : State :=
  match ev with
  | ClickAll fetch => change_filter env fetch None st
  | ClickPill i fetch =>
      match ALL_CATEGORIES !! i with
      | Some cat => change_filter env fetch (toggle cat st) st
      | None => st
      end
  | ClickRefresh fetch => fetchEntries env fetch st
  | TriggerChanged fetch => fetchEntries env fetch st
  end.

Definition run (env : BrowserEnv) (evs : list Event) (st : State) : State :=
  fold_left (fun st ev => handle env ev st) evs st.

(** How a row is dressed: the configuration found for the entry's
    category, [None] when the lookup hits an inherited property, whose
    label, colours and icon are all undefined. *)
Definition row_config (entry : Client.EntryItem) : option Categories.Config :=
  let category := or_string (Some (Client.category entry)) "note" in
  match Categories.lookup Categories.CATEGORY_CONFIG category with
  | Categories.Own c => Some c
  | Categories.Inherited => None
  | Categories.Undefined => Categories.own "note" Categories.CATEGORY_CONFIG
  end.

(** [ICON_MAP[config.icon] || FileText]: the component drawn, [None] when
    the lookup hits an inherited property, which is no component. *)
Definition row_icon (config : option Categories.Config) : option string :=
  let key := match config with
             | Some c => Categories.icon c
             | None => "undefined"
             end in
  match Categories.lookup ICON_MAP key with
  | Categories.Own component => Some component
  | Categories.Inherited => None
  | Categories.Undefined => Some "FileText"
  end.

Section Builtins.

(** [s.slice(0, 150)], which counts UTF-16 code units. *)
Variable slice150 : string -> string.

(** [summary || title || raw_input?.slice(0, 150)]. *)
Definition row_text (entry : Client.EntryItem) : option string :=
  if truthy_string (Client.summary entry) then Client.summary entry
  else if truthy_string (Client.title entry) then Client.title entry
  else slice150 <$> Client.raw_input entry.

End Builtins.

(** The filter pills: the label shown and whether the pill is active;
    [None] for a category without a configuration, whose label cannot be
    read. *)
Definition pills (st : State) : list (option (string * bool)) :=
  map (fun cat =>
         match Categories.lookup Categories.CATEGORY_CONFIG cat with
         | Categories.Own c =>
             Some (Categories.label c, bool_decide (filter st = Some cat))
         | _ => None
         end)
      ALL_CATEGORIES.

End EntriesFeed.

(* ===================================================================== *)
(** ** Notions used in the statements about the other calls and components *)
(* ===================================================================== *)

Definition is_rejected {A} (p : promise A) : Prop :=
  match p with
  | Rejected _ => True
  | Fulfilled _ => False
  end.

(** A reply seen through [findAvailability] and [bookMeeting], which read
    the body of an ok response only. *)
Definition as_response {A} (r : Client.Reply A) : Response A :=
  {| res_ok := Client.ok r; res_json := Client.json_ok r |}.

Definition as_fetch_fn {A} (fetch : Client.fetch_of A) : fetch_fn A :=
  fun rq =>
    match fetch rq with
    | Fulfilled r => Fulfilled (as_response r)
    | Rejected e => Rejected e
    end.

(** The characters a form-encoded value is made of. *)
Definition form_safe (c : ascii) : bool :=
  Js.is_alnum c || Ascii.eqb c "*" || Ascii.eqb c "-" || Ascii.eqb c "."
  || Ascii.eqb c "_" || Ascii.eqb c "+" || Ascii.eqb c "%".

(** The value of a hexadecimal digit. *)
Definition hex_value (c : ascii) : option nat :=
  let n := nat_of_ascii c in
  if Js.is_digit c then Some (n - 48)%nat
  else if (65 <=? n)%nat && (n <=? 70)%nat then Some (n - 55)%nat
  else if (97 <=? n)%nat && (n <=? 102)%nat then Some (n - 87)%nat
  else None.

(** What the receiver of a form-encoded value reads: [+] is a space and
    [%XX] the byte of hexadecimal value [XX]. *)
Fixpoint form_urldecode (s : string) : string :=
  match s with
  | EmptyString => EmptyString
  | String c rest =>
      if Ascii.eqb c "+" then String " " (form_urldecode rest)
      else if Ascii.eqb c "%" then
        match rest with
        | String h (String l rest') =>
            match hex_value h, hex_value l with
            | Some a, Some b =>
                String (ascii_of_nat (16 * a + b)) (form_urldecode rest')
            | _, _ => String c (form_urldecode rest)
            end
        | _ => String c (form_urldecode rest)
        end
      else String c (form_urldecode rest)
  end.

(** A conversation made of complete exchanges: a question of the user,
    then the assistant's answer. *)
Definition exchange (qa : string * string) : list Client.ChatMessage :=
  [ {| Client.role := Client.user; Client.content := fst qa |};
    {| Client.role := Client.assistant; Client.content := snd qa |} ].

Definition conversation (exchanges : list (string * string))
    : list Client.ChatMessage :=
  exchanges ≫= exchange.

(** What holds of the wizard in every state it reaches from
    [initial k] and the outside [out0]: the registration screen means no
    key yet and an untouched storage; past it, the key shown is the
    initial key or the one the registration stored; and [onComplete] has
    been called at most once, exactly when the wizard is done. *)
Definition setup_inv (k : option string) (out0 : TeamSetup.Outside)
    (s : TeamSetup.State * TeamSetup.Outside) : Prop :=
  window_defined (TeamSetup.browser (snd s))
    = window_defined (TeamSetup.browser out0)
  /\ TeamSetup.clipboard out0 `prefix_of` TeamSetup.clipboard (snd s)
  /\ (TeamSetup.step (fst s) = TeamSetup.register ->
      truthy_string k = false
      /\ TeamSetup.apiKey (fst s) = ""
      /\ localStorage (TeamSetup.browser (snd s))
         = localStorage (TeamSetup.browser out0))
  /\ (TeamSetup.step (fst s) <> TeamSetup.register ->
      if truthy_string k
      then TeamSetup.apiKey (fst s) = or_string k ""
           /\ localStorage (TeamSetup.browser (snd s))
              = localStorage (TeamSetup.browser out0)
      else localStorage (TeamSetup.browser (snd s))
           = <["cortex_api_key" := TeamSetup.apiKey (fst s)]>
               (localStorage (TeamSetup.browser out0)))
  /\ (exists l : list Api.Team,
        TeamSetup.completed (snd s) = TeamSetup.completed out0 ++ l
        /\ (length l <= 1)%nat
        /\ (l = [] <-> TeamSetup.step (fst s) <> TeamSetup.done)).

(** Between two events of the chat: no request is under way and the
    messages are complete exchanges with non-empty questions. *)
Definition chat_inv (st : ChatInterface.State) : Prop :=
  ChatInterface.isLoading st = false
  /\ exists exchanges : list (string * string),
       ChatInterface.messages st = conversation exchanges
       /\ Forall (fun qa => fst qa <> "") exchanges.

(** Between two events of the dump box: no submission is under way, the placeholder index
    is within the list, and what was handed to the parent ends with the
    entry of the result shown. *)
Definition dump_inv (hasOnNewEntry : bool) (s : DumpBox.State * list json) : Prop :=
  DumpBox.isProcessing (fst s) = false
  /\ (DumpBox.placeholderIdx (fst s) < length DumpBox.placeholders)%nat
  /\ (if hasOnNewEntry
      then last (snd s) = DumpBox.entry <$> DumpBox.lastResult (fst s)
      else snd s = []).

(** The URLs the entries feed can ask for: all entries, or those of one
    of the eight categories. *)
Definition feed_urls (env : BrowserEnv) : list string :=
  (Api.API_BASE env +:+ "/entries?limit=50")
  :: map (fun c => Api.API_BASE env +:+ "/entries?category=" +:+ c +:+ "&limit=50")
       EntriesFeed.ALL_CATEGORIES.

(** The filter of the feed selects nothing or one of the eight categories. *)
Definition feed_filter_ok (f : option string) : Prop :=
  match f with
  | None => True
  | Some c => c ∈ EntriesFeed.ALL_CATEGORIES
  end.

Module Samples.

(** A trim that strips ASCII spaces, enough for the sample inputs. *)
Fixpoint trim_start (s : string) : string :=
  match s with
  | String " " rest => trim_start rest
  | _ => s
  end.

Definition trim (s : string) : string :=
  String.rev (trim_start (String.rev (trim_start s))).

(** An upper-casing of ASCII letters, enough for the sample inputs. *)
Definition upper_char (c : ascii) : ascii :=
  if Js.is_lower c then ascii_of_nat (nat_of_ascii c - 32) else c.

Fixpoint toUpperCase (s : string) : string :=
  match s with
  | EmptyString => EmptyString
  | String c rest => String (upper_char c) (toUpperCase rest)
  end.

(** A backend that is down: every request gets a response that is not ok,
    with a FastAPI-style error body. *)
Definition down (A : Type) : Client.fetch_of A :=
  fun _ =>
    Fulfilled {| Client.ok := false;
                 Client.json_ok := Rejected (ErrorObj "Unexpected token");
                 Client.json_err :=
                   Fulfilled (JObj [("detail", JStr "Service unavailable")]) |}.

(** A backend that answers every request with an ok response of body [a]. *)
Definition answers {A} (a : A) : Client.fetch_of A :=
  fun _ =>
    Fulfilled {| Client.ok := true;
                 Client.json_ok := Fulfilled a;
                 Client.json_err := Fulfilled JNull |}.

Definition fresh_browser : BrowserEnv :=
  {| NEXT_PUBLIC_API_URL := None; window_defined := true; localStorage := ∅ |}.

Definition outside0 : TeamSetup.Outside :=
  {| TeamSetup.browser := fresh_browser; TeamSetup.clipboard := [];
     TeamSetup.completed := [] |}.

Definition registered : Client.RegisterBody :=
  {| Client.api_key := "sk-777"; Client.user_id := "u1" |}.

Definition network (teams : list Api.Team) : TeamDashboard.Network :=
  {| TeamDashboard.fetchTeamsBody := answers {| Client.teams := Some teams |};
     TeamDashboard.fetchMembersBody := answers {| Client.members := None |};
     TeamDashboard.fetchUpdate := answers tt |}.

End Samples.

(* ===================================================================== *)
(** ** Notions used in the statements, and sample inputs *)
(* ===================================================================== *)

(** The credential [authHeaders] would send, if any. *)
Definition stored_credential (e : BrowserEnv) : option string :=
  if window_defined e
  then match localStorage e !! "cortex_api_key" with
       | Some k => if decide (k = "") then None else Some k
       | None => None
       end
  else None.

(** The date of day number [dn] as [YYYY-MM-DD]. *)
Definition iso_date (dn : Z) : string :=
  let '(y, m, d) := JsDate.civil_from_days dn in
  JsDate.pad_dec 4 y +:+ "-" +:+ JsDate.pad_dec 2 m +:+ "-" +:+ JsDate.pad_dec 2 d.

(** An interval that lies in the window from [ws] to [we] and is not empty. *)
Definition within (ws we : Z) (iv : Resolver.TimeInterval) : Prop :=
  ws <= Resolver.iv_start iv
  /\ Resolver.iv_start iv < Resolver.iv_end iv
  /\ Resolver.iv_end iv <= we.

Module Examples.

(** Monday 3 March 2025 as a day number. *)
Definition monday : Z := 20150.

(** A time of that Monday, in minutes. *)
Definition at_ (h m : Z) : Z := monday * 1440 + h * 60 + m.

(** One day, 30 minutes, the default hours (9 to 17) and days. *)
Definition monday_request : Resolver.AvailabilityRequest :=
  {| Resolver.team_id := "team-1";
     Resolver.start_date := monday;
     Resolver.end_date := monday;
     Resolver.duration_minutes := 30;
     Resolver.working_hours := None;
     Resolver.days_included := None |}.

(** One member, busy from 9:00 to 10:00 and from 11:00 to 17:00. *)
Definition one_member_busy : gmap string (list Resolver.TimeInterval) :=
  {[ "ann" := [ Resolver.mkInterval (at_ 9 0) (at_ 10 0);
                Resolver.mkInterval (at_ 11 0) (at_ 17 0) ] ]}.

(** Two members: one free all day, the other busy from 9:00 to 17:00. *)
Definition one_free_one_busy : gmap string (list Resolver.TimeInterval) :=
  {[ "ann" := []; "bob" := [ Resolver.mkInterval (at_ 9 0) (at_ 17 0) ] ]}.

Definition browser : BrowserEnv :=
  {| NEXT_PUBLIC_API_URL := None; window_defined := true;
     localStorage := {[ "cortex_api_key" := "sk-123" ]} |}.

Definition team1 : Api.Team :=
  {| Api.team_id_ := "team-1"; Api.team_name := "Core";
     Api.invite_code := "abc123"; Api.team_role := None |}.

Definition slot_n (n : nat) : Api.Slot :=
  {| Api.start := "2026-02-09T" +:+ pretty (9 + n)%nat +:+ ":00:00";
     Api.end_ := "2026-02-09T" +:+ pretty (9 + n)%nat +:+ ":30:00";
     Api.display := "Mon, Feb 9 · slot " +:+ pretty n |}.

(** A server that answers the availability call of team-1 with [result]
    and anything else with a response that is not ok. *)
Definition server (result : Api.AvailabilityResult) : fetch_fn Api.AvailabilityResult :=
  fun rq =>
    if String.eqb (req_url rq) "http://localhost:8000/teams/team-1/availability/find"
    then Fulfilled {| res_ok := true; res_json := Fulfilled result |}
    else Fulfilled {| res_ok := false;
                      res_json := Rejected (ErrorObj "Unexpected token") |}.

Definition ten_slots : Api.AvailabilityResult :=
  {| Api.slots := Some (slot_n <$> seq 0 10); Api.message := Some "Found 10 slots" |}.

Definition no_slots : Api.AvailabilityResult :=
  {| Api.slots := Some []; Api.message := Some "No common slot this week" |}.

(** A server whose ok response carries a body that is not JSON, and a
    network that is down. *)
Definition garbled : fetch_fn Api.AvailabilityResult :=
  fun _ => Fulfilled {| res_ok := true;
                        res_json := Rejected (ErrorObj "Unexpected token < in JSON") |}.

Definition offline : fetch_fn Api.AvailabilityResult :=
  fun _ => Rejected (ErrorObj "Failed to fetch").

(** London in 2026: UTC until the clocks go forward on 29 March at 01:00
    UTC, one hour east of UTC until they go back on 25 October at 01:00
    UTC. *)
Definition spring_forward : Z :=
  JsDate.MakeDate (JsDate.days_from_civil 2026 3 29) (JsDate.MakeTime 1 0 0 0).
Definition fall_back : Z :=
  JsDate.MakeDate (JsDate.days_from_civil 2026 10 25) (JsDate.MakeTime 1 0 0 0).

Definition london : JsDate.Zone :=
  {| JsDate.LocalTZA_utc := fun t =>
       if (spring_forward <=? t) && (t <? fall_back) then JsDate.msPerHour else 0;
     JsDate.LocalTZA_local := fun t =>
       if (spring_forward + JsDate.msPerHour <=? t)
          && (t <? fall_back + JsDate.msPerHour)
       then JsDate.msPerHour else 0 |}.

Definition week : CalendarView.WeekRange :=
  {| CalendarView.range_start := "2026-02-09"; CalendarView.range_end := "2026-02-13" |}.

Definition idle : CalendarView.State :=
  {| CalendarView.loading := false; CalendarView.slots := [];
     CalendarView.message := ""; CalendarView.booking := None;
     CalendarView.range := week |}.

End Examples.

(* ===================================================================== *)
(** * Properties of the REST client *)
(* ===================================================================== *)

Section ClientRequests.

Variable env : BrowserEnv.

Lemma truthy_string_Some (k : string) : truthy_string (Some k) = true <-> k <> "".
Proof. destruct k; simpl; split; congruence. Qed.

Lemma authHeaders_stored :
  Api.authHeaders env =
    match stored_credential env with
    | Some k => {[ "Authorization" := "Bearer " +:+ k ]}
    | None => ∅
    end.
Proof.
  unfold Api.authHeaders, stored_credential, Api.getItem.
  destruct (window_defined env); simpl; [|done].
  destruct (localStorage env !! "cortex_api_key") as [k|]; simpl; [|done].
  destruct k; simpl; done.
Qed.

Lemma authHeaders_lookup :
  Api.authHeaders env !! "Authorization" =
    (fun k => "Bearer " +:+ k) <$> stored_credential env.
Proof.
  rewrite authHeaders_stored.
  destruct (stored_credential env); simpl; by simplify_map_eq.
Qed.

Lemma json_headers_authorization :
  Api.json_headers env !! "Authorization" = Api.authHeaders env !! "Authorization".
Proof.
  unfold Api.json_headers, Api.content_type_json.
  rewrite lookup_union, lookup_singleton_ne by done.
  by destruct (Api.authHeaders env !! "Authorization").
Qed.

Lemma json_headers_content_type :
  Api.json_headers env !! "Content-Type" = Some "application/json".
Proof.
  unfold Api.json_headers, Api.content_type_json.
  rewrite lookup_union, lookup_singleton_eq, authHeaders_stored.
  destruct (stored_credential env); by simplify_map_eq.
Qed.

End ClientRequests.

(** C1: for every team id, date pair and duration, [findAvailability] sends
    one POST to [/teams/{teamId}/availability/find] whose JSON body has
    exactly the keys [start_date], [end_date] and [duration_minutes] (the
    team id travels in the path), and when that request is answered with an
    ok response it returns the parsed body, an object of slots (each with
    start, end and display) and a message. *)
Theorem findAvailability_contract (env : BrowserEnv)
    (fetch : fetch_fn Api.AvailabilityResult)
    (teamId startDate endDate : string) (d : Z)
    (res : Response Api.AvailabilityResult) (result : Api.AvailabilityResult)
    (Hfetch : fetch {| req_url := Api.API_BASE env +:+ "/teams/" +:+ teamId
                                    +:+ "/availability/find";
                       req_method := POST;
                       req_headers := Api.json_headers env;
                       req_body := Some (JObj [("start_date", JStr startDate);
                                               ("end_date", JStr endDate);
                                               ("duration_minutes", JNum d)]) |}
              = Fulfilled res)
    (Hok : res_ok res = true)
    (Hbody : res_json res = Fulfilled result) :
  Api.findAvailability env fetch teamId startDate endDate (Some d)
    = Fulfilled result
  /\ (let rq := Api.findAvailability_request env teamId startDate endDate (Some d) in
      req_method rq = POST
      /\ req_url rq = Api.API_BASE env +:+ "/teams/" +:+ teamId +:+ "/availability/find"
      /\ json_keys <$> req_body rq
           = Some ["start_date"; "end_date"; "duration_minutes"]
      /\ (json_get "start_date" <$> req_body rq) = Some (Some (JStr startDate))
      /\ (json_get "end_date" <$> req_body rq) = Some (Some (JStr endDate))
      /\ (json_get "duration_minutes" <$> req_body rq) = Some (Some (JNum d))
      /\ req_headers rq !! "Content-Type" = Some "application/json").
Proof.
  split.
  - unfold Api.findAvailability, Api.findAvailability_request. simpl.
    rewrite Hfetch. simpl. by rewrite Hok.
  - simpl. repeat split; try reflexivity. apply json_headers_content_type.
Qed.

(** C8: a call of [findAvailability] or [bookMeeting] that omits
    [durationMinutes] hands [fetch] one request, whose JSON body has
    [duration_minutes] equal to 30, and settles as that request is
    answered; so it behaves as the call that passes 30. *)
Theorem omitted_duration_defaults_to_30 (env : BrowserEnv)
    (fetchA : fetch_fn Api.AvailabilityResult) (fetchB : fetch_fn Api.BookingResult)
    (teamId startDate endDate title startTime : string) :
  let sentA :=
    {| req_url := Api.API_BASE env +:+ "/teams/" +:+ teamId +:+ "/availability/find";
       req_method := POST;
       req_headers := Api.json_headers env;
       req_body := Some (JObj [("start_date", JStr startDate);
                               ("end_date", JStr endDate);
                               ("duration_minutes", JNum 30)]) |} in
  let sentB :=
    {| req_url := Api.API_BASE env +:+ "/teams/" +:+ teamId +:+ "/book";
       req_method := POST;
       req_headers := Api.json_headers env;
       req_body := Some (JObj [("title", JStr title);
                               ("start_time", JStr startTime);
                               ("duration_minutes", JNum 30)]) |} in
  Api.findAvailability env fetchA teamId startDate endDate None
  = match fetchA sentA with
    | Rejected e => Rejected e
    | Fulfilled res =>
        if res_ok res then res_json res
        else Rejected (ErrorObj "Failed to find availability")
    end
  /\ Api.bookMeeting env fetchB teamId title startTime None
     = match fetchB sentB with
       | Rejected e => Rejected e
       | Fulfilled res =>
           if res_ok res then res_json res
           else Rejected (ErrorObj "Failed to book meeting")
       end
  /\ (json_get "duration_minutes" <$> req_body sentA) = Some (Some (JNum 30))
  /\ (json_get "duration_minutes" <$> req_body sentB) = Some (Some (JNum 30))
  /\ Api.findAvailability_request env teamId startDate endDate None = sentA
  /\ Api.bookMeeting_request env teamId title startTime None = sentB
  /\ Api.findAvailability env fetchA teamId startDate endDate None
     = Api.findAvailability env fetchA teamId startDate endDate (Some 30)
  /\ Api.bookMeeting env fetchB teamId title startTime None
     = Api.bookMeeting env fetchB teamId title startTime (Some 30).
Proof.
  intros sentA sentB.
  split; [|split].
  - unfold Api.findAvailability.
    change (Api.findAvailability_request env teamId startDate endDate None)
      with sentA.
    destruct (fetchA sentA) as [res|e]; simpl; [|reflexivity].
    by destruct (res_ok res).
  - unfold Api.bookMeeting.
    change (Api.bookMeeting_request env teamId title startTime None) with sentB.
    destruct (fetchB sentB) as [res|e]; simpl; [|reflexivity].
    by destruct (res_ok res).
  - repeat split; reflexivity.
Qed.

(** C9, as the code has it: [authHeaders] returns the single header
    [Authorization: Bearer <key>] exactly when the page runs in a browser
    and a non-empty key is stored under ["cortex_api_key"], and the empty
    map otherwise; every team request except [registerUser] carries that
    header exactly then, and [registerUser] never carries one. *)
Theorem authorization_iff_credential (env : BrowserEnv)
    (name teamId inviteCode pokeApiKey startDate endDate title startTime : string)
    (email : option string) (dur : option Z) :
  (forall k : string,
      Api.authHeaders env = {[ "Authorization" := "Bearer " +:+ k ]}
      <-> window_defined env = true
          /\ localStorage env !! "cortex_api_key" = Some k /\ k <> "")
  /\ (Api.authHeaders env = ∅
      <-> window_defined env = false
          \/ localStorage env !! "cortex_api_key" = None
          \/ localStorage env !! "cortex_api_key" = Some "")
  /\ Forall (fun rq : Request =>
               req_headers rq !! "Authorization"
               = (fun k => "Bearer " +:+ k) <$> stored_credential env)
       [ Api.createTeam_request env name;
         Api.joinTeam_request env inviteCode;
         Api.getMyTeams_request env;
         Api.getTeamMembers_request env teamId;
         Api.updatePokeKey_request env teamId pokeApiKey;
         Api.findAvailability_request env teamId startDate endDate dur;
         Api.bookMeeting_request env teamId title startTime dur ]
  /\ req_headers (Api.registerUser_request env name email) !! "Authorization" = None.
Proof.
  split; [|split; [|split]].
  - intros k. rewrite authHeaders_stored. unfold stored_credential.
    destruct (window_defined env).
    + destruct (localStorage env !! "cortex_api_key") as [k'|].
      * destruct (decide (k' = "")) as [->|Hne].
        -- split.
           ++ intros H. apply (f_equal (fun m => m !! "Authorization")) in H.
              by simplify_map_eq.
           ++ intros (_ & H & Hk). by simplify_eq.
        -- split.
           ++ intros H. apply (f_equal (fun m => m !! "Authorization")) in H.
              rewrite !lookup_singleton_eq in H. simpl in H.
              by simplify_eq.
           ++ intros (_ & H & Hk). by simplify_eq.
      * split.
        -- intros H. apply (f_equal (fun m => m !! "Authorization")) in H.
           by simplify_map_eq.
        -- intros (_ & H & _). done.
    + split.
      * intros H. apply (f_equal (fun m => m !! "Authorization")) in H.
        by simplify_map_eq.
      * intros (H & _). done.
  - rewrite authHeaders_stored. unfold stored_credential.
    destruct (window_defined env); [|split; auto].
    destruct (localStorage env !! "cortex_api_key") as [k'|]; [|split; auto].
    destruct (decide (k' = "")) as [->|Hne]; [split; auto|].
    split.
    + intros H. apply (f_equal (fun m => m !! "Authorization")) in H.
      by simplify_map_eq.
    + intros [H|[H|H]]; simplify_eq.
  - repeat constructor; simpl;
      rewrite ?json_headers_authorization; apply authHeaders_lookup.
  - simpl. unfold Api.content_type_json. by rewrite lookup_singleton_ne.
Qed.

(** C9, the claim as stated fails: with a key stored in a browser,
    [registerUser], a team request, is sent without an [Authorization]
    header. *)
Lemma registerUser_sends_no_authorization :
  let env := {| NEXT_PUBLIC_API_URL := None; window_defined := true;
                localStorage := {[ "cortex_api_key" := "sk-123" ]} |} in
  stored_credential env = Some "sk-123"
  /\ Api.authHeaders env = {[ "Authorization" := "Bearer sk-123" ]}
  /\ req_url (Api.registerUser_request env "Ann" None)
     = "http://localhost:8000/teams/users"
  /\ req_headers (Api.registerUser_request env "Ann" None) !! "Authorization" = None.
Proof. repeat split; vm_compute; reflexivity. Qed.

(* ===================================================================== *)
(** * Properties of the date arithmetic *)
(* ===================================================================== *)

Section DateFacts.

Import JsDate.

(** The calendar fields of a day number are a month, a day of the month,
    and lead back to the day number. *)
Lemma civil_from_days_inverse (z : Z) :
  let '(y, m, d) := civil_from_days z in
  1 <= m <= 12 /\ 1 <= d <= 31 /\ days_from_civil y m d = z.
Proof.
  unfold civil_from_days.
  remember (z + 719468) as z' eqn:Ez.
  remember (z' / 146097) as era eqn:Eera.
  remember (z' - era * 146097) as doe eqn:Edoe.
  remember ((doe - doe / 1460 + doe / 36524 - doe / 146096) / 365) as yoe eqn:Eyoe.
  remember (doe - (365 * yoe + yoe / 4 - yoe / 100)) as doy eqn:Edoy.
  remember ((5 * doy + 2) / 153) as mp eqn:Emp.
  assert (Hdoe : 0 <= doe < 146097) by (Z.to_euclidean_division_equations; lia).
  assert (Hyoe : 0 <= yoe <= 399) by (Z.to_euclidean_division_equations; lia).
  assert (Hdoy : 0 <= doy <= 365).
  { clear Ez Eera Edoe Emp. Z.to_euclidean_division_equations; lia. }
  assert (Hmp : 0 <= mp <= 11)
    by (clear -Emp Hdoy; Z.to_euclidean_division_equations; lia).
  assert (Hd : 1 <= doy - (153 * mp + 2) / 5 + 1 <= 31).
  { clear -Emp Hdoy. Z.to_euclidean_division_equations; lia. }
  assert (Hera : (yoe + era * 400) / 400 = era).
  { clear -Hyoe. Z.to_euclidean_division_equations; lia. }
  unfold days_from_civil.
  destruct (Z.ltb_spec mp 10).
  - destruct (Z.leb_spec (mp + 3) 2); [lia|].
    destruct (Z.ltb_spec 2 (mp + 3)); [|lia].
    replace (mp + 3 - 3) with mp by lia.
    rewrite Hera. split; [lia|]. split; [lia|].
    replace (yoe + era * 400 - era * 400) with yoe by lia. lia.
  - destruct (Z.leb_spec (mp - 9) 2); [|lia].
    destruct (Z.ltb_spec 2 (mp - 9)); [lia|].
    replace (mp - 9 + 9) with mp by lia.
    replace (yoe + era * 400 + 1 - 1) with (yoe + era * 400) by lia.
    rewrite Hera. split; [lia|]. split; [lia|].
    replace (yoe + era * 400 - era * 400) with yoe by lia. lia.
Qed.

Lemma days_from_civil_day (y m d : Z) :
  days_from_civil y m d = days_from_civil y m 1 + d - 1.
Proof. unfold days_from_civil. lia. Qed.

(** Years from 1600 on for the days since the epoch, and four-digit years
    up to the year 9600. *)
Lemma civil_year_bounds (z : Z) :
  -719468 <= z < 2786860 ->
  0 <= fst (fst (civil_from_days z)) <= 9999
  /\ (0 <= z -> 100 <= fst (fst (civil_from_days z))).
Proof.
  intros Hz. unfold civil_from_days. cbv zeta.
  remember (z + 719468) as z' eqn:Ez.
  remember (z' / 146097) as era eqn:Eera.
  remember (z' - era * 146097) as doe eqn:Edoe.
  remember ((doe - doe / 1460 + doe / 36524 - doe / 146096) / 365) as yoe eqn:Eyoe.
  assert (Hera : 0 <= era <= 23) by (Z.to_euclidean_division_equations; lia).
  assert (Hera4 : 0 <= z -> 4 <= era) by (Z.to_euclidean_division_equations; lia).
  assert (Hdoe : 0 <= doe < 146097) by (Z.to_euclidean_division_equations; lia).
  assert (Hyoe : 0 <= yoe <= 399) by (Z.to_euclidean_division_equations; lia).
  simpl. destruct (_ <=? 2); lia.
Qed.

(** [MakeDay] on the fields of a date only moves the day of the month. *)
Lemma MakeDay_of_fields (t dt : Z) :
  MakeDay (YearFromTime t) (MonthFromTime t) dt = Day t - DateFromTime t + dt.
Proof.
  unfold MakeDay, YearFromTime, MonthFromTime, DateFromTime.
  pose proof (civil_from_days_inverse (Day t)) as H.
  destruct (civil_from_days (Day t)) as [[y m] d]. simpl.
  destruct H as (Hm & _ & Hinv).
  replace ((m - 1) / 12) with 0 by (Z.to_euclidean_division_equations; lia).
  replace ((m - 1) mod 12 + 1) with m by (Z.to_euclidean_division_equations; lia).
  rewrite days_from_civil_day in Hinv.
  replace (y + 0) with y by lia. lia.
Qed.

Lemma Day_MakeDate (d time : Z) :
  0 <= time < msPerDay -> Day (MakeDate d time) = d.
Proof.
  unfold Day, MakeDate, msPerDay. intros H.
  Z.to_euclidean_division_equations; lia.
Qed.

Lemma TimeWithinDay_MakeDate (d time : Z) :
  0 <= time < msPerDay -> TimeWithinDay (MakeDate d time) = time.
Proof.
  unfold TimeWithinDay, MakeDate, msPerDay. intros H.
  Z.to_euclidean_division_equations; lia.
Qed.

(** *** The first ten characters of [toISOString] *)

Lemma append_cons (c : ascii) (a b : string) :
  String c a +:+ b = String c (a +:+ b).
Proof. reflexivity. Qed.

Lemma length_append (a b : string) :
  String.length (a +:+ b) = (String.length a + String.length b)%nat.
Proof.
  induction a as [|c a IH]; [done|].
  rewrite append_cons. simpl. by rewrite IH.
Qed.

Lemma length_pad_dec (w : nat) (n : Z) : String.length (pad_dec w n) = w.
Proof.
  revert n. induction w as [|w IH]; intros n; simpl; [done|].
  rewrite length_append, IH. simpl. lia.
Qed.

Lemma substring_append (a b : string) (n : nat) :
  String.substring 0 (String.length a + n) (a +:+ b)
  = a +:+ String.substring 0 n b.
Proof.
  induction a as [|c a IH]; [done|].
  rewrite !append_cons. simpl. by rewrite IH.
Qed.

Lemma substring_0_0 (s : string) : String.substring 0 0 s = "".
Proof. by destruct s. Qed.

Lemma append_empty_r (s : string) : s +:+ "" = s.
Proof.
  induction s as [|c s IH]; [done|].
  rewrite append_cons. by rewrite IH.
Qed.

Lemma substring_prefix (a b : string) (n k : nat) :
  String.length a = k -> (k <= n)%nat ->
  String.substring 0 n (a +:+ b) = a +:+ String.substring 0 (n - k) b.
Proof.
  intros <- Hle.
  replace n with (String.length a + (n - String.length a))%nat at 1 by lia.
  apply substring_append.
Qed.

Lemma slice_toISOString (tv : Z) :
  0 <= YearFromTime tv <= 9999 ->
  slice0 10 (toISOString tv) = iso_date (Day tv).
Proof.
  intros Hy. unfold slice0, toISOString, iso_date, iso_year.
  unfold YearFromTime, MonthFromTime, DateFromTime in *.
  destruct (civil_from_days (Day tv)) as [[y m] d]. cbn [fst snd] in *.
  destruct (Z.leb_spec 0 y); [|lia]. destruct (Z.leb_spec y 9999); [|lia].
  cbn [andb].
  replace (m - 1 + 1) with m by lia.
  rewrite (substring_prefix _ _ _ 4) by (try apply length_pad_dec; lia).
  rewrite (substring_prefix "-" _ _ 1) by (try reflexivity; simpl; lia).
  rewrite (substring_prefix _ _ _ 2) by (try apply length_pad_dec; simpl; lia).
  rewrite (substring_prefix "-" _ _ 1) by (try reflexivity; simpl; lia).
  rewrite (substring_prefix _ _ _ 2) by (try apply length_pad_dec; simpl; lia).
  change (10 - 4 - 1 - 2 - 1 - 2)%nat with 0%nat.
  by rewrite substring_0_0, append_empty_r.
Qed.

(** *** The week range *)

(** In a zone of one offset the zoned [getWeekRange] is the one written
    with that offset. *)
Lemma getWeekRange_fixed_zone (LocalTZA now : Z) :
  CalendarView.Zoned.getWeekRange (fixed_zone LocalTZA) now
  = CalendarView.getWeekRange LocalTZA now.
Proof.
  unfold CalendarView.Zoned.getWeekRange, CalendarView.getWeekRange.
  unfold Zoned.getDay, Zoned.getDate, Zoned.getMonth, Zoned.getFullYear,
    Zoned.newDate, Zoned.setHours, Zoned.setDate, Zoned.LocalTime, Zoned.UTC.
  unfold getDay, getDate, getMonth, getFullYear, newDate, setHours, setDate,
    LocalTime, UTC.
  unfold fixed_zone. cbn [LocalTZA_utc LocalTZA_local]. reflexivity.
Qed.

Lemma getWeekRange_steady_zone (zone : Zone) (tza now : Z) :
  0 <= now + tza < 2786000 * msPerDay ->
  - msPerDay < tza < msPerDay ->
  (forall t : Z, now - 8 * msPerDay <= t <= now + 8 * msPerDay ->
     LocalTZA_utc zone t = tza /\ LocalTZA_local zone t = tza) ->
  let today := Day (now + tza) in
  let mon := today - (today + 3) mod 7 in
  let shift := if 0 <? tza then -1 else 0 in
  CalendarView.Zoned.getWeekRange zone now
  = {| CalendarView.range_start := iso_date (mon + shift);
       CalendarView.range_end := iso_date (mon + 4 + shift) |}.
Proof.
  intros Hnow Htz Hzone today mon shift.
  assert (Htoday : 0 <= today < 2786000).
  { subst today. unfold Day, msPerDay in *. Z.to_euclidean_division_equations; lia. }
  assert (Hin : today * msPerDay <= now + tza < today * msPerDay + msPerDay).
  { subst today. unfold Day, msPerDay in *. Z.to_euclidean_division_equations; lia. }
  assert (Hmon : mon <= today <= mon + 6)
    by (subst mon; Z.to_euclidean_division_equations; lia).
  assert (Hmidnight : 0 <= MakeTime 0 0 0 0 < msPerDay) by (by vm_compute).
  assert (Hat_now : LocalTZA_utc zone now = tza).
  { apply Hzone. unfold msPerDay. lia. }
  assert (Hat_local : forall d, mon <= d <= mon + 4 ->
            LocalTZA_local zone (MakeDate d (MakeTime 0 0 0 0)) = tza).
  { intros d Hd. apply Hzone. unfold MakeDate. change (MakeTime 0 0 0 0) with 0.
    clear - Hin Hmon Hd Htz. clearbody mon today. unfold msPerDay in *. lia. }
  assert (Hat_monday :
            LocalTZA_utc zone (MakeDate mon (MakeTime 0 0 0 0) - tza) = tza).
  { apply Hzone. unfold MakeDate. change (MakeTime 0 0 0 0) with 0.
    clear - Hin Hmon Htz. clearbody mon today. unfold msPerDay in *. lia. }
  unfold CalendarView.Zoned.getWeekRange.
  unfold Zoned.getDay, Zoned.getDate, Zoned.getMonth, Zoned.getFullYear,
    Zoned.LocalTime, WeekDay.
  rewrite Hat_now. fold today.
  set (day := (today + 4) mod 7).
  set (diff := DateFromTime (now + tza) - day + (if day =? 0 then -6 else 1)).
  assert (Hdiff : today - DateFromTime (now + tza) + diff = mon).
  { subst diff mon day. destruct (Z.eqb_spec ((today + 4) mod 7) 0);
      Z.to_euclidean_division_equations; lia. }
  assert (Hnew : Zoned.newDate zone (YearFromTime (now + tza))
                   (MonthFromTime (now + tza)) diff
                 = MakeDate mon (MakeTime 0 0 0 0) - tza).
  { unfold Zoned.newDate, Zoned.UTC.
    destruct (civil_year_bounds today) as [_ H100]; [lia|].
    specialize (H100 (proj1 Htoday)).
    change (100 <= YearFromTime (now + tza)) in H100.
    destruct (Z.leb_spec (YearFromTime (now + tza)) 99); [lia|].
    rewrite andb_false_r, MakeDay_of_fields. fold today. rewrite Hdiff.
    rewrite Hat_local by lia. reflexivity. }
  rewrite Hnew.
  assert (Hset : Zoned.setHours zone (MakeDate mon (MakeTime 0 0 0 0) - tza) 0 0 0 0
                 = MakeDate mon (MakeTime 0 0 0 0) - tza).
  { unfold Zoned.setHours, Zoned.LocalTime, Zoned.UTC. rewrite Hat_monday.
    replace (MakeDate mon (MakeTime 0 0 0 0) - tza + tza)
      with (MakeDate mon (MakeTime 0 0 0 0)) by lia.
    rewrite Day_MakeDate by done. rewrite Hat_local by lia. reflexivity. }
  rewrite Hset.
  assert (Hfri : Zoned.setDate zone (MakeDate mon (MakeTime 0 0 0 0) - tza)
                   (DateFromTime (MakeDate mon (MakeTime 0 0 0 0) - tza
                                  + LocalTZA_utc zone
                                      (MakeDate mon (MakeTime 0 0 0 0) - tza)) + 4)
                 = MakeDate (mon + 4) (MakeTime 0 0 0 0) - tza).
  { unfold Zoned.setDate, Zoned.LocalTime, Zoned.UTC. rewrite Hat_monday.
    replace (MakeDate mon (MakeTime 0 0 0 0) - tza + tza)
      with (MakeDate mon (MakeTime 0 0 0 0)) by lia.
    rewrite MakeDay_of_fields, Day_MakeDate, TimeWithinDay_MakeDate by done.
    replace (mon - DateFromTime (MakeDate mon (MakeTime 0 0 0 0))
             + (DateFromTime (MakeDate mon (MakeTime 0 0 0 0)) + 4))
      with (mon + 4) by lia.
    rewrite Hat_local by lia. reflexivity. }
  rewrite Hfri.
  assert (Hday : forall d, Day (MakeDate d (MakeTime 0 0 0 0) - tza) = d + shift).
  { intros d. unfold Day, MakeDate. change (MakeTime 0 0 0 0) with 0.
    subst shift. unfold msPerDay in *.
    destruct (Z.ltb_spec 0 tza); Z.to_euclidean_division_equations; lia. }
  assert (Hshift : -1 <= shift <= 0) by (subst shift; destruct (0 <? tza); lia).
  rewrite !slice_toISOString, !Hday; [done| |].
  - unfold YearFromTime. rewrite Hday. apply civil_year_bounds. lia.
  - unfold YearFromTime. rewrite Hday. apply civil_year_bounds. lia.
Qed.

(** X1: [getWeekRange] in closed form, for a clock between 1970 and the year
    9600, in a zone that keeps one offset, of less than a day, from eight
    days before the clock's reading to eight days after it: with [mon] the
    Monday of the local week (a Sunday counts with the week before), the
    range is [mon] to [mon + 4], Monday to Friday, when the zone is at or
    west of UTC, and one day earlier, Sunday to Thursday, when the zone is
    east of UTC (weekdays count from Sunday = 0).  The definition written
    with one offset gives the same range. *)
Theorem getWeekRange_closed_form (zone : Zone) (tza now : Z) :
  0 <= now + tza < 2786000 * msPerDay ->
  - msPerDay < tza < msPerDay ->
  (forall t : Z, now - 8 * msPerDay <= t <= now + 8 * msPerDay ->
     LocalTZA_utc zone t = tza /\ LocalTZA_local zone t = tza) ->
  let today := Day (now + tza) in
  let mon := today - (today + 3) mod 7 in
  let shift := if 0 <? tza then -1 else 0 in
  WeekDay (MakeDate mon 0) = 1
  /\ mon <= today <= mon + 6
  /\ WeekDay (MakeDate (mon + shift) 0) = (if 0 <? tza then 0 else 1)
  /\ WeekDay (MakeDate (mon + 4 + shift) 0) = (if 0 <? tza then 4 else 5)
  /\ CalendarView.Zoned.getWeekRange zone now
     = {| CalendarView.range_start := iso_date (mon + shift);
          CalendarView.range_end := iso_date (mon + 4 + shift) |}
  /\ CalendarView.getWeekRange tza now = CalendarView.Zoned.getWeekRange zone now.
Proof.
  intros Hnow Htz Hzone today mon shift.
  assert (Hmon : mon <= today <= mon + 6)
    by (subst mon; Z.to_euclidean_division_equations; lia).
  assert (Hzero : 0 <= 0 < msPerDay) by (by vm_compute).
  split; [|split; [exact Hmon|split; [|split; [|split]]]].
  - unfold WeekDay. rewrite Day_MakeDate by done.
    subst mon. Z.to_euclidean_division_equations; lia.
  - unfold WeekDay. rewrite Day_MakeDate by done.
    subst shift mon. destruct (0 <? tza);
      Z.to_euclidean_division_equations; lia.
  - unfold WeekDay. rewrite Day_MakeDate by done.
    subst shift mon. destruct (0 <? tza);
      Z.to_euclidean_division_equations; lia.
  - by apply getWeekRange_steady_zone.
  - rewrite <- getWeekRange_fixed_zone.
    rewrite (getWeekRange_steady_zone zone tza now) by done.
    by apply getWeekRange_steady_zone.
Qed.

(** In a week in which the clocks change the closed form does not apply:
    in London on Sunday 29 March 2026 at noon UTC, one hour east of UTC
    since that morning, the week's Monday and Friday were still on UTC,
    and the range is Monday 23 to Friday 27. *)
Lemma getWeekRange_clock_change_week :
  let now := MakeDate (days_from_civil 2026 3 29) (MakeTime 12 0 0 0) in
  LocalTZA_utc Examples.london now = msPerHour
  /\ CalendarView.Zoned.getWeekRange Examples.london now
     = {| CalendarView.range_start := "2026-03-23";
          CalendarView.range_end := "2026-03-27" |}
  /\ CalendarView.getWeekRange msPerHour now
     = {| CalendarView.range_start := "2026-03-22";
          CalendarView.range_end := "2026-03-26" |}.
Proof. repeat split; vm_compute; reflexivity. Qed.

End DateFacts.

(* ===================================================================== *)
(** * Properties of the calendar component *)
(* ===================================================================== *)

Section CalendarFacts.

Import CalendarView.

Lemma fetchSlots_settles (env : BrowserEnv)
    (fetch : fetch_fn Api.AvailabilityResult) (team : Api.Team) (st : State) :
  fetchSlots env fetch team st =
    match Api.findAvailability env fetch (Api.team_id_ team)
            (range_start (range st)) (range_end (range st)) (Some 30) with
    | Fulfilled result =>
        {| loading := false; slots := or_slots (Api.slots result);
           message := or_string (Api.message result) "";
           booking := booking st; range := range st |}
    | Rejected e =>
        {| loading := false; slots := [];
           message := error_message e "Failed to load availability";
           booking := booking st; range := range st |}
    end.
Proof.
  unfold fetchSlots. simpl.
  destruct (Api.findAvailability _ _ _ _ _ _); reflexivity.
Qed.

Lemma render_slot_buttons (st : State) :
  loading st = false ->
  slot_buttons (render st) = imap slot_button (take 8 (slots st)).
Proof.
  intros Hl. unfold render. simpl. rewrite Hl.
  destruct (slots st); reflexivity.
Qed.

Lemma imap_lookup {A B} (f : nat -> A -> B) (l : list A) (i : nat) :
  imap f l !! i = f i <$> l !! i.
Proof.
  revert f i. induction l as [|x l IH]; intros f i; [done|].
  destruct i as [|i]; simpl; [done|]. by rewrite IH.
Qed.

End CalendarFacts.

(** C10: whatever slot list [findAvailability] returns, the booking buttons
    drawn afterwards are those of its first eight slots, in the order
    received (a result without a slot list counts as the empty list):
    button [i] shows slot [i] for [i] below 8, and there is no button from
    index 8 on. *)
Theorem at_most_eight_slots_rendered (env : BrowserEnv)
    (fetch : fetch_fn Api.AvailabilityResult) (team : Api.Team)
    (st : CalendarView.State) (result : Api.AvailabilityResult)
    (Hfound : Api.findAvailability env fetch (Api.team_id_ team)
                (CalendarView.range_start (CalendarView.range st))
                (CalendarView.range_end (CalendarView.range st)) (Some 30)
              = Fulfilled result) :
  let received := default [] (Api.slots result) in
  let buttons :=
    CalendarView.slot_buttons
      (CalendarView.render (CalendarView.fetchSlots env fetch team st)) in
  buttons = imap CalendarView.slot_button (take 8 received)
  /\ length buttons = Nat.min 8 (length received)
  /\ (forall i : nat, (i < 8)%nat ->
        buttons !! i = CalendarView.slot_button i <$> received !! i)
  /\ (forall i : nat, (8 <= i)%nat -> buttons !! i = None)
  /\ CalendarView.label <$> buttons = Api.display <$> take 8 received.
Proof.
  intros received buttons.
  assert (Hb : buttons = imap CalendarView.slot_button (take 8 received)).
  { subst buttons received. rewrite fetchSlots_settles, Hfound.
    rewrite render_slot_buttons by reflexivity.
    by destruct (Api.slots result). }
  split; [exact Hb|]. rewrite Hb. split; [|split; [|split]].
  - by rewrite length_imap, length_take.
  - intros i Hi. rewrite imap_lookup, lookup_take_lt by done. done.
  - intros i Hi. rewrite imap_lookup, lookup_take_ge by done. done.
  - rewrite fmap_imap. rewrite <- (imap_const Api.display).
    apply imap_ext. reflexivity.
Qed.

(* ===================================================================== *)
(** * Properties of the availability resolver *)
(* ===================================================================== *)

Section ResolverFacts.

Import Resolver.

(** *** Tiling *)

Lemma tile_elem (fuel : nat) (cursor dur wend : Z) (p : Z * Z) :
  0 < dur -> p ∈ tile fuel cursor dur wend ->
  cursor <= fst p /\ snd p = fst p + dur /\ snd p <= wend.
Proof.
  intros Hd. revert cursor.
  induction fuel as [|fuel IH]; intros cursor; simpl.
  - by intros ?%elem_of_nil.
  - destruct (Z.leb_spec (cursor + dur) wend) as [Hle|Hgt].
    + intros [->|Hin]%elem_of_cons; simpl; [lia|].
      specialize (IH _ Hin). lia.
    + by intros ?%elem_of_nil.
Qed.

Lemma tile_closed_form (fuel : nat) (cursor dur wend : Z) :
  0 < dur -> (Z.to_nat (wend - cursor) <= fuel)%nat ->
  tile fuel cursor dur wend
  = (fun k => (cursor + k * dur, cursor + (k + 1) * dur))
      <$> seqZ 0 ((wend - cursor) / dur).
Proof.
  intros Hd. revert cursor.
  induction fuel as [|fuel IH]; intros cursor Hfuel; simpl.
  - rewrite seqZ_nil; [done|].
    assert (wend - cursor <= 0) by lia.
    apply Z.div_le_upper_bound; lia.
  - destruct (Z.leb_spec (cursor + dur) wend) as [Hle|Hgt].
    + assert (Hq : (wend - cursor) / dur = Z.succ ((wend - (cursor + dur)) / dur)).
      { replace (wend - cursor) with ((wend - (cursor + dur)) + 1 * dur) by lia.
        rewrite Z.div_add by lia. lia. }
      assert (0 <= (wend - (cursor + dur)) / dur) by (apply Z.div_pos; lia).
      rewrite Hq, seqZ_cons by lia. simpl.
      rewrite Z.pred_succ. f_equal; [f_equal; lia|].
      rewrite IH by lia.
      replace (Z.succ 0) with (1 + 0) by lia.
      rewrite <- fmap_add_seqZ, <- list_fmap_compose.
      apply list_fmap_ext. intros _ k _. simpl. f_equal; lia.
    + rewrite seqZ_nil; [done|].
      destruct (Z.le_gt_cases 0 (wend - cursor)).
      * rewrite Z.div_small by lia. lia.
      * apply Z.div_le_upper_bound; lia.
Qed.

(** *** Every window of the sweep lies in the day window *)

Lemma clip_within (w b c : TimeInterval) :
  clip w b = Some c -> within (iv_start w) (iv_end w) c.
Proof.
  unfold clip, within.
  destruct (Z.ltb_spec (Z.max (iv_start b) (iv_start w))
                       (Z.min (iv_end b) (iv_end w))); [|done].
  intros [= <-]. simpl. lia.
Qed.

Lemma free_walk_within (ws we cursor : Z) (busy : list TimeInterval) :
  ws <= cursor -> Forall (within ws we) busy ->
  Forall (within ws we) (free_walk cursor we busy).
Proof.
  intros Hc Hb. revert cursor Hc.
  induction Hb as [|b rest Hb _ IH]; intros cursor Hc; simpl.
  - destruct (Z.ltb_spec cursor we); constructor; [|constructor].
    unfold within; simpl; lia.
  - apply Forall_app. split.
    + destruct (Z.ltb_spec cursor (iv_start b)); constructor; [|constructor].
      unfold within in *; simpl; lia.
    + apply IH. lia.
Qed.

Lemma member_free_within (w : TimeInterval) (busy : list TimeInterval) :
  Forall (within (iv_start w) (iv_end w)) (member_free w busy).
Proof.
  unfold member_free. apply free_walk_within; [lia|].
  rewrite merge_sort_Permutation.
  apply Forall_forall. intros c (b & _ & Hc)%list_elem_of_omap.
  by eapply clip_within.
Qed.

Lemma sweep_within (ws wend n count : Z) (run : option Z) (evs : list Event) :
  (forall s, run = Some s -> ws <= s) ->
  Forall (fun e => ws <= ev_time e <= wend) evs ->
  Forall (within ws wend) (sweep n count run wend evs).
Proof.
  intros Hrun Hev. revert count run Hrun.
  induction Hev as [|e rest He _ IH]; intros count run Hrun; simpl.
  - destruct run as [s|]; [|constructor].
    destruct (Z.ltb_spec s wend); constructor; [|constructor].
    specialize (Hrun s eq_refl). unfold within; simpl; lia.
  - destruct run as [s|].
    + destruct (count + ev_delta e =? n).
      * by apply IH.
      * apply Forall_app. split.
        -- destruct (Z.ltb_spec s (ev_time e)); constructor; [|constructor].
           specialize (Hrun s eq_refl). unfold within; simpl; lia.
        -- apply IH. intros ? [=].
    + destruct (count + ev_delta e =? n); apply IH.
      * intros ? [= <-]. lia.
      * intros ? [=].
Qed.

Lemma all_free_windows_within (team_busy : gmap string (list TimeInterval))
    (wh : WorkingHours) (d : Z) :
  Forall (within (iv_start (day_window wh d)) (iv_end (day_window wh d)))
         (all_free_windows team_busy wh d).
Proof.
  unfold all_free_windows.
  set (w := day_window wh d).
  destruct (Z.le_gt_cases (iv_start w) (iv_end w)) as [Hle|Hgt].
  - apply sweep_within.
    + intros s. destruct (_ =? 0); intros [= <-]. subst w. simpl. lia.
    + rewrite merge_sort_Permutation.
      apply Forall_bind, Forall_fmap, Forall_forall. intros [k busy] _. simpl.
      apply Forall_bind.
      eapply Forall_impl; [apply member_free_within|].
      intros iv (H1 & H2 & H3). unfold interval_events. subst w. simpl in *.
      apply Forall_cons; split; [simpl; lia|].
      apply Forall_cons; split; [simpl; lia|apply Forall_nil_2].
  - (* an inverted window: no member has free time and no run is emitted *)
    assert (Hnil : forall busy, member_free w busy = []).
    { intros busy.
      pose proof (member_free_within w busy) as H.
      destruct (member_free w busy) as [|iv l]; [done|].
      apply Forall_cons in H as [(? & ? & ?) _]. lia. }
    assert (Hev : ((fun kv : string * list TimeInterval => member_free w (snd kv))
                     <$> map_to_list team_busy)
                  ≫= (fun f => f ≫= interval_events) = []).
    { induction (map_to_list team_busy) as [|kv l IH]; [done|].
      rewrite fmap_cons, bind_cons, IH, Hnil. done. }
    rewrite Hev. cbn.
    destruct (_ =? 0); simpl; [|constructor].
    match goal with |- context [?a <? ?b] => destruct (Z.ltb_spec a b) end;
      [|constructor].
    exfalso. subst w. simpl in *. lia.
Qed.

(** *** The slots of the resolver *)

Lemma candidate_days_elem (req : AvailabilityRequest) (d : Z) :
  d ∈ candidate_days req
  <-> weekday_of_date d ∈ days_of req /\ start_date req <= d <= end_date req.
Proof.
  unfold candidate_days. rewrite list_elem_of_filter, elem_of_seqZ.
  split; intros [? ?]; split; auto; lia.
Qed.

Lemma common_slots_elem (team_busy : gmap string (list TimeInterval))
    (req : AvailabilityRequest) (s : Slot) :
  s ∈ common_slots team_busy req
  <-> exists d w p,
        d ∈ candidate_days req
        /\ w ∈ all_free_windows team_busy (hours_of req) d
        /\ p ∈ tile_window (duration_minutes req) w
        /\ s = make_slot p.
Proof.
  unfold common_slots. rewrite list_elem_of_bind. split.
  - intros (d & (w & Hs & Hw)%list_elem_of_bind & Hd).
    apply list_elem_of_fmap in Hs as (p & -> & Hp). eauto 10.
  - intros (d & w & p & Hd & Hw & Hp & ->).
    exists d. split; [|done]. apply list_elem_of_bind. exists w. split; [|done].
    apply list_elem_of_fmap. eauto.
Qed.

Lemma find_common_slots_valid (team_busy : gmap string (list TimeInterval))
    (req : AvailabilityRequest) :
  0 < duration_minutes req -> start_date req <= end_date req ->
  find_common_slots team_busy req
  = inr {| slots := common_slots team_busy req;
           message := match common_slots team_busy req with
                      | [] => no_common_slot_message
                      | _ => ""
                      end |}.
Proof.
  intros Hd Hr. unfold find_common_slots.
  destruct (Z.leb_spec (duration_minutes req) 0); [lia|].
  destruct (Z.ltb_spec (end_date req) (start_date req)); [lia|]. done.
Qed.

Lemma find_common_slots_inr (team_busy : gmap string (list TimeInterval))
    (req : AvailabilityRequest) (resp : AvailabilityResponse) :
  find_common_slots team_busy req = inr resp ->
  0 < duration_minutes req /\ start_date req <= end_date req
  /\ slots resp = common_slots team_busy req.
Proof.
  unfold find_common_slots.
  destruct (Z.leb_spec (duration_minutes req) 0); [done|].
  destruct (Z.ltb_spec (end_date req) (start_date req)); [done|].
  intros [= <-]. simpl. split; [lia|split; [lia|done]].
Qed.

Lemma date_of_unique (t d : Z) :
  d * minutesPerDay <= t < (d + 1) * minutesPerDay -> date_of t = d.
Proof.
  unfold date_of, minutesPerDay. intros H.
  symmetry. apply (Z.div_unique t 1440 d (t - d * 1440)); lia.
Qed.

End ResolverFacts.

(** C2: a request whose duration is zero or negative, or whose end date
    precedes its start date, makes the resolver fail with [InvalidRequest],
    a result that carries no slot; the client checks nothing: whatever
    the date strings and the duration, [findAvailability] hands [fetch] the
    request that carries them unchanged and settles as that request is
    answered, a response that is not ok becoming the generic error
    ["Failed to find availability"]. *)
Theorem invalid_request_rejected
    (team_busy : gmap string (list Resolver.TimeInterval))
    (req : Resolver.AvailabilityRequest)
    (env : BrowserEnv) (fetch : fetch_fn Api.AvailabilityResult)
    (teamId startDate endDate : string) (d : Z)
    (Hinvalid : Resolver.duration_minutes req <= 0
                \/ Resolver.end_date req < Resolver.start_date req) :
  let sent :=
    {| req_url := Api.API_BASE env +:+ "/teams/" +:+ teamId +:+ "/availability/find";
       req_method := POST;
       req_headers := Api.json_headers env;
       req_body := Some (JObj [("start_date", JStr startDate);
                               ("end_date", JStr endDate);
                               ("duration_minutes", JNum d)]) |} in
  Resolver.find_common_slots team_busy req = inl Resolver.InvalidRequest
  /\ (forall resp, Resolver.find_common_slots team_busy req <> inr resp)
  /\ Api.findAvailability env fetch teamId startDate endDate (Some d)
     = match fetch sent with
       | Rejected e => Rejected e
       | Fulfilled res =>
           if res_ok res then res_json res
           else Rejected (ErrorObj "Failed to find availability")
       end
  /\ (forall res, fetch sent = Fulfilled res -> res_ok res = false ->
        Api.findAvailability env fetch teamId startDate endDate (Some d)
        = Rejected (ErrorObj "Failed to find availability")).
Proof.
  intros sent.
  assert (Hres : Resolver.find_common_slots team_busy req = inl Resolver.InvalidRequest).
  { unfold Resolver.find_common_slots.
    destruct (Z.leb_spec (Resolver.duration_minutes req) 0); [done|].
    destruct (Z.ltb_spec (Resolver.end_date req) (Resolver.start_date req)); [done|].
    lia. }
  assert (Hcall : Api.findAvailability env fetch teamId startDate endDate (Some d)
                  = match fetch sent with
                    | Rejected e => Rejected e
                    | Fulfilled res =>
                        if res_ok res then res_json res
                        else Rejected (ErrorObj "Failed to find availability")
                    end).
  { unfold Api.findAvailability.
    change (Api.findAvailability_request env teamId startDate endDate (Some d))
      with sent.
    destruct (fetch sent) as [res|e]; simpl; [|reflexivity].
    by destruct (res_ok res). }
  split; [exact Hres|]. split; [|split; [exact Hcall|]].
  - intros resp. rewrite Hres. discriminate.
  - intros res Hfetch Hnotok. rewrite Hcall, Hfetch, Hnotok. reflexivity.
Qed.

(** C3: for a valid request the resolver's slots are, day by day and
    window by window, the greedy tiling of each all-free window: slot [k]
    runs from [window_start + k * duration] for [duration] minutes, for
    every [k >= 0] whose slot ends at or before the window end, and the
    loop stops by its own test.  On the example (hours 9 to 17, one day,
    one member busy 9:00 to 10:00 and 11:00 to 17:00, duration 30) the
    output is exactly the slots 10:00 to 10:30 and 10:30 to 11:00. *)
Theorem greedy_tiling
    (team_busy : gmap string (list Resolver.TimeInterval))
    (req : Resolver.AvailabilityRequest)
    (Hdur : 0 < Resolver.duration_minutes req)
    (Hrange : Resolver.start_date req <= Resolver.end_date req) :
  let dur := Resolver.duration_minutes req in
  (exists resp,
      Resolver.find_common_slots team_busy req = inr resp
      /\ Resolver.slots resp
         = Resolver.candidate_days req ≫= fun d =>
             Resolver.all_free_windows team_busy (Resolver.hours_of req) d ≫= fun w =>
               Resolver.make_slot <$> Resolver.tile_window dur w)
  /\ (forall w : Resolver.TimeInterval,
        Resolver.tile_window dur w
        = (fun k => (Resolver.iv_start w + k * dur,
                     Resolver.iv_start w + (k + 1) * dur))
            <$> seqZ 0 ((Resolver.iv_end w - Resolver.iv_start w) / dur))
  /\ (forall (w : Resolver.TimeInterval) (k : Z),
        (Resolver.iv_start w + k * dur, Resolver.iv_start w + (k + 1) * dur)
          ∈ Resolver.tile_window dur w
        <-> 0 <= k /\ Resolver.iv_start w + (k + 1) * dur <= Resolver.iv_end w)
  /\ (forall (w : Resolver.TimeInterval) (fuel : nat),
        (Z.to_nat (Resolver.iv_end w - Resolver.iv_start w) <= fuel)%nat ->
        Resolver.tile fuel (Resolver.iv_start w) dur (Resolver.iv_end w)
        = Resolver.tile_window dur w)
  /\ Resolver.find_common_slots Examples.one_member_busy Examples.monday_request
     = inr {| Resolver.slots :=
                [ {| Resolver.start := Examples.at_ 10 0;
                     Resolver.end_ := Examples.at_ 10 30;
                     Resolver.display := "Mon, Mar 3 · 10:00–10:30 AM" |};
                  {| Resolver.start := Examples.at_ 10 30;
                     Resolver.end_ := Examples.at_ 11 0;
                     Resolver.display := "Mon, Mar 3 · 10:30–11:00 AM" |} ];
              Resolver.message := "" |}.
Proof.
  intros dur.
  assert (Hclosed : forall w : Resolver.TimeInterval,
    Resolver.tile_window dur w
    = (fun k => (Resolver.iv_start w + k * dur, Resolver.iv_start w + (k + 1) * dur))
        <$> seqZ 0 ((Resolver.iv_end w - Resolver.iv_start w) / dur)).
  { intros w. unfold Resolver.tile_window. by apply tile_closed_form. }
  split; [|split; [|split; [|split]]].
  - eexists. split; [by apply find_common_slots_valid|]. reflexivity.
  - exact Hclosed.
  - intros w k. rewrite Hclosed, list_elem_of_fmap.
    set (len := Resolver.iv_end w - Resolver.iv_start w).
    assert (Hmul : dur * (len / dur) <= len) by (apply Z.mul_div_le; lia).
    split.
    + intros (k' & Heq & Hk'%elem_of_seqZ). injection Heq as Heq _.
      assert (k = k') as -> by nia.
      subst len. nia.
    + intros [Hk Hend]. exists k. split; [done|].
      apply elem_of_seqZ. split; [lia|].
      assert (k + 1 <= len / dur); [|lia].
      apply Z.div_le_lower_bound; subst len; lia.
  - intros w fuel Hfuel. unfold Resolver.tile_window.
    rewrite !tile_closed_form by lia. done.
  - vm_compute. reflexivity.
Qed.

(** C4: every slot the resolver emits lies in the working window of one
    candidate day of the request: that day is in the date range, its
    weekday is included, the slot starts at or after the day's
    [start_hour], lasts [duration_minutes] and ends at or before the day's
    [end_hour]; with working hours that are hours of the day (between 0
    and 24) the whole slot is on that date, so no slot crosses a day
    boundary. *)
Theorem slots_within_working_window
    (team_busy : gmap string (list Resolver.TimeInterval))
    (req : Resolver.AvailabilityRequest) (resp : Resolver.AvailabilityResponse)
    (s : Resolver.Slot)
    (Hresp : Resolver.find_common_slots team_busy req = inr resp)
    (Hslot : s ∈ Resolver.slots resp) :
  exists d : Z,
    d ∈ Resolver.candidate_days req
    /\ Resolver.start_date req <= d <= Resolver.end_date req
    /\ Resolver.weekday_of_date d ∈ Resolver.days_of req
    /\ d * 1440 + 60 * Resolver.start_hour (Resolver.hours_of req) <= Resolver.start s
    /\ Resolver.start s < Resolver.end_ s
    /\ Resolver.end_ s = Resolver.start s + Resolver.duration_minutes req
    /\ Resolver.end_ s <= d * 1440 + 60 * Resolver.end_hour (Resolver.hours_of req)
    /\ (0 <= Resolver.start_hour (Resolver.hours_of req)
        /\ Resolver.end_hour (Resolver.hours_of req) <= 24 ->
        Resolver.date_of (Resolver.start s) = d
        /\ Resolver.date_of (Resolver.end_ s - 1) = d
        /\ forall t : Z, Resolver.start s <= t < Resolver.end_ s ->
                         Resolver.date_of t = d)
    /\ (0 <= Resolver.start_hour (Resolver.hours_of req)
        /\ Resolver.end_hour (Resolver.hours_of req) < 24 ->
        Resolver.date_of (Resolver.end_ s) = d).
Proof.
  apply find_common_slots_inr in Hresp as (Hdur & Hrange & Hslots).
  rewrite Hslots in Hslot.
  apply common_slots_elem in Hslot as (d & w & p & Hd & Hw & Hp & ->).
  pose proof (all_free_windows_within team_busy (Resolver.hours_of req) d) as Hwin.
  rewrite Forall_forall in Hwin. specialize (Hwin w Hw).
  destruct Hwin as (Hws & _ & Hwe).
  apply tile_elem in Hp as (Hp1 & Hp2 & Hp3); [|done].
  pose proof Hd as Hd'. apply candidate_days_elem in Hd' as [Hwd Hin].
  simpl in Hws, Hwe. unfold Resolver.minutesPerDay in Hws, Hwe.
  exists d. simpl.
  split; [done|]. split; [done|]. split; [done|].
  split; [lia|]. split; [lia|]. split; [lia|]. split; [lia|].
  split.
  - intros [H0 H24].
    assert (forall t, fst p <= t < snd p -> Resolver.date_of t = d) as Hall.
    { intros t Ht. apply date_of_unique. unfold Resolver.minutesPerDay. lia. }
    split; [apply Hall; lia|]. split; [apply Hall; lia|]. exact Hall.
  - intros [H0 H24]. apply date_of_unique. unfold Resolver.minutesPerDay. lia.
Qed.

(** C5, as the code has it: when a valid request yields no slot over the
    whole range, the resolver succeeds with the empty slot sequence and a
    non-empty message, not an error; and when the client receives an ok
    response with no slot and a message, [fetchSlots] takes the normal
    path and the view shows that message and no booking button.  The
    error path is not kept for responses that are not ok: [fetchSlots]
    takes it exactly when [fetch] rejects, when the response is not ok, or
    when the body of an ok response cannot be parsed, and shows the
    message of the error at hand. *)
Theorem no_common_slot_is_a_result
    (team_busy : gmap string (list Resolver.TimeInterval))
    (req : Resolver.AvailabilityRequest)
    (env : BrowserEnv) (fetch : fetch_fn Api.AvailabilityResult)
    (team : Api.Team) (st : CalendarView.State)
    (res : Response Api.AvailabilityResult) (m : string)
    (Hdur : 0 < Resolver.duration_minutes req)
    (Hrange : Resolver.start_date req <= Resolver.end_date req)
    (Hnone : Resolver.common_slots team_busy req = [])
    (Hfetch : fetch (Api.findAvailability_request env (Api.team_id_ team)
                       (CalendarView.range_start (CalendarView.range st))
                       (CalendarView.range_end (CalendarView.range st))
                       (Some 30)) = Fulfilled res)
    (Hok : res_ok res = true)
    (Hbody : res_json res
             = Fulfilled {| Api.slots := Some []; Api.message := Some m |}) :
  Resolver.find_common_slots team_busy req
    = inr {| Resolver.slots := [];
             Resolver.message := Resolver.no_common_slot_message |}
  /\ Resolver.no_common_slot_message <> ""
  /\ CalendarView.fetchSlots_path env fetch team st = CalendarView.NormalPath
  /\ CalendarView.fetchSlots env fetch team st
     = {| CalendarView.loading := false; CalendarView.slots := [];
          CalendarView.message := m;
          CalendarView.booking := CalendarView.booking st;
          CalendarView.range := CalendarView.range st |}
  /\ CalendarView.message_box
       (CalendarView.render (CalendarView.fetchSlots env fetch team st))
     = (if decide (m = "") then None else Some m)
  /\ CalendarView.slot_buttons
       (CalendarView.render (CalendarView.fetchSlots env fetch team st)) = []
  /\ (forall fetch' : fetch_fn Api.AvailabilityResult,
        let answer :=
          fetch' {| req_url := Api.API_BASE env +:+ "/teams/" +:+ Api.team_id_ team
                               +:+ "/availability/find";
                    req_method := POST;
                    req_headers := Api.json_headers env;
                    req_body :=
                      Some (JObj [("start_date",
                                   JStr (CalendarView.range_start
                                           (CalendarView.range st)));
                                  ("end_date",
                                   JStr (CalendarView.range_end
                                           (CalendarView.range st)));
                                  ("duration_minutes", JNum 30)]) |} in
        let st' := CalendarView.fetchSlots env fetch' team st in
        (CalendarView.fetchSlots_path env fetch' team st = CalendarView.ErrorPath
         <-> match answer with
             | Rejected _ => True
             | Fulfilled res' =>
                 res_ok res' = false \/ exists e, res_json res' = Rejected e
             end)
        /\ match answer with
           | Rejected e =>
               CalendarView.slots st' = []
               /\ CalendarView.message st'
                  = CalendarView.error_message e "Failed to load availability"
           | Fulfilled res' =>
               if res_ok res'
               then match res_json res' with
                    | Rejected e =>
                        CalendarView.slots st' = []
                        /\ CalendarView.message st'
                           = CalendarView.error_message e
                               "Failed to load availability"
                    | Fulfilled result =>
                        CalendarView.slots st' = default [] (Api.slots result)
                        /\ CalendarView.message st'
                           = default "" (Api.message result)
                    end
               else CalendarView.slots st' = []
                    /\ CalendarView.message st' = "Failed to find availability"
           end).
Proof.
  assert (Hfound : Api.findAvailability env fetch (Api.team_id_ team)
            (CalendarView.range_start (CalendarView.range st))
            (CalendarView.range_end (CalendarView.range st)) (Some 30)
          = Fulfilled {| Api.slots := Some []; Api.message := Some m |}).
  { unfold Api.findAvailability. rewrite Hfetch. simpl. by rewrite Hok. }
  assert (Hst : CalendarView.fetchSlots env fetch team st
     = {| CalendarView.loading := false; CalendarView.slots := [];
          CalendarView.message := m;
          CalendarView.booking := CalendarView.booking st;
          CalendarView.range := CalendarView.range st |}).
  { rewrite fetchSlots_settles, Hfound. simpl. by destruct m. }
  split; [|split; [|split; [|split; [|split; [|split]]]]].
  - rewrite find_common_slots_valid by done. by rewrite Hnone.
  - done.
  - unfold CalendarView.fetchSlots_path. by rewrite Hfound.
  - exact Hst.
  - rewrite Hst. simpl. by destruct m.
  - rewrite Hst. reflexivity.
  - intros fetch' answer st'. subst st'.
    unfold CalendarView.fetchSlots_path. rewrite fetchSlots_settles.
    unfold Api.findAvailability.
    change (fetch' (Api.findAvailability_request env (Api.team_id_ team)
                      (CalendarView.range_start (CalendarView.range st))
                      (CalendarView.range_end (CalendarView.range st)) (Some 30)))
      with answer.
    destruct answer as [res'|e]; simpl; [|by split].
    destruct (res_ok res'); simpl.
    + destruct (res_json res') as [[l msg]|e]; simpl.
      * split.
        -- split; [discriminate|]. intros [[=]|[e [=]]].
        -- split; [by destruct l|]. by destruct msg as [[|c msg]|].
      * split; [|by split]. split; [|done]. intros _. right. by exists e.
    + split; [|by split]. split; [|done]. intros _. by left.
Qed.

(** C5, the claim as stated fails: an ok response whose body is not JSON
    takes the error path of [fetchSlots], which shows the parse error, and
    so does a request that never gets a response. *)
Lemma ok_response_on_the_error_path :
  Examples.garbled
    (Api.findAvailability_request Examples.browser "team-1" "2026-02-09"
       "2026-02-13" (Some 30))
  = Fulfilled {| res_ok := true;
                 res_json := Rejected (ErrorObj "Unexpected token < in JSON") |}
  /\ CalendarView.fetchSlots_path Examples.browser Examples.garbled Examples.team1
       Examples.idle
     = CalendarView.ErrorPath
  /\ CalendarView.message
       (CalendarView.fetchSlots Examples.browser Examples.garbled Examples.team1
          Examples.idle)
     = "Unexpected token < in JSON"
  /\ CalendarView.fetchSlots_path Examples.browser Examples.offline Examples.team1
       Examples.idle
     = CalendarView.ErrorPath
  /\ CalendarView.message
       (CalendarView.fetchSlots Examples.browser Examples.offline Examples.team1
          Examples.idle)
     = "Failed to fetch".
Proof. repeat split; vm_compute; reflexivity. Qed.

(** C7, at an input where the code departs from the claim: on Wednesday
    11 February 2026 at noon, in a zone one hour east of UTC,
    [getWeekRange] returns Sunday 8 February to Thursday 12 February,
    because [toISOString] prints the local midnights in UTC; eight hours
    west of UTC the same instant gives Monday 9 to Friday 13 (weekdays
    count from Sunday = 0). *)
Theorem getWeekRange_east_of_utc :
  let now := JsDate.MakeDate (JsDate.days_from_civil 2026 2 11)
               (JsDate.MakeTime 11 0 0 0) in
  let east := 1 * JsDate.msPerHour in
  let west := -8 * JsDate.msPerHour in
  JsDate.getDay east now = 3
  /\ JsDate.getDate east now = 11
  /\ CalendarView.getWeekRange east now
     = {| CalendarView.range_start := "2026-02-08";
          CalendarView.range_end := "2026-02-12" |}
  /\ JsDate.WeekDay (JsDate.MakeDate (JsDate.days_from_civil 2026 2 8) 0) = 0
  /\ JsDate.WeekDay (JsDate.MakeDate (JsDate.days_from_civil 2026 2 12) 0) = 4
  /\ CalendarView.getWeekRange west now
     = {| CalendarView.range_start := "2026-02-09";
          CalendarView.range_end := "2026-02-13" |}
  /\ JsDate.WeekDay (JsDate.MakeDate (JsDate.days_from_civil 2026 2 9) 0) = 1
  /\ JsDate.WeekDay (JsDate.MakeDate (JsDate.days_from_civil 2026 2 13) 0) = 5
  /\ CalendarView.DAYS = ["Mon"; "Tue"; "Wed"; "Thu"; "Fri"].
Proof. repeat split; vm_compute; reflexivity. Qed.

(* ===================================================================== *)
(** * Further properties of the client and the component *)
(* ===================================================================== *)

(** X2: [bookMeeting] sends one POST to [/teams/{teamId}/book] whose JSON
    body has exactly the keys [title], [start_time] and
    [duration_minutes]; a rejected [fetch] is passed on, a response that is
    not ok becomes the error ["Failed to book meeting"], and an ok response
    yields its parsed body. *)
Theorem bookMeeting_contract (env : BrowserEnv)
    (fetch : fetch_fn Api.BookingResult)
    (teamId title startTime : string) (d : Z) :
  let rq := {| req_url := Api.API_BASE env +:+ "/teams/" +:+ teamId +:+ "/book";
               req_method := POST;
               req_headers := Api.json_headers env;
               req_body := Some (JObj [("title", JStr title);
                                       ("start_time", JStr startTime);
                                       ("duration_minutes", JNum d)]) |} in
  json_keys <$> req_body rq = Some ["title"; "start_time"; "duration_minutes"]
  /\ req_headers rq !! "Content-Type" = Some "application/json"
  /\ Api.bookMeeting env fetch teamId title startTime (Some d)
     = match fetch rq with
       | Rejected e => Rejected e
       | Fulfilled res =>
           if res_ok res then res_json res
           else Rejected (ErrorObj "Failed to book meeting")
       end.
Proof.
  intros rq. split; [reflexivity|]. split; [apply json_headers_content_type|].
  subst rq. unfold Api.bookMeeting, Api.bookMeeting_request. simpl.
  destruct (fetch _) as [res|e]; simpl; [|reflexivity].
  by destruct (res_ok res).
Qed.

(** X3: [fetchSlots] always ends with the spinner off and leaves the open
    booking and the week range alone; when [findAvailability] rejects, the
    slots are cleared and the message is the error's message, or
    ["Failed to load availability"] for a thrown value that is not an
    [Error]; when it fulfils, missing fields read as no slots and no
    message. *)
Theorem fetchSlots_outcome (env : BrowserEnv)
    (fetch : fetch_fn Api.AvailabilityResult) (team : Api.Team)
    (st : CalendarView.State) :
  let st' := CalendarView.fetchSlots env fetch team st in
  CalendarView.loading st' = false
  /\ CalendarView.spinner (CalendarView.render st') = false
  /\ CalendarView.booking st' = CalendarView.booking st
  /\ CalendarView.range st' = CalendarView.range st
  /\ match Api.findAvailability env fetch (Api.team_id_ team)
             (CalendarView.range_start (CalendarView.range st))
             (CalendarView.range_end (CalendarView.range st)) (Some 30) with
     | Rejected (ErrorObj m) =>
         CalendarView.slots st' = [] /\ CalendarView.message st' = m
     | Rejected (ThrownValue _) =>
         CalendarView.slots st' = []
         /\ CalendarView.message st' = "Failed to load availability"
     | Fulfilled {| Api.slots := l; Api.message := m |} =>
         CalendarView.slots st' = default [] l
         /\ CalendarView.message st' = default "" m
     end.
Proof.
  intros st'. subst st'. rewrite fetchSlots_settles.
  destruct (Api.findAvailability _ _ _ _ _ _) as [[l m]|[m|v]]; simpl;
    repeat split; try reflexivity.
  destruct m as [[|c m]|]; reflexivity.
Qed.

(** X4: [handleBook] does nothing when no booking is open; otherwise it
    books the open slot with its title, start and duration: if the call
    fails the state is unchanged and an alert shows the error's message,
    and if it succeeds the booking is closed, the slots are fetched again
    and no alert is shown. *)
Theorem handleBook_outcome (env : BrowserEnv)
    (fetchA : fetch_fn Api.AvailabilityResult)
    (fetchB : fetch_fn Api.BookingResult) (team : Api.Team)
    (st : CalendarView.State) :
  match CalendarView.booking st with
  | None => CalendarView.handleBook env fetchA fetchB team st = (st, None)
  | Some b =>
      match fetchB (Api.bookMeeting_request env (Api.team_id_ team)
                      (CalendarView.title b)
                      (Api.start (CalendarView.slot b))
                      (Some (CalendarView.duration b))) with
      | Rejected e =>
          CalendarView.handleBook env fetchA fetchB team st
          = (st, Some (CalendarView.error_message e "Booking failed"))
      | Fulfilled res =>
          if res_ok res
          then match res_json res with
               | Fulfilled _ =>
                   CalendarView.handleBook env fetchA fetchB team st
                   = (CalendarView.fetchSlots env fetchA team
                        (CalendarView.setBooking None st), None)
               | Rejected e =>
                   CalendarView.handleBook env fetchA fetchB team st
                   = (st, Some (CalendarView.error_message e "Booking failed"))
               end
          else CalendarView.handleBook env fetchA fetchB team st
               = (st, Some "Failed to book meeting")
      end
  end.
Proof.
  unfold CalendarView.handleBook.
  destruct (CalendarView.booking st) as [b|]; [|reflexivity].
  unfold Api.bookMeeting.
  destruct (fetchB _) as [res|e]; simpl; [|reflexivity].
  destruct (res_ok res); simpl; [|reflexivity].
  destruct (res_json res); reflexivity.
Qed.

(* ===================================================================== *)
(** * The theorems at sample inputs *)
(* ===================================================================== *)

Lemma findAvailability_contract_witness :
  Api.findAvailability Examples.browser (Examples.server Examples.ten_slots)
    "team-1" "2026-02-09" "2026-02-13" (Some 30)
  = Fulfilled Examples.ten_slots.
Proof.
  exact (proj1 (findAvailability_contract Examples.browser
                  (Examples.server Examples.ten_slots)
                  "team-1" "2026-02-09" "2026-02-13" 30
                  {| res_ok := true; res_json := Fulfilled Examples.ten_slots |}
                  Examples.ten_slots eq_refl eq_refl eq_refl)).
Defined.

Lemma at_most_eight_slots_rendered_witness :
  length (CalendarView.slot_buttons
            (CalendarView.render
               (CalendarView.fetchSlots Examples.browser
                  (Examples.server Examples.ten_slots) Examples.team1 Examples.idle)))
  = Nat.min 8 (length (Examples.slot_n <$> seq 0 10)).
Proof.
  exact (proj1 (proj2 (at_most_eight_slots_rendered Examples.browser
                         (Examples.server Examples.ten_slots) Examples.team1
                         Examples.idle Examples.ten_slots eq_refl))).
Defined.

Lemma invalid_request_rejected_witness :
  Resolver.find_common_slots Examples.one_member_busy
    {| Resolver.team_id := "team-1"; Resolver.start_date := Examples.monday;
       Resolver.end_date := Examples.monday; Resolver.duration_minutes := 0;
       Resolver.working_hours := None; Resolver.days_included := None |}
  = inl Resolver.InvalidRequest
  /\ Api.findAvailability Examples.browser (Examples.server Examples.no_slots)
       "team-2" "2026-02-13" "2026-02-09" (Some (-5))
     = Rejected (ErrorObj "Failed to find availability")
  /\ Api.findAvailability Examples.browser (Examples.server Examples.no_slots)
       "team-1" "2026-02-13" "2026-02-09" (Some (-5))
     = Fulfilled Examples.no_slots.
Proof.
  pose (invalid := {| Resolver.team_id := "team-1";
                      Resolver.start_date := Examples.monday;
                      Resolver.end_date := Examples.monday;
                      Resolver.duration_minutes := 0;
                      Resolver.working_hours := None;
                      Resolver.days_included := None |}).
  pose proof (invalid_request_rejected Examples.one_member_busy invalid
    Examples.browser (Examples.server Examples.no_slots)
    "team-2" "2026-02-13" "2026-02-09" (-5)
    (or_introl (Z.le_refl 0))) as H2.
  pose proof (invalid_request_rejected Examples.one_member_busy invalid
    Examples.browser (Examples.server Examples.no_slots)
    "team-1" "2026-02-13" "2026-02-09" (-5)
    (or_introl (Z.le_refl 0))) as H1.
  cbv zeta in H1, H2.
  split; [exact (proj1 H2)|]. split.
  - exact (proj2 (proj2 (proj2 H2)) _ eq_refl eq_refl).
  - exact (proj1 (proj2 (proj2 H1))).
Defined.

Lemma greedy_tiling_witness :
  Resolver.tile_window 30
    {| Resolver.iv_start := Examples.at_ 10 0; Resolver.iv_end := Examples.at_ 11 0 |}
  = (fun k => (Examples.at_ 10 0 + k * 30, Examples.at_ 10 0 + (k + 1) * 30))
      <$> seqZ 0 ((Examples.at_ 11 0 - Examples.at_ 10 0) / 30).
Proof.
  exact (proj1 (proj2 (greedy_tiling Examples.one_member_busy Examples.monday_request
                         eq_refl (Z.le_refl _)))
           {| Resolver.iv_start := Examples.at_ 10 0;
              Resolver.iv_end := Examples.at_ 11 0 |}).
Defined.

Lemma slots_within_working_window_witness :
  exists d : Z,
    d ∈ Resolver.candidate_days Examples.monday_request
    /\ d * 1440 + 60 * 9 <= Examples.at_ 10 0
    /\ Examples.at_ 10 30 <= d * 1440 + 60 * 17
    /\ Resolver.date_of (Examples.at_ 10 0) = d
    /\ Resolver.date_of (Examples.at_ 10 30) = d.
Proof.
  pose (s := {| Resolver.start := Examples.at_ 10 0;
                Resolver.end_ := Examples.at_ 10 30;
                Resolver.display := "Mon, Mar 3 · 10:00–10:30 AM" |}).
  pose (resp := {| Resolver.slots :=
                     [ s; {| Resolver.start := Examples.at_ 10 30;
                             Resolver.end_ := Examples.at_ 11 0;
                             Resolver.display := "Mon, Mar 3 · 10:30–11:00 AM" |} ];
                   Resolver.message := "" |}).
  assert (Hresp : Resolver.find_common_slots Examples.one_member_busy
                    Examples.monday_request = inr resp)
    by (vm_compute; reflexivity).
  assert (Hslot : s ∈ Resolver.slots resp) by (simpl; left).
  destruct (slots_within_working_window _ _ _ _ Hresp Hslot)
    as (d & Hd & _ & _ & Hs & _ & _ & He & Hday & Hend).
  exists d.
  split; [exact Hd|]. split; [exact Hs|]. split; [exact He|].
  assert (H0 : 0 <= 9) by (intros H; discriminate H).
  assert (H24 : 17 <= 24) by (intros H; discriminate H).
  split.
  - exact (proj1 (Hday (conj H0 H24))).
  - exact (Hend (conj H0 (eq_refl : 17 < 24))).
Defined.

Lemma no_common_slot_is_a_result_witness :
  Resolver.find_common_slots Examples.one_free_one_busy Examples.monday_request
    = inr {| Resolver.slots := [];
             Resolver.message := Resolver.no_common_slot_message |}
  /\ CalendarView.fetchSlots Examples.browser (Examples.server Examples.no_slots)
       Examples.team1 Examples.idle
     = {| CalendarView.loading := false; CalendarView.slots := [];
          CalendarView.message := "No common slot this week";
          CalendarView.booking := None;
          CalendarView.range := Examples.week |}.
Proof.
  assert (Hnone : Resolver.common_slots Examples.one_free_one_busy
                    Examples.monday_request = [])
    by (vm_compute; reflexivity).
  pose proof (no_common_slot_is_a_result Examples.one_free_one_busy
    Examples.monday_request Examples.browser (Examples.server Examples.no_slots)
    Examples.team1 Examples.idle
    {| res_ok := true; res_json := Fulfilled Examples.no_slots |}
    "No common slot this week" eq_refl (Z.le_refl _) Hnone
    eq_refl eq_refl eq_refl) as H.
  exact (conj (proj1 H) (proj1 (proj2 (proj2 (proj2 H))))).
Defined.

Lemma getWeekRange_closed_form_witness :
  CalendarView.Zoned.getWeekRange Examples.london 1770811200000
  = {| CalendarView.range_start := iso_date 20493;
       CalendarView.range_end := iso_date 20497 |}.
Proof.
  assert (Hnow : 0 <= 1770811200000 + 0 < 2786000 * JsDate.msPerDay)
    by (unfold JsDate.msPerDay; lia).
  assert (Htz : - JsDate.msPerDay < 0 < JsDate.msPerDay)
    by (unfold JsDate.msPerDay; lia).
  assert (Hzone : forall t : Z,
            1770811200000 - 8 * JsDate.msPerDay <= t
              <= 1770811200000 + 8 * JsDate.msPerDay ->
            JsDate.LocalTZA_utc Examples.london t = 0
            /\ JsDate.LocalTZA_local Examples.london t = 0).
  { intros t Ht. unfold JsDate.msPerDay in Ht.
    change (JsDate.LocalTZA_utc Examples.london t)
      with (if (1774746000000 <=? t) && (t <? 1792890000000) then 3600000 else 0).
    change (JsDate.LocalTZA_local Examples.london t)
      with (if (1774749600000 <=? t) && (t <? 1792893600000) then 3600000 else 0).
    destruct (Z.leb_spec 1774746000000 t); [lia|].
    destruct (Z.leb_spec 1774749600000 t); [lia|].
    split; reflexivity. }
  exact (proj1 (proj2 (proj2 (proj2 (proj2
           (getWeekRange_closed_form Examples.london 0 1770811200000
              Hnow Htz Hzone)))))).
Defined.

(* ===================================================================== *)
(** * Properties of the other client calls *)
(* ===================================================================== *)

Section ClientCalls.

Lemma throw_detail_rejected {A B} (res : Client.Reply A) (fallback : string) :
  is_rejected (Client.throw_detail (B := B) res fallback).
Proof.
  unfold Client.throw_detail.
  destruct (Client.json_err res) as [err|e]; simpl; [|done].
  destruct (Js.get err "detail"); done.
Qed.

Lemma form_encode_byte_safe (c : ascii) :
  forallb form_safe (list_ascii_of_string (Js.form_encode_byte c)) = true.
Proof. destruct c as [[] [] [] [] [] [] [] []]; reflexivity. Qed.

Lemma list_ascii_of_append (a b : string) :
  list_ascii_of_string (a +:+ b)
  = (list_ascii_of_string a ++ list_ascii_of_string b)%list.
Proof.
  induction a as [|c a IH]; [done|].
  rewrite append_cons. simpl. by rewrite IH.
Qed.

Lemma form_urlencode_safe (s : string) :
  forallb form_safe (list_ascii_of_string (Js.form_urlencode s)) = true.
Proof.
  induction s as [|c s IH]; [done|].
  simpl. rewrite list_ascii_of_append, forallb_app, IH, form_encode_byte_safe.
  done.
Qed.

Lemma form_urldecode_byte (c : ascii) (rest : string) :
  form_urldecode (Js.form_encode_byte c +:+ rest) = String c (form_urldecode rest).
Proof. destruct c as [[] [] [] [] [] [] [] []]; reflexivity. Qed.

Lemma form_urldecode_encode (s : string) :
  form_urldecode (Js.form_urlencode s) = s.
Proof.
  induction s as [|c s IH]; [reflexivity|].
  cbn [Js.form_urlencode]. by rewrite form_urldecode_byte, IH.
Qed.

Lemma append_assoc (a b c : string) : (a +:+ b) +:+ c = a +:+ b +:+ c.
Proof.
  induction a as [|x a IH]; [done|].
  rewrite !append_cons. by rewrite IH.
Qed.

Lemma throw_detail_parse_error {A B} (res : Client.Reply A) (fallback : string) e :
  Client.json_err res = Rejected e ->
  Client.throw_detail (B := B) res fallback = Rejected e.
Proof. intros H. unfold Client.throw_detail. by rewrite H. Qed.

Lemma throw_detail_null {A B} (res : Client.Reply A) (fallback : string) :
  Client.json_err res = Fulfilled JNull ->
  Client.throw_detail (B := B) res fallback
  = Rejected (ErrorObj "Cannot read properties of null (reading 'detail')").
Proof. intros H. unfold Client.throw_detail. by rewrite H. Qed.

Lemma throw_detail_string {A B} (res : Client.Reply A) (fallback : string)
    (fields : list (string * json)) (d : string) :
  Client.json_err res = Fulfilled (JObj fields) ->
  Js.own_property "detail" fields = Some (JStr d) -> d <> "" ->
  Client.throw_detail (B := B) res fallback = Rejected (ErrorObj d).
Proof.
  intros H Hd Hne. unfold Client.throw_detail. rewrite H. simpl. rewrite Hd. simpl.
  destruct (String.eqb_spec d ""); [done|reflexivity].
Qed.

Lemma throw_detail_fallback {A B} (res : Client.Reply A) (fallback : string)
    (fields : list (string * json)) :
  Client.json_err res = Fulfilled (JObj fields) ->
  Js.truthy (Js.own_property "detail" fields) = false ->
  Client.throw_detail (B := B) res fallback = Rejected (ErrorObj fallback).
Proof.
  intros H Hd. unfold Client.throw_detail. rewrite H. simpl. by rewrite Hd.
Qed.

Lemma to_string_objects (items : list json) :
  Forall (fun x => exists fields, x = JObj fields) items ->
  Js.to_string (JArr items)
  = String.concat "," (map (fun _ => "[object Object]") items).
Proof.
  intros H. cbn [Js.to_string]. f_equal.
  induction H as [|x items [fields ->] _ IH]; [done|].
  cbn [map]. by rewrite IH.
Qed.

Lemma throw_detail_objects {A B} (res : Client.Reply A) (fallback : string)
    (fields : list (string * json)) (items : list json) :
  Client.json_err res = Fulfilled (JObj fields) ->
  Js.own_property "detail" fields = Some (JArr items) ->
  Forall (fun x => exists fields, x = JObj fields) items ->
  Client.throw_detail (B := B) res fallback
  = Rejected (ErrorObj (String.concat "," (map (fun _ => "[object Object]") items))).
Proof.
  intros H Hd Hitems. unfold Client.throw_detail. rewrite H. simpl. rewrite Hd.
  cbn [Js.truthy Js.ToString]. by rewrite (to_string_objects items Hitems).
Qed.

Lemma dump_not_ok env fetch text (res : Client.Reply Client.DumpResponse) :
  fetch (Client.dump_request env text) = Fulfilled res -> Client.ok res = false ->
  Client.dump env fetch text = Client.throw_detail res "Failed to process input".
Proof. intros H Hr. unfold Client.dump. rewrite H. simpl. by rewrite Hr. Qed.

Lemma chat_not_ok env fetch messages (res : Client.Reply Client.ChatBody) :
  fetch (Client.chat_request env messages) = Fulfilled res -> Client.ok res = false ->
  Client.chat env fetch messages = Client.throw_detail res "Chat failed".
Proof. intros H Hr. unfold Client.chat. rewrite H. simpl. by rewrite Hr. Qed.

Lemma createTeam_not_ok env fetch name (res : Client.Reply Api.Team) :
  fetch (Api.createTeam_request env name) = Fulfilled res -> Client.ok res = false ->
  Client.createTeam env fetch name = Client.throw_detail res "Failed to create team".
Proof. intros H Hr. unfold Client.createTeam. rewrite H. simpl. by rewrite Hr. Qed.

Lemma joinTeam_not_ok env fetch code (res : Client.Reply Client.JoinBody) :
  fetch (Api.joinTeam_request env code) = Fulfilled res -> Client.ok res = false ->
  Client.joinTeam env fetch code = Client.throw_detail res "Failed to join team".
Proof. intros H Hr. unfold Client.joinTeam. rewrite H. simpl. by rewrite Hr. Qed.

End ClientCalls.

(** X5: no client call returns data from a response that is not ok: when
    the backend answers every request with such a response, each of the
    twelve calls rejects, the eight that do not read the error body with
    their fixed message. *)
Theorem non_ok_response_never_fulfils (env : BrowserEnv)
    (net : forall A : Type, Client.fetch_of A)
    (text query name teamId inviteCode pokeApiKey startDate endDate title startTime
       : string)
    (messages : list Client.ChatMessage) (category email : option string)
    (limit dur : option Z) (categories : option (list string))
    (Hdown : forall (A : Type) (rq : Request),
        exists res, net A rq = Fulfilled res /\ Client.ok res = false) :
  is_rejected (Client.dump env (net _) text)
  /\ is_rejected (Client.chat env (net _) messages)
  /\ is_rejected (Client.createTeam env (net _) name)
  /\ is_rejected (Client.joinTeam env (net _) inviteCode)
  /\ Client.getEntries env (net _) category limit
     = Rejected (ErrorObj "Failed to fetch entries")
  /\ Client.search env (net _) query categories = Rejected (ErrorObj "Search failed")
  /\ Client.registerUser env (net _) name email
     = Rejected (ErrorObj "Registration failed")
  /\ Client.getMyTeams env (net _) = Rejected (ErrorObj "Failed to fetch teams")
  /\ Client.getTeamMembers env (net _) teamId
     = Rejected (ErrorObj "Failed to fetch members")
  /\ Client.updatePokeKey env (net _) teamId pokeApiKey
     = Rejected (ErrorObj "Failed to update Poke key")
  /\ Api.findAvailability env (as_fetch_fn (net _)) teamId startDate endDate dur
     = Rejected (ErrorObj "Failed to find availability")
  /\ Api.bookMeeting env (as_fetch_fn (net _)) teamId title startTime dur
     = Rejected (ErrorObj "Failed to book meeting").
Proof.
  repeat split.
  - destruct (Hdown Client.DumpResponse (Client.dump_request env text)) as (r & H & Hr).
    rewrite (dump_not_ok _ _ _ _ H Hr). apply throw_detail_rejected.
  - destruct (Hdown Client.ChatBody (Client.chat_request env messages)) as (r & H & Hr).
    rewrite (chat_not_ok _ _ _ _ H Hr). apply throw_detail_rejected.
  - destruct (Hdown Api.Team (Api.createTeam_request env name)) as (r & H & Hr).
    rewrite (createTeam_not_ok _ _ _ _ H Hr). apply throw_detail_rejected.
  - destruct (Hdown Client.JoinBody (Api.joinTeam_request env inviteCode)) as (r & H & Hr).
    rewrite (joinTeam_not_ok _ _ _ _ H Hr). apply throw_detail_rejected.
  - unfold Client.getEntries.
    destruct (Hdown Client.EntriesBody (Client.getEntries_request env category limit))
      as (r & -> & Hr).
    simpl. by rewrite Hr.
  - unfold Client.search.
    destruct (Hdown Client.SearchBody (Client.search_request env query categories))
      as (r & -> & Hr).
    simpl. by rewrite Hr.
  - unfold Client.registerUser.
    destruct (Hdown Client.RegisterBody (Api.registerUser_request env name email))
      as (r & -> & Hr).
    simpl. by rewrite Hr.
  - unfold Client.getMyTeams.
    destruct (Hdown Client.TeamsBody (Api.getMyTeams_request env)) as (r & -> & Hr).
    simpl. by rewrite Hr.
  - unfold Client.getTeamMembers.
    destruct (Hdown Client.MembersBody (Api.getTeamMembers_request env teamId))
      as (r & -> & Hr).
    simpl. by rewrite Hr.
  - unfold Client.updatePokeKey.
    destruct (Hdown unit (Api.updatePokeKey_request env teamId pokeApiKey))
      as (r & -> & Hr).
    simpl. by rewrite Hr.
  - unfold Api.findAvailability, as_fetch_fn.
    destruct (Hdown Api.AvailabilityResult
                (Api.findAvailability_request env teamId startDate endDate dur))
      as (r & -> & Hr).
    simpl. by rewrite Hr.
  - unfold Api.bookMeeting, as_fetch_fn.
    destruct (Hdown Api.BookingResult
                (Api.bookMeeting_request env teamId title startTime dur))
      as (r & -> & Hr).
    simpl. by rewrite Hr.
Qed.

(** X6: how [dump], [chat], [createTeam] and [joinTeam] choose the error
    they throw for a response that is not ok: when the error body cannot
    be parsed the parse error is thrown and the fallback message is not
    used; a body that is [null] throws a [TypeError]; a non-empty string
    under [detail] becomes the message; a [detail] that is a list of
    objects, as a validation error has it, gives the message
    ["[object Object]"] once per item, joined by commas; and an object
    without [detail], or with a falsy one, gives the call's own fallback
    message. *)
Theorem error_detail_precedence (env : BrowserEnv)
    (net : forall A : Type, Client.fetch_of A) (body : promise json)
    (text name inviteCode : string) (messages : list Client.ChatMessage)
    (Hnet : forall (A : Type) (rq : Request),
        exists res, net A rq = Fulfilled res
                    /\ Client.ok res = false /\ Client.json_err res = body) :
  let outcomes (dumped : promise Client.DumpResponse) (chatted : promise string)
               (created joined : promise Api.Team) :=
    Client.dump env (net _) text = dumped
    /\ Client.chat env (net _) messages = chatted
    /\ Client.createTeam env (net _) name = created
    /\ Client.joinTeam env (net _) inviteCode = joined in
  (forall e, body = Rejected e ->
     outcomes (Rejected e) (Rejected e) (Rejected e) (Rejected e))
  /\ (body = Fulfilled JNull ->
      let e := ErrorObj "Cannot read properties of null (reading 'detail')" in
      outcomes (Rejected e) (Rejected e) (Rejected e) (Rejected e))
  /\ (forall fields d,
        body = Fulfilled (JObj fields) ->
        Js.own_property "detail" fields = Some (JStr d) -> d <> "" ->
        outcomes (Rejected (ErrorObj d)) (Rejected (ErrorObj d))
                 (Rejected (ErrorObj d)) (Rejected (ErrorObj d)))
  /\ (forall fields items,
        body = Fulfilled (JObj fields) ->
        Js.own_property "detail" fields = Some (JArr items) ->
        Forall (fun x => exists fs, x = JObj fs) items ->
        let e := ErrorObj (String.concat ","
                             (map (fun _ => "[object Object]") items)) in
        outcomes (Rejected e) (Rejected e) (Rejected e) (Rejected e))
  /\ (forall fields,
        body = Fulfilled (JObj fields) ->
        Js.truthy (Js.own_property "detail" fields) = false ->
        outcomes (Rejected (ErrorObj "Failed to process input"))
                 (Rejected (ErrorObj "Chat failed"))
                 (Rejected (ErrorObj "Failed to create team"))
                 (Rejected (ErrorObj "Failed to join team"))).
Proof.
  intros outcomes. subst outcomes. cbv beta.
  destruct (Hnet Client.DumpResponse (Client.dump_request env text))
    as (r1 & H1 & Hr1 & Hb1).
  destruct (Hnet Client.ChatBody (Client.chat_request env messages))
    as (r2 & H2 & Hr2 & Hb2).
  destruct (Hnet Api.Team (Api.createTeam_request env name))
    as (r3 & H3 & Hr3 & Hb3).
  destruct (Hnet Client.JoinBody (Api.joinTeam_request env inviteCode))
    as (r4 & H4 & Hr4 & Hb4).
  rewrite (dump_not_ok _ _ _ _ H1 Hr1), (chat_not_ok _ _ _ _ H2 Hr2),
    (createTeam_not_ok _ _ _ _ H3 Hr3), (joinTeam_not_ok _ _ _ _ H4 Hr4).
  split; [|split; [|split; [|split]]].
  - intros e He. rewrite He in *.
    repeat split; by apply throw_detail_parse_error.
  - intros He e. rewrite He in *.
    repeat split; by apply throw_detail_null.
  - intros fields d He Hd Hne. rewrite He in *.
    repeat split; by eapply throw_detail_string.
  - intros fields items He Hd Hitems e. rewrite He in *.
    repeat split; by eapply throw_detail_objects.
  - intros fields He Hd. rewrite He in *.
    repeat split; by eapply throw_detail_fallback.
Qed.

(** X7: for a limit that is a safe integer, the URL of [getEntries] is
    [/entries?] followed by the category, only when one is given and is
    not empty, and by the limit, 50 when omitted; the category travels
    form-encoded, so that whatever its text the value is made of letters,
    digits and [* - . _ + %] only and cannot add or end a parameter, and
    decoding it gives the category back. *)
Theorem getEntries_query (env : BrowserEnv) (category : option string)
    (limit : option Z)
    (Hlimit : Js.safe_integer (default 50 limit) = true) :
  req_url (Client.getEntries_request env category limit)
  = Api.API_BASE env +:+ "/entries?"
    +:+ match category with
        | None | Some "" => ""
        | Some c => "category=" +:+ Js.form_urlencode c +:+ "&"
        end
    +:+ "limit=" +:+ Js.form_urlencode (pretty (default 50 limit))
  /\ req_url (Client.getEntries_request env None None)
     = Api.API_BASE env +:+ "/entries?limit=50"
  /\ req_method (Client.getEntries_request env category limit) = GET
  /\ req_body (Client.getEntries_request env category limit) = None
  /\ (forall c : ascii,
        c ∈ list_ascii_of_string (Js.form_urlencode (default "" category)) ->
        form_safe c = true
        /\ c <> "&"%char /\ c <> "="%char /\ c <> "#"%char /\ c <> "?"%char
        /\ c <> " "%char /\ c <> "/"%char)
  /\ form_urldecode (Js.form_urlencode (default "" category)) = default "" category.
Proof.
  split; [|split; [|split; [|split; [|split]]]]; try reflexivity.
  - unfold Client.getEntries_request, Client.getEntries_params,
      Js.search_params_toString. simpl req_url. f_equal. f_equal.
    destruct category as [[|c s]|]; [reflexivity| |reflexivity].
    change (truthy_string (Some (String c s))) with true. cbv iota.
    change (default "" (Some (String c s))) with (String c s).
    cbn [app map fst snd String.concat].
    change (Js.form_urlencode "category") with "category".
    change (Js.form_urlencode "limit") with "limit".
    by rewrite !append_assoc.
  - intros c Hc.
    pose proof (form_urlencode_safe (default "" category)) as Hsafe.
    rewrite forallb_forall in Hsafe.
    assert (Hs : form_safe c = true) by (apply Hsafe; by apply list_elem_of_In).
    split; [exact Hs|].
    repeat split; intros ->; discriminate Hs.
  - apply form_urldecode_encode.
Qed.

(* ===================================================================== *)
(** * Properties of the team set-up wizard *)
(* ===================================================================== *)

Section SetupFacts.

Import TeamSetup.

Variable trim : string -> string.
Variable toUpperCase : string -> string.

Lemma setup_inv_initial (k : option string) (out0 : Outside) :
  setup_inv k out0 (initial k, out0).
Proof.
  unfold setup_inv, initial. simpl.
  split; [done|]. split; [done|].
  destruct (truthy_string k) eqn:Hk; simpl.
  - split; [done|]. split; [done|].
    exists []. rewrite app_nil_r. split; [done|]. split; [simpl; lia|]. split; done.
  - split.
    { intros _. split; [done|]. split; [|done].
      destruct k as [[|c s]|]; simpl in *; done. }
    split; [done|].
    exists []. rewrite app_nil_r. split; [done|]. split; [simpl; lia|]. split; done.
Qed.

(** The invariant after a step that leaves the wizard's step, its key and
    the storage alone, and may add to the clipboard. *)
Lemma setup_inv_same (k : option string) (out0 : Outside)
    (st st' : State) (out out' : Outside) :
  step st' = step st -> apiKey st' = apiKey st ->
  browser out' = browser out -> completed out' = completed out ->
  clipboard out `prefix_of` clipboard out' ->
  setup_inv k out0 (st, out) -> setup_inv k out0 (st', out').
Proof.
  intros Hs Hk Hb Hc Hp (Hw & Hclip & Hreg & Hpast & Hdone).
  unfold setup_inv in *. simpl in *. rewrite Hs, Hk, Hb, Hc.
  split; [done|]. split; [by etrans|]. done.
Qed.

(** The invariant after a move between the screens past registration. *)
Lemma setup_inv_move (k : option string) (out0 : Outside)
    (target : Step) (st : State) (out : Outside) :
  step st <> register -> step st <> done ->
  target <> register -> target <> done ->
  setup_inv k out0 (st, out) -> setup_inv k out0 (setStep target st, out).
Proof.
  intros Hr Hd Htr Htd (Hw & Hclip & Hreg & Hpast & (l & Hl & Hlen & Hdone)).
  unfold setup_inv in *. simpl in *.
  split; [done|]. split; [done|]. split; [done|]. split; [by intros _; apply Hpast|].
  exists l. split; [done|]. split; [done|]. split; [done|]. intros _. by apply Hdone.
Qed.

(** The invariant after a team was created or joined. *)
Lemma setup_inv_done (k : option string) (out0 : Outside)
    (team : Api.Team) (st st' : State) (out : Outside) :
  step st <> register -> step st <> done ->
  step st' = step st -> apiKey st' = apiKey st ->
  setup_inv k out0 (st, out) ->
  setup_inv k out0 (setStep done st', onComplete team out).
Proof.
  intros Hr Hd Hs Hk (Hw & Hclip & Hreg & Hpast & (l & Hl & Hlen & Hdone)).
  unfold setup_inv in *. simpl in *. rewrite Hk.
  split; [done|]. split; [done|]. split; [done|]. split; [by intros _; apply Hpast|].
  assert (l = []) as -> by (by apply Hdone).
  exists [team]. rewrite Hl, app_nil_r. split; [done|]. split; [simpl; lia|].
  split; [done|]. intros H. by destruct H.
Qed.

Lemma setup_inv_dispatch (k : option string) (out0 : Outside) (ev : Event)
    (s : State * Outside) :
  setup_inv k out0 s -> setup_inv k out0 (dispatch trim toUpperCase ev s).
Proof.
  destruct s as [st out]. unfold dispatch. simpl fst. simpl snd.
  destruct (enabled trim st ev) eqn:Hen; [|done].
  intros Hinv.
  destruct ev; simpl in Hen; destruct (step st) eqn:Hstep; try discriminate Hen;
    unfold handle, handleRegister, handleCreateTeam, handleJoinTeam, copyKey.
  all: try (apply (setup_inv_same k out0 st _ out); try done; try reflexivity; fail).
  all: try (apply setup_inv_move; try done; congruence).
  - (* registration *)
    destruct (blank (trim (name st))); [done|].
    destruct (Client.registerUser _ _ _ _) as [r|e];
      [|apply (setup_inv_same k out0 st _ out); try done; reflexivity].
    destruct Hinv as (Hw & Hclip & Hreg & Hpast & (l & Hl & Hlen & Hdone)).
    simpl in *. destruct (Hreg Hstep) as (Hk & Hkey & Hls).
    unfold setup_inv. simpl. rewrite Hk.
    split; [done|]. split; [done|]. split; [done|].
    split; [intros _; by rewrite Hls|].
    exists l. split; [done|]. split; [done|]. split; [done|].
    intros _. apply Hdone. congruence.
  - (* copying the key *)
    apply (setup_inv_same k out0 st _ out); try done. simpl. by apply prefix_app_r.
  - (* creating a team *)
    destruct (blank (trim (teamName st))); [done|].
    destruct (Client.createTeam _ _ _) as [team|e];
      [|apply (setup_inv_same k out0 st _ out); try done; reflexivity].
    apply (setup_inv_done k out0 team st _ out); try done; congruence.
  - (* joining a team *)
    destruct (blank (trim (inviteCode st))); [done|].
    destruct (Client.joinTeam _ _ _) as [team|e];
      [|apply (setup_inv_same k out0 st _ out); try done; reflexivity].
    apply (setup_inv_done k out0 team st _ out); try done; congruence.
Qed.

Lemma setup_inv_run (k : option string) (out0 : Outside) (evs : list Event)
    (s : State * Outside) :
  setup_inv k out0 s -> setup_inv k out0 (run trim toUpperCase evs s).
Proof.
  revert s. induction evs as [|ev evs IH]; intros s Hs; [done|].
  simpl. apply IH. by apply setup_inv_dispatch.
Qed.

End SetupFacts.

(** X8: in every state the set-up wizard reaches, whatever the user does
    and whatever the backend answers, each request settling before the
    next event: while the registration screen is
    shown no key is held and the storage is untouched; past it, a wizard
    started without a key shows exactly the key it stored under
    ["cortex_api_key"], and one started with a key keeps that key and
    never writes the storage; [onComplete] is called at most once, and it
    has been called exactly when the wizard is done and draws nothing. *)
Theorem setup_wizard_invariants (trim toUpperCase : string -> string)
    (k : option string) (out0 : TeamSetup.Outside) (evs : list TeamSetup.Event) :
  let s := TeamSetup.run trim toUpperCase evs (TeamSetup.initial k, out0) in
  let st := fst s in
  let env := TeamSetup.browser (snd s) in
  (TeamSetup.step st = TeamSetup.register ->
     truthy_string k = false /\ TeamSetup.apiKey st = ""
     /\ localStorage env = localStorage (TeamSetup.browser out0))
  /\ (TeamSetup.step st <> TeamSetup.register -> truthy_string k = false ->
      localStorage env
      = <["cortex_api_key" := TeamSetup.apiKey st]>
          (localStorage (TeamSetup.browser out0)))
  /\ (TeamSetup.step st <> TeamSetup.register -> truthy_string k = true ->
      Some (TeamSetup.apiKey st) = k
      /\ localStorage env = localStorage (TeamSetup.browser out0))
  /\ (exists l : list Api.Team,
        TeamSetup.completed (snd s) = TeamSetup.completed out0 ++ l
        /\ (length l <= 1)%nat
        /\ (l <> [] <-> TeamSetup.step st = TeamSetup.done)
        /\ (l <> [] <-> TeamSetup.render trim st = TeamSetup.NoScreen)).
Proof.
  intros s st env.
  pose proof (setup_inv_run trim toUpperCase k out0 evs _ (setup_inv_initial k out0))
    as (Hw & Hclip & Hreg & Hpast & (l & Hl & Hlen & Hdone)).
  fold s in Hw, Hclip, Hreg, Hpast, Hl, Hdone. fold st in Hreg, Hpast, Hdone.
  split; [exact Hreg|]. split; [|split].
  - intros Hne Hk. specialize (Hpast Hne). by rewrite Hk in Hpast.
  - intros Hne Hk. specialize (Hpast Hne). rewrite Hk in Hpast.
    destruct Hpast as [Hkey Hls]. split; [|done].
    rewrite Hkey. destruct k as [[|c k]|]; simpl in *; done.
  - exists l. split; [done|]. split; [done|].
    assert (Hiff : l <> [] <-> TeamSetup.step st = TeamSetup.done).
    { split.
      - intros Hl'. destruct (decide (TeamSetup.step st = TeamSetup.done)); [done|].
        exfalso. apply Hl'. by apply Hdone.
      - intros Hd Hl'. apply Hdone in Hl'. done. }
    split; [exact Hiff|]. rewrite Hiff. unfold TeamSetup.render.
    destruct (TeamSetup.step st); split; done.
Qed.

(** X9: past the registration screen every team request the wizard sends
    is authenticated with the key it shows: when the page runs in a
    browser, the wizard was started without a key or with the key the
    storage holds, and the key shown is not empty, the requests of
    [createTeam] and [joinTeam] carry [Authorization: Bearer <key>]. *)
Theorem setup_requests_authenticated (trim toUpperCase : string -> string)
    (k : option string) (out0 : TeamSetup.Outside) (evs : list TeamSetup.Event)
    (teamName inviteCode : string)
    (Hbrowser : window_defined (TeamSetup.browser out0) = true)
    (Hinitial : truthy_string k = true ->
                localStorage (TeamSetup.browser out0) !! "cortex_api_key" = k)
    (Hpast : TeamSetup.step
               (fst (TeamSetup.run trim toUpperCase evs (TeamSetup.initial k, out0)))
             <> TeamSetup.register)
    (Hkey : TeamSetup.apiKey
              (fst (TeamSetup.run trim toUpperCase evs (TeamSetup.initial k, out0)))
            <> "") :
  let s := TeamSetup.run trim toUpperCase evs (TeamSetup.initial k, out0) in
  let key := TeamSetup.apiKey (fst s) in
  let env := TeamSetup.browser (snd s) in
  localStorage env !! "cortex_api_key" = Some key
  /\ req_headers (Api.createTeam_request env teamName) !! "Authorization"
     = Some ("Bearer " +:+ key)
  /\ req_headers (Api.joinTeam_request env inviteCode) !! "Authorization"
     = Some ("Bearer " +:+ key).
Proof.
  intros s key env.
  pose proof (setup_inv_run trim toUpperCase k out0 evs _ (setup_inv_initial k out0))
    as (Hw & _ & _ & Hinv & _).
  fold s in Hw, Hinv. specialize (Hinv Hpast).
  assert (Hstored : localStorage env !! "cortex_api_key" = Some key).
  { subst env key. destruct (truthy_string k) eqn:Hk.
    - destruct Hinv as [Hkeq Hls]. rewrite Hls, (Hinitial eq_refl), Hkeq.
      destruct k as [[|c k]|]; simpl in *; done.
    - rewrite Hinv. apply lookup_insert_eq. }
  assert (Hcred : stored_credential env = Some key).
  { unfold stored_credential. subst env. rewrite Hw, Hbrowser, Hstored.
    destruct (decide (key = "")); [by subst key|done]. }
  split; [exact Hstored|].
  split; simpl; rewrite json_headers_authorization, authHeaders_lookup, Hcred; done.
Qed.

(* ===================================================================== *)
(** * Properties of the team dashboard *)
(* ===================================================================== *)

Section DashboardFacts.

Import TeamDashboard.

Variable trim : string -> string.

Lemma fetchMembers_selection env net selected st :
  selectedTeam (fetchMembers env net selected st) = selectedTeam st
  /\ teams (fetchMembers env net selected st) = teams st
  /\ loading (fetchMembers env net selected st) = loading st.
Proof.
  unfold fetchMembers. destruct selected; [|done].
  destruct (Client.getTeamMembers _ _ _); done.
Qed.

Lemma mount_first_team env net :
  selectedTeam (mount env net) = head (teams (mount env net))
  /\ loading (mount env net) = false.
Proof.
  unfold mount.
  assert (H : selectedTeam (fetchTeams env net (selectedTeam initial) initial)
              = head (teams (fetchTeams env net (selectedTeam initial) initial))
              /\ loading (fetchTeams env net (selectedTeam initial) initial) = false).
  { unfold fetchTeams. destruct (negb _); [split; reflexivity|].
    destruct (Client.getMyTeams _ _) as [[|t0 t]|e]; split; reflexivity. }
  set (st0 := fetchTeams env net (selectedTeam initial) initial) in *.
  destruct H as [H1 H2].
  destruct (selectedTeam st0) eqn:Hsel; [|by rewrite Hsel].
  unfold selection_effect.
  destruct (fetchMembers_selection env net (selectedTeam st0) st0) as (Ha & Hb & Hc).
  rewrite Ha, Hb, Hc, Hsel. done.
Qed.

Lemma handle_first_team env ev (s : State * Outside) :
  selectedTeam (fst s) = head (teams (fst s)) ->
  selectedTeam (fst (handle trim env ev s)) = head (teams (fst (handle trim env ev s))).
Proof.
  destruct s as [st out]. cbn [fst]. intros Hinv.
  destruct ev as [net1 team|v|net1|net1| |]; cbn [handle fst]; try done.
  - unfold handleSetupComplete, selection_effect.
    match goal with |- context [fetchMembers ?e ?n ?sel ?x] =>
      destruct (fetchMembers_selection e n sel x) as (-> & -> & _) end.
    done.
  - unfold handleSavePokeKey.
    destruct (selectedTeam st) as [team|] eqn:Hsel; [|cbn [fst]; by rewrite Hsel].
    destruct (TeamSetup.blank _); [cbn [fst]; by rewrite Hsel|].
    destruct (Client.updatePokeKey _ _ _ _); [|cbn [fst]; by rewrite Hsel].
    cbn [fst].
    match goal with |- context [fetchMembers ?e ?n ?sel ?x] =>
      destruct (fetchMembers_selection e n sel x) as (-> & -> & _) end.
    simpl. by rewrite Hsel.
  - destruct (fetchMembers_selection env net1 (selectedTeam st) st) as (-> & -> & _).
    done.
  - unfold copyInviteCode. destruct (selectedTeam st) eqn:Hsel; simpl; by rewrite Hsel.
Qed.

Lemma run_first_team env evs (s : State * Outside) :
  selectedTeam (fst s) = head (teams (fst s)) ->
  selectedTeam (fst (run trim env evs s)) = head (teams (fst (run trim env evs s))).
Proof.
  revert s. induction evs as [|ev evs IH]; intros s Hs; [done|].
  simpl. apply IH. by apply handle_first_team.
Qed.

End DashboardFacts.

(** X10: the dashboard only ever works on the first team of the list: in
    every state reached after mounting, whatever the user does and
    whatever the backend answers (each request settling before the next
    event), the selected team is the head of
    [teams]; so whenever the dashboard body is drawn it shows that team's
    name and invite code and renders the calendar for it.  The storage
    at mount time, [env0], may differ from the later one, [env]: the
    wizard stores the key in between. *)
Theorem dashboard_shows_first_team (trim : string -> string)
    (env0 env : BrowserEnv)
    (net : TeamDashboard.Network) (out0 : TeamDashboard.Outside)
    (evs : list TeamDashboard.Event) :
  let st := fst (TeamDashboard.run trim env evs (TeamDashboard.mount env0 net, out0)) in
  TeamDashboard.selectedTeam st = head (TeamDashboard.teams st)
  /\ match TeamDashboard.render trim env st with
     | TeamDashboard.DashboardScreen title code _ _ _ _ calendar =>
         exists team,
           head (TeamDashboard.teams st) = Some team
           /\ calendar = Some team
           /\ title = Some (Api.team_name team)
           /\ code = Some (Api.invite_code team)
     | _ => True
     end.
Proof.
  intros st.
  assert (Hinv : TeamDashboard.selectedTeam st = head (TeamDashboard.teams st)).
  { subst st. apply run_first_team. simpl. apply mount_first_team. }
  split; [exact Hinv|].
  unfold TeamDashboard.render.
  destruct (negb _); [done|]. destruct (TeamDashboard.loading st); [done|].
  destruct (TeamDashboard.teams st) as [|team rest] eqn:Hteams; [done|].
  simpl. rewrite Hinv. simpl. eauto.
Qed.

(** X11: what the dashboard shows first in a browser.  Without a stored
    key it shows the wizard at registration and the outcome does not
    depend on the network (no request is sent); with a key, a failed or
    empty team list shows the wizard started with that key, which opens at
    the create-or-join step, so that a backend failure looks like having
    no team; and a list with a first team shows the dashboard for it. *)
Theorem dashboard_first_screen (trim : string -> string) (env : BrowserEnv)
    (net : TeamDashboard.Network)
    (Hbrowser : window_defined env = true) :
  let key := Api.getItem env "cortex_api_key" in
  let st := TeamDashboard.mount env net in
  (truthy_string key = false ->
     TeamDashboard.render trim env st = TeamDashboard.SetupScreen None
     /\ TeamSetup.step (TeamSetup.initial None) = TeamSetup.register
     /\ forall net', TeamDashboard.mount env net' = st)
  /\ (truthy_string key = true ->
      match Client.getMyTeams env (TeamDashboard.fetchTeamsBody net) with
      | Rejected _ | Fulfilled [] =>
          TeamDashboard.render trim env st = TeamDashboard.SetupScreen key
          /\ TeamSetup.step (TeamSetup.initial key) = TeamSetup.create_or_join
          /\ TeamSetup.apiKey (TeamSetup.initial key) = default "" key
      | Fulfilled (team :: rest) =>
          exists copiedIcon keyInput saveDisabled membersView,
            TeamDashboard.render trim env st
            = TeamDashboard.DashboardScreen (Some (Api.team_name team))
                (Some (Api.invite_code team)) copiedIcon keyInput saveDisabled
                membersView (Some team)
            /\ TeamDashboard.teams st = team :: rest
            /\ TeamDashboard.members st
               = match Client.getTeamMembers env
                         (TeamDashboard.fetchMembersBody net) (Api.team_id_ team) with
                 | Fulfilled m => m
                 | Rejected _ => []
                 end
      end).
Proof.
  intros key st. subst key st.
  unfold TeamDashboard.mount, TeamDashboard.fetchTeams, TeamDashboard.render,
    TeamSetup.initial, Api.getItem.
  rewrite Hbrowser.
  set (k := localStorage env !! "cortex_api_key").
  split.
  - intros Hk. rewrite Hk. simpl. done.
  - intros Hk. rewrite Hk. cbn [negb].
    destruct (Client.getMyTeams env (TeamDashboard.fetchTeamsBody net))
      as [[|team rest]|e]; cbn -[truthy_string].
    + rewrite ?Hk. cbn. split; [done|]. split; [done|].
      destruct k as [[|c k]|]; done.
    + unfold TeamDashboard.selection_effect, TeamDashboard.fetchMembers.
      cbn -[truthy_string].
      destruct (Client.getTeamMembers _ _ _) as [m|e]; cbn -[truthy_string];
        rewrite ?Hk; cbn; eauto 10.
    + rewrite ?Hk. cbn. split; [done|]. split; [done|].
      destruct k as [[|c k]|]; done.
Qed.

(* ===================================================================== *)
(** * Properties of the chat and of the dump box *)
(* ===================================================================== *)

Section ChatFacts.

Import ChatInterface.

Variable trim : string -> string.

Lemma blank_false (s : string) : TeamSetup.blank s = false -> s <> "".
Proof. unfold TeamSetup.blank. destruct s; simpl; congruence. Qed.

Lemma handleSend_cases (env : BrowserEnv) (fetch : Client.fetch_of Client.ChatBody)
    (st : State) :
  isLoading st = false ->
  let text := trim (input st) in
  let sent := messages st ++ [ {| Client.role := Client.user; Client.content := text |} ] in
  let reply := match Client.chat env fetch sent with
               | Fulfilled response => response
               | Rejected _ => apology
               end in
  handleSend trim env fetch st
  = if TeamSetup.blank text then st
    else {| messages := messages st ++ exchange (text, reply);
            input := ""; isLoading := false |}.
Proof.
  intros Hl text sent reply. unfold handleSend, handleSend_start.
  fold text. rewrite Hl, orb_false_r.
  destruct (TeamSetup.blank text); [done|].
  unfold handleSend_settle. fold sent. fold reply. simpl.
  f_equal. subst sent. by rewrite <- app_assoc.
Qed.

Lemma chat_inv_handle (env : BrowserEnv) (ev : Event) (st : State) :
  chat_inv st ->
  chat_inv (handle trim env ev st)
  /\ messages st `prefix_of` messages (handle trim env ev st).
Proof.
  intros (Hl & ex & Hm & Hq).
  destruct ev as [v|i|fetch].
  - split; [|done]. split; [done|]. eauto.
  - assert (Hsame : messages (handle trim env (ClickSuggestion i) st) = messages st
                    /\ isLoading (handle trim env (ClickSuggestion i) st) = isLoading st).
    { clear Hm. cbn [handle].
      destruct (messages st) eqn:E; [destruct (suggestions !! i)|];
        simpl; rewrite ?E; split; reflexivity. }
    destruct Hsame as [Hs1 Hs2]. unfold chat_inv. rewrite Hs1, Hs2.
    split; [|done]. split; [done|]. eauto.
  - cbn [handle]. rewrite handleSend_cases by done.
    destruct (TeamSetup.blank (trim (input st))) eqn:Hb.
    + split; [|done]. split; [done|]. eauto.
    + simpl. split; [|by apply prefix_app_r].
      split; [done|].
      eexists (ex ++ [(trim (input st), _)]). split.
      * unfold conversation. rewrite bind_app. simpl. by rewrite Hm.
      * apply Forall_app. split; [done|]. constructor; [|constructor].
        simpl. by apply blank_false.
Qed.

Lemma chat_inv_run (env : BrowserEnv) (evs : list Event) (st : State) :
  chat_inv st ->
  chat_inv (run trim env evs st) /\ messages st `prefix_of` messages (run trim env evs st).
Proof.
  revert st. induction evs as [|ev evs IH]; intros st Hst; [done|].
  simpl. destruct (chat_inv_handle env ev st Hst) as [Hinv Hp].
  destruct (IH _ Hinv) as [Hinv' Hp']. split; [done|]. by etrans.
Qed.

End ChatFacts.

(** X12: the chat keeps a well-formed conversation, whatever the user does
    and whatever the backend answers: between two events no request is
    under way, the messages are a sequence of complete exchanges, a
    non-empty question of the user followed by one assistant message, and
    messages are only ever appended; a send with a blank input changes
    nothing, and any other send calls [chat] with the whole conversation
    plus the trimmed question, clears the input and appends the question
    and the answer, or the apology when the call fails. *)
Theorem chat_conversation_invariants (trim : string -> string) (env : BrowserEnv)
    (evs later : list ChatInterface.Event)
    (fetch : Client.fetch_of Client.ChatBody) :
  let st := ChatInterface.run trim env evs ChatInterface.initial in
  let st' := ChatInterface.run trim env (evs ++ later) ChatInterface.initial in
  let text := trim (ChatInterface.input st) in
  let sent := ChatInterface.messages st
              ++ [ {| Client.role := Client.user; Client.content := text |} ] in
  let reply := match Client.chat env fetch sent with
               | Fulfilled response => response
               | Rejected _ => ChatInterface.apology
               end in
  ChatInterface.isLoading st = false
  /\ (exists exchanges : list (string * string),
        ChatInterface.messages st = conversation exchanges
        /\ Forall (fun qa => fst qa <> "") exchanges)
  /\ ChatInterface.messages st `prefix_of` ChatInterface.messages st'
  /\ ChatInterface.handleSend trim env fetch st
     = if TeamSetup.blank text then st
       else {| ChatInterface.messages :=
                 ChatInterface.messages st ++ exchange (text, reply);
               ChatInterface.input := "";
               ChatInterface.isLoading := false |}.
Proof.
  intros st st' text sent reply.
  assert (Hinit : chat_inv ChatInterface.initial).
  { split; [done|]. exists []. split; [done|constructor]. }
  destruct (chat_inv_run trim env evs _ Hinit) as [[Hl Hex] _]. fold st in Hl, Hex.
  split; [exact Hl|]. split; [exact Hex|]. split.
  - subst st st'. unfold ChatInterface.run. rewrite fold_left_app.
    apply (chat_inv_run trim env later). by split.
  - by apply handleSend_cases.
Qed.

Section DumpFacts.

Import DumpBox.

Variable trim : string -> string.

Lemma dump_inv_handle (env : BrowserEnv) (hasOnNewEntry : bool) (ev : Event)
    (s : State * list json) :
  dump_inv hasOnNewEntry s -> dump_inv hasOnNewEntry (handle trim env hasOnNewEntry ev s).
Proof.
  destruct s as [st handed]. intros (Hp & Hi & Hh). simpl in *.
  destruct ev as [v|fetch now|]; cbn [handle].
  - done.
  - unfold handleSubmit. rewrite Hp, orb_false_r.
    destruct (TeamSetup.blank _); [by rewrite app_nil_r|].
    destruct (Client.dump _ _ _) as [result|e]; unfold dump_inv; simpl.
    + split; [done|]. split; [done|].
      destruct hasOnNewEntry; [by rewrite last_snoc|by subst].
    + split; [done|]. split; [done|]. by rewrite app_nil_r.
  - unfold dump_inv, tick. cbn [fst snd placeholderIdx isProcessing lastResult].
    split; [done|]. split; [|done].
    apply Nat.mod_upper_bound. discriminate.
Qed.

Lemma dump_inv_run (env : BrowserEnv) (hasOnNewEntry : bool) (evs : list Event)
    (s : State * list json) :
  dump_inv hasOnNewEntry s -> dump_inv hasOnNewEntry (run trim env hasOnNewEntry evs s).
Proof.
  revert s. induction evs as [|ev evs IH]; intros s Hs; [done|].
  simpl. apply IH. by apply dump_inv_handle.
Qed.

End DumpFacts.

(** X13: the dump box in every state it reaches, whatever the user types
    and whatever the backend answers: the rotating placeholder index
    always points into the list of placeholders; when the parent passed
    [onNewEntry], the last entry handed to it is the entry of the result
    shown, and without the callback nothing is handed over; and a submit
    that the backend fails keeps the text typed and the previous result,
    shows the error and hands nothing over. *)
Theorem dump_box_invariants (trim : string -> string) (env : BrowserEnv)
    (hasOnNewEntry : bool) (evs : list DumpBox.Event)
    (fetch : Client.fetch_of Client.DumpResponse) (now : Z) :
  let s := DumpBox.run trim env hasOnNewEntry evs (DumpBox.initial, []) in
  let st := fst s in
  is_Some (DumpBox.placeholders !! DumpBox.placeholderIdx st)
  /\ DumpBox.isProcessing st = false
  /\ (if hasOnNewEntry
      then last (snd s) = DumpBox.entry <$> DumpBox.lastResult st
      else snd s = [])
  /\ match Client.dump env fetch (trim (DumpBox.input st)) with
     | Rejected e =>
         TeamSetup.blank (trim (DumpBox.input st)) = false ->
         DumpBox.handleSubmit trim env fetch hasOnNewEntry now st
         = ({| DumpBox.input := DumpBox.input st;
               DumpBox.isProcessing := false;
               DumpBox.lastResult := DumpBox.lastResult st;
               DumpBox.error :=
                 Some (CalendarView.error_message e "Something went wrong");
               DumpBox.placeholderIdx := DumpBox.placeholderIdx st |}, [])
     | Fulfilled result =>
         TeamSetup.blank (trim (DumpBox.input st)) = false ->
         DumpBox.handleSubmit trim env fetch hasOnNewEntry now st
         = ({| DumpBox.input := "";
               DumpBox.isProcessing := false;
               DumpBox.lastResult :=
                 Some {| DumpBox.entry := Client.entry result;
                         DumpBox.timestamp := now |};
               DumpBox.error := None;
               DumpBox.placeholderIdx := DumpBox.placeholderIdx st |},
            if hasOnNewEntry then [Client.entry result] else [])
     end.
Proof.
  intros s st.
  assert (Hinit : dump_inv hasOnNewEntry (DumpBox.initial, [])).
  { unfold dump_inv. simpl. split; [done|]. split; [lia|]. by destruct hasOnNewEntry. }
  destruct (dump_inv_run trim env hasOnNewEntry evs _ Hinit) as (Hp & Hi & Hh).
  fold s in Hp, Hi, Hh. fold st in Hp, Hi, Hh.
  split; [by apply lookup_lt_is_Some|]. split; [exact Hp|]. split; [exact Hh|].
  unfold DumpBox.handleSubmit. rewrite Hp, orb_false_r.
  destruct (Client.dump env fetch (trim (DumpBox.input st))); intros ->; reflexivity.
Qed.

(* ===================================================================== *)
(** ** The entries feed *)
(* ===================================================================== *)

Section FeedFacts.

Import EntriesFeed.

Lemma own_elem_of {A} (k : string) (table : list (string * A)) (a : A) :
  Categories.own k table = Some a -> (k, a) ∈ table.
Proof.
  induction table as [|[k' a'] rest IH]; simpl; [discriminate|].
  destruct (String.eqb k k') eqn:E.
  - intros [= ->]. apply String.eqb_eq in E as ->. left.
  - intros H. right. by apply IH.
Qed.

Lemma fetchEntries_filter (env : BrowserEnv)
    (fetch : Client.fetch_of Client.EntriesBody) (st : State) :
  filter (fetchEntries env fetch st) = filter st
  /\ loading (fetchEntries env fetch st) = false.
Proof.
  unfold fetchEntries.
  by destruct (Client.getEntries env fetch _ None).
Qed.

Lemma change_filter_filter (env : BrowserEnv)
    (fetch : Client.fetch_of Client.EntriesBody) (f : option string) (st : State) :
  filter (change_filter env fetch f st) = f
  /\ (loading st = false -> loading (change_filter env fetch f st) = false).
Proof.
  unfold change_filter. destruct (decide (filter st = f)) as [->|Hne].
  - done.
  - destruct (fetchEntries_filter env fetch (setFilter f st)) as [-> ->]. done.
Qed.

Lemma feed_inv_handle (env : BrowserEnv) (ev : Event) (st : State) :
  feed_filter_ok (filter st) /\ loading st = false ->
  feed_filter_ok (filter (handle env ev st)) /\ loading (handle env ev st) = false.
Proof.
  intros [Hf Hl]. destruct ev as [fetch|i fetch|fetch|fetch]; cbn [handle].
  - destruct (change_filter_filter env fetch None st) as [-> H]. split; [exact I|auto].
  - destruct (ALL_CATEGORIES !! i) as [cat|] eqn:Hi; [|done].
    destruct (change_filter_filter env fetch (toggle cat st) st) as [-> H].
    split; [|auto]. unfold toggle.
    destruct (decide (filter st = Some cat)); [exact I|].
    simpl. by eapply list_elem_of_lookup_2.
  - destruct (fetchEntries_filter env fetch st) as [-> ->]. done.
  - destruct (fetchEntries_filter env fetch st) as [-> ->]. done.
Qed.

Lemma feed_inv_run (env : BrowserEnv) (evs : list Event) (st : State) :
  feed_filter_ok (filter st) /\ loading st = false ->
  feed_filter_ok (filter (run env evs st)) /\ loading (run env evs st) = false.
Proof.
  revert st. induction evs as [|ev evs IH]; intros st H; [exact H|].
  apply IH. by apply feed_inv_handle.
Qed.

Lemma feed_url_of_filter (env : BrowserEnv) (f : option string) :
  feed_filter_ok f ->
  req_url (Client.getEntries_request env (filter_argument f) None) ∈ feed_urls env.
Proof.
  destruct f as [c|]; unfold feed_filter_ok, feed_urls.
  - intros Hc. right.
    assert (Hall : Forall (fun c =>
              req_url (Client.getEntries_request env (filter_argument (Some c)) None)
              = Api.API_BASE env +:+ "/entries?category=" +:+ c +:+ "&limit=50")
              ALL_CATEGORIES).
    { unfold ALL_CATEGORIES. repeat constructor. }
    rewrite Forall_forall in Hall. rewrite (Hall c Hc).
    apply (list_elem_of_fmap_2
             (fun c => Api.API_BASE env +:+ "/entries?category=" +:+ c +:+ "&limit=50")).
    exact Hc.
  - intros _. left.
Qed.

(** X14: however the feed is used (the pills, "All", the refresh button,
    new dumps), and whatever the server answers, each fetch settling
    before the next event, its filter is none or one
    of the eight categories, so that it only ever asks for one of nine
    URLs; it is never left loading; a pill clicked while active clears the
    filter; and a fetch that fails, or that the server refuses, leaves the
    entries shown as they were. *)
Theorem entries_feed_requests (env : BrowserEnv)
    (first : Client.fetch_of Client.EntriesBody) (evs : list Event) :
  let st := run env evs (mount env first) in
  feed_filter_ok (filter st)
  /\ loading st = false
  /\ req_url (Client.getEntries_request env (filter_argument (filter st)) None)
     ∈ feed_urls env
  /\ length (feed_urls env) = 9%nat
  /\ (forall i cat fetch,
        ALL_CATEGORIES !! i = Some cat ->
        filter (handle env (ClickPill i fetch) st)
        = if decide (filter st = Some cat) then None else Some cat)
  /\ (forall fetch,
        is_rejected (fetch (Client.getEntries_request env
                              (filter_argument (filter st)) None))
        \/ (exists res,
              fetch (Client.getEntries_request env
                       (filter_argument (filter st)) None) = Fulfilled res
              /\ Client.ok res = false) ->
        entries (handle env (ClickRefresh fetch) st) = entries st).
Proof.
  intros st.
  assert (Hinv : feed_filter_ok (filter st) /\ loading st = false).
  { subst st. apply feed_inv_run. unfold mount.
    destruct (fetchEntries_filter env first initial) as [-> ->]. by split. }
  destruct Hinv as [Hf Hl].
  split; [exact Hf|]. split; [exact Hl|].
  split; [by apply feed_url_of_filter|].
  split; [reflexivity|].
  split.
  - intros i cat fetch Hi. cbn [handle]. rewrite Hi.
    by destruct (change_filter_filter env fetch (toggle cat st) st) as [-> _].
  - intros fetch H. cbn [handle]. unfold fetchEntries, Client.getEntries.
    destruct H as [H|(res & -> & Hok)].
    + by destruct (fetch _).
    + simpl. by rewrite Hok.
Qed.

Lemma icons_of_configs :
  Forall (fun c => row_icon (Some c) = Some (Categories.icon c))
    (map snd Categories.CATEGORY_CONFIG).
Proof. repeat constructor. Qed.

Lemma pills_labelled (st : State) :
  Forall2 (fun cat pill =>
             exists c, Categories.own cat Categories.CATEGORY_CONFIG = Some c
                       /\ pill = Some (Categories.label c,
                                       bool_decide (filter st = Some cat)))
    ALL_CATEGORIES (pills st).
Proof. unfold pills, ALL_CATEGORIES. repeat constructor; by eexists. Qed.

(** X15: every row of the feed is dressed from the category table: the
    configuration of the entry's category when the table has it, the one
    of a note when the category is empty or unknown, and the icon is then
    the one the configuration names, never the fallback; the only entries
    without label and colours are those whose category is one of the
    twelve names every object inherits, which get the fallback icon.
    Every pill has a configuration to read its label from, and is shown
    active exactly when it is the filter. *)
Theorem entry_rows_dressed (entry : Client.EntryItem) (st : State) :
  match row_config entry with
  | Some c =>
      c ∈ map snd Categories.CATEGORY_CONFIG
      /\ row_icon (Some c) = Some (Categories.icon c)
      /\ (Client.category entry ∉ Categories.object_prototype_names)
      /\ match Categories.own (Client.category entry) Categories.CATEGORY_CONFIG with
         | Some c' => c = c'
         | None => Categories.own "note" Categories.CATEGORY_CONFIG = Some c
         end
  | None =>
      Client.category entry ∈ Categories.object_prototype_names
      /\ row_icon None = Some "FileText"
  end
  /\ Forall2 (fun cat pill =>
                exists c, Categories.own cat Categories.CATEGORY_CONFIG = Some c
                          /\ pill = Some (Categories.label c,
                                          bool_decide (filter st = Some cat)))
       ALL_CATEGORIES (pills st).
Proof.
  split; [|apply pills_labelled].
  pose proof icons_of_configs as Hicons. rewrite Forall_forall in Hicons.
  unfold row_config, Categories.lookup.
  destruct (Client.category entry) as [|a s] eqn:Hcat.
  - (* the empty category is a note *)
    change (or_string (Some "") "note") with "note".
    simpl. split; [|split; [reflexivity|split; [|reflexivity]]].
    + do 3 right. left.
    + apply (bool_decide_eq_false_1 ("" ∈ Categories.object_prototype_names)).
      reflexivity.
  - change (or_string (Some (String a s)) "note") with (String a s).
    rewrite <- Hcat.
    destruct (Categories.own (Client.category entry) Categories.CATEGORY_CONFIG)
      as [c|] eqn:Hown.
    + assert (Hin : c ∈ map snd Categories.CATEGORY_CONFIG).
      { apply own_elem_of in Hown.
        by apply (list_elem_of_fmap_2 snd) in Hown. }
      split; [exact Hin|]. split; [by apply Hicons|]. split; [|reflexivity].
      intros Hproto. revert Hown.
      unfold Categories.object_prototype_names in Hproto.
      rewrite !elem_of_cons, elem_of_nil in Hproto.
      destruct Hproto as [->|[->|[->|[->|[->|[->|[->|[->|[->|[->|[->|[->|[]]]]]]]]]]]]];
        discriminate.
    + case_bool_decide as Hproto.
      * split; [exact Hproto|reflexivity].
      * split; [|split; [reflexivity|split; [exact Hproto|reflexivity]]].
        simpl. do 3 right. left.
Qed.

End FeedFacts.

(* ===================================================================== *)
(** ** The theorems with hypotheses, applied to sample inputs *)
(* ===================================================================== *)

Lemma non_ok_response_never_fulfils_witness :
  Client.getEntries Samples.fresh_browser (Samples.down _) (Some "task") None
  = Rejected (ErrorObj "Failed to fetch entries")
  /\ Client.getMyTeams Samples.fresh_browser (Samples.down _)
     = Rejected (ErrorObj "Failed to fetch teams")
  /\ Api.bookMeeting Samples.fresh_browser (as_fetch_fn (Samples.down _))
       "team-1" "Standup" "2026-02-09T10:00:00" None
     = Rejected (ErrorObj "Failed to book meeting").
Proof.
  pose proof (non_ok_response_never_fulfils Samples.fresh_browser Samples.down
                "buy milk" "milk" "Ada" "team-1" "ABC123" "pk" "2026-02-09"
                "2026-02-13" "Standup" "2026-02-09T10:00:00" [] (Some "task") None
                None None None
                (fun A rq => ex_intro _ _ (conj eq_refl eq_refl)))
    as (_ & _ & _ & _ & Hentries & _ & _ & Hteams & _ & _ & _ & Hbook).
  exact (conj Hentries (conj Hteams Hbook)).
Defined.

Lemma getEntries_query_witness :
  req_url (Client.getEntries_request Samples.fresh_browser (Some "to do & buy") (Some 7))
  = "http://localhost:8000/entries?category=to+do+%26+buy&limit=7".
Proof.
  refine (eq_trans (proj1 (getEntries_query Samples.fresh_browser
                             (Some "to do & buy") (Some 7) eq_refl)) _).
  vm_compute. reflexivity.
Defined.

Lemma error_detail_precedence_witness :
  Client.dump Samples.fresh_browser (Samples.down _) "buy milk"
  = Rejected (ErrorObj "Service unavailable")
  /\ Client.chat Samples.fresh_browser (Samples.down _) []
     = Rejected (ErrorObj "Service unavailable")
  /\ Client.createTeam Samples.fresh_browser (Samples.down _) "Ops"
     = Rejected (ErrorObj "Service unavailable")
  /\ Client.joinTeam Samples.fresh_browser (Samples.down _) "ABC123"
     = Rejected (ErrorObj "Service unavailable").
Proof.
  pose proof (error_detail_precedence Samples.fresh_browser Samples.down
                (Fulfilled (JObj [("detail", JStr "Service unavailable")]))
                "buy milk" "Ops" "ABC123" []
                (fun A rq => ex_intro _ _ (conj eq_refl (conj eq_refl eq_refl))))
    as H.
  cbv zeta beta in H. destruct H as (_ & _ & H & _).
  apply (H [("detail", JStr "Service unavailable")] "Service unavailable");
    [reflexivity|reflexivity|discriminate].
Defined.

Lemma setup_requests_authenticated_witness :
  let s := TeamSetup.run Samples.trim Samples.toUpperCase
             [ TeamSetup.TypeName " Ada ";
               TeamSetup.ClickContinue (Samples.answers Samples.registered);
               TeamSetup.ChooseCreate ]
             (TeamSetup.initial None, Samples.outside0) in
  TeamSetup.step (fst s) = TeamSetup.create
  /\ localStorage (TeamSetup.browser (snd s)) !! "cortex_api_key" = Some "sk-777"
  /\ req_headers (Api.createTeam_request (TeamSetup.browser (snd s)) "Ops")
       !! "Authorization"
     = Some "Bearer sk-777".
Proof.
  intros s.
  assert (Hstep : TeamSetup.step (fst s) = TeamSetup.create) by (vm_compute; reflexivity).
  assert (Hkey : TeamSetup.apiKey (fst s) = "sk-777") by (vm_compute; reflexivity).
  pose proof (setup_requests_authenticated Samples.trim Samples.toUpperCase None
                Samples.outside0
                [ TeamSetup.TypeName " Ada ";
                  TeamSetup.ClickContinue (Samples.answers Samples.registered);
                  TeamSetup.ChooseCreate ]
                "Ops" "ABC123" eq_refl
                (fun H : truthy_string None = true => False_ind _ (eq_ind false (fun b => if b then False else True) I true H))) as H.
  fold s in H. rewrite Hstep, Hkey in H.
  destruct (H ltac:(discriminate) ltac:(discriminate)) as (H1 & H2 & _).
  exact (conj Hstep (conj H1 H2)).
Defined.

Lemma dashboard_first_screen_witness :
  TeamDashboard.render Samples.trim Samples.fresh_browser
    (TeamDashboard.mount Samples.fresh_browser (Samples.network []))
  = TeamDashboard.SetupScreen None
  /\ TeamSetup.step (TeamSetup.initial None) = TeamSetup.register
  /\ forall net', TeamDashboard.mount Samples.fresh_browser net'
                  = TeamDashboard.mount Samples.fresh_browser (Samples.network []).
Proof.
  exact (proj1 (dashboard_first_screen Samples.trim Samples.fresh_browser
                  (Samples.network []) eq_refl) eq_refl).
Defined.
